(** * News / Auth / Articles API: a shallow embedding and its verified properties

    The development follows the layout of the repository.

    Definitions:
    - [Js]: the JavaScript built-ins the sources rely on ([trim], [split],
      truthiness, [===]);
    - [ArticleDoc], [UserDoc], [ReqUser], [Message]: the documents, the decoded
      token and the broadcast events;
    - [Prog]: asynchronous code as a tree of external calls (driver calls,
      clock, bcrypt, the broadcast hook), run against any world;
    - [Runtime]: the synchronous library functions, taken as given;
    - [UserModel], [AuthService], [ArticleModel], [ArticleService],
      [ArticleController], [AuthRoutes], [ArticleRoutes]: models/, services/,
      controllers/ and routes/;
    - [Ws]: realtime/ws.js;
    - [Jwt]: the token service;
    - [Mongo], [Newsroom]: an in-memory double of the store and of the process
      environment, and a small world to run the programs in;
    - [Terms]: the vocabulary of the properties;
    - [LoginRoute], [AuthController], [ArticleReads]: the login route, the
      user controllers and the read of one article;
    - [WsRun]: realtime/ws.js over a sequence of events;
    - [Db]: configs/db.js;
    - [Client]: webSocketClient.js;
    - [Wired]: the entry point's wiring of the broadcast hook;
    - [Words]: more vocabulary;
    - [Full]: programs over the whole of the driver's interface, with
      [Reads] and [Deletes], the reads of several articles and the deletion
      of a user, [Num], where their arithmetic is the code's, and
      [MongoMore], the double for them.

    Properties: [WsFacts], [ProgFacts], [HeaderFacts], [GateFacts],
    [ControllerFacts], [PolicyFacts], [JwtFacts], [TokenFacts], [SearchFacts],
    [SearchTheorems], [PasswordFacts], [NewsroomFacts]; then [WsRunFacts],
    [BearerFacts], [ArticleAnswerFacts], [AccountFacts], [ArticleInputFacts],
    [PagingFacts], [DbFacts], [ClientFacts], [WiredFacts], [NewsroomMore],
    [FullFacts], [DeleteFacts], [NumFacts], [ReadFacts], [ListFacts],
    [NewsroomRest].

    Strings are Rocq strings whose characters stand for the UTF-16 code units
    0..255; response messages are transcribed without diacritics and emoji. *)

From Stdlib Require Import String Ascii List ZArith NArith Bool Lia Arith.
Import ListNotations.
Local Open Scope string_scope.
Local Open Scope list_scope.

Set Implicit Arguments.

(* ================================================================== *)
(** * JavaScript built-ins *)

Module Js.

(** [!s] is true of the empty string only; [truthy] is its negation. *)
Definition truthy (s : string) : bool :=
  match s with EmptyString => false | String _ _ => true end.

(** An optional property: [None] is [undefined]. *)
Definition truthy_opt (o : option string) : bool :=
  match o with None => false | Some s => truthy s end.

(** [a === b] on values that are strings or [undefined]. *)
Definition strict_eq (a b : option string) : bool :=
  match a, b with
  | None, None => true
  | Some x, Some y => String.eqb x y
  | _, _ => false
  end.

(** White space and line terminators of [trim], among code units 0..255:
    TAB, LF, VT, FF, CR, SP and NBSP. *)
Definition is_space (c : ascii) : bool :=
  let n := nat_of_ascii c in
  (((9 <=? n) && (n <=? 13)) || (n =? 32) || (n =? 160))%nat.

Fixpoint trimStart (s : string) : string :=
  match s with
  | String c r => if is_space c then trimStart r else s
  | EmptyString => EmptyString
  end.

Fixpoint trimEnd (s : string) : string :=
  match s with
  | EmptyString => EmptyString
  | String c r =>
      match trimEnd r with
      | EmptyString => if is_space c then EmptyString else String c EmptyString
      | r' => String c r'
      end
  end.

Definition trim (s : string) : string := trimEnd (trimStart s).

(** [s.split(sep)] for a one-character separator: never empty; the pieces
    between consecutive separators are empty strings. *)
Fixpoint split (sep : ascii) (s : string) : list string :=
  match s with
  | EmptyString => [EmptyString]
  | String c r =>
      if Ascii.eqb c sep then EmptyString :: split sep r
      else match split sep r with
           | h :: t => String c h :: t
           | [] => [String c EmptyString]
           end
  end.

(** [a || d] for an optional string [a] and a string [d]. *)
Definition or_else (a : option string) (d : string) : string :=
  match a with
  | Some s => if truthy s then s else d
  | None => d
  end.

(** The string an optional value is once it has been tested to be one. *)
Definition the (s : option string) : string :=
  match s with Some s => s | None => EmptyString end.

(** [s.includes(sub)] *)
Fixpoint startsWith (s sub : string) : bool :=
  match sub, s with
  | EmptyString, _ => true
  | String _ _, EmptyString => false
  | String b sub', String a s' => Ascii.eqb a b && startsWith s' sub'
  end.

Fixpoint includes (s sub : string) : bool :=
  startsWith s sub
  || match s with
     | EmptyString => false
     | String _ s' => includes s' sub
     end.

(** [n || d] for a number [n], where [None] is [NaN]. *)
Definition number_or (n : option Z) (d : Z) : Z :=
  match n with
  | Some z => if Z.eqb z 0 then d else z
  | None => d
  end.

(** [arr[i]]: [undefined] past the end. *)
Definition index (l : list string) (i : nat) : option string := nth_error l i.

(** [Math.ceil(a / b)] for a count [a] and a positive integer [b]. *)
Definition ceil_div (a b : Z) : Z := (a + b - 1) / b.

(** Case folding of a code unit, as the [i] flag of a pattern folds it:
    the letters a-z and the Latin-1 letters 224..254, the division sign 247
    apart, are compared as their capitals, 32 below.  The micro sign 181,
    the sharp s 223 and the y with diaeresis 255 have no capital among the
    code units 0..255 and are compared as they are, like every other code
    unit. *)
Definition fold (c : ascii) : ascii :=
  let n := nat_of_ascii c in
  if (((97 <=? n) && (n <=? 122))
      || ((224 <=? n) && (n <=? 254) && negb (n =? 247)))%nat
  then ascii_of_nat (n - 32) else c.

Fixpoint chars (s : string) : list ascii :=
  match s with
  | EmptyString => []
  | String c r => c :: chars r
  end.

End Js.

(* ================================================================== *)
(** * Documents *)

(** A thrown value: [err.name] and [err.message]. *)
Record Exn := mkExn { exn_name : string; exn_message : string }.

(** A 12-byte ObjectId, as a number. *)
Definition ObjectId := N.

(** An article id reaches the services either as a route parameter (a
    string) or as the [insertedId] of a write (an ObjectId instance). *)
Inductive IdArg :=
| IdStr (s : string)
| IdObj (o : ObjectId).

Module ArticleDoc.

(** The fields a request body, and a [$set], may carry; an absent property
    is [None]. *)
Record fields := mkFields {
  title : option string;
  author : option string;
  journalName : option string;
  category : option (list string);
  description : option string;
  imageUrl : option string
}.

(** A stored article: the body's fields, the id and the two dates
    (milliseconds). *)
Record t := mk {
  id : ObjectId;
  body : fields;
  createdAt : Z;
  updatedAt : Z
}.

(** [{ $set: updateData }], with [updateData.updatedAt] always present. *)
Record patch := mkPatch {
  set_fields : fields;
  set_updatedAt : Z
}.

Definition over {A} (new old : option A) : option A :=
  match new with Some _ => new | None => old end.

Definition merge (new old : fields) : fields :=
  {| title := over (title new) (title old);
     author := over (author new) (author old);
     journalName := over (journalName new) (journalName old);
     category := over (category new) (category old);
     description := over (description new) (description old);
     imageUrl := over (imageUrl new) (imageUrl old) |}.

Definition apply (p : patch) (a : t) : t :=
  {| id := id a;
     body := merge (set_fields p) (body a);
     createdAt := createdAt a;
     updatedAt := set_updatedAt p |}.

Definition empty : fields := mkFields None None None None None None.

End ArticleDoc.

Module UserDoc.

(** A user document as the code reads and writes it.  [password] is the
    property the handlers strip; [None] is an absent property. *)
Record t := mk {
  id : option ObjectId;
  username : option string;
  email : option string;
  password : option string;
  role : option string;
  createdAt : option Z;
  updatedAt : option Z
}.

Definition over {A} (new old : option A) : option A :=
  match new with Some _ => new | None => old end.

(** [{ $set: updateData }] applied to a stored user. *)
Definition apply (p old : t) : t :=
  {| id := id old;
     username := over (username p) (username old);
     email := over (email p) (email old);
     password := over (password p) (password old);
     role := over (role p) (role old);
     createdAt := over (createdAt p) (createdAt old);
     updatedAt := over (updatedAt p) (updatedAt old) |}.

(** [const { password, ...userWithoutPassword } = user]; also what the
    projection [{ password: 0 }] leaves of a document. *)
Definition withoutPassword (u : t) : t :=
  {| id := id u; username := username u; email := email u;
     password := None; role := role u;
     createdAt := createdAt u; updatedAt := updatedAt u |}.

End UserDoc.

(** The decoded token as [req.user]: what [loginUser] signs is
    [{ userId, role }], to which the library adds [iat] and [exp] (seconds).
    [username] is the property [isAuthorOrAdmin] reads from it. *)
Record ReqUser := mkReqUser {
  userId : option ObjectId;
  role : option string;
  username : option string;
  iat : Z;
  exp : Z
}.

(** The events handed to the broadcast hook, and the two frames
    realtime/ws.js builds itself; [at_] stands for the ISO timestamp. *)
Inductive Criteria :=
| ByTitle (title : string)
| ByAuthor (author : string).

Inductive Message :=
| ArticleCreated (article : option ArticleDoc.t) (at_ : Z)
| ArticleUpdated (article : option ArticleDoc.t) (at_ : Z)
| ArticleDeleted (articleId : string) (at_ : Z)
| ArticlesUpdated (count : nat) (criteria : Criteria) (at_ : Z)
| ArticlesDeleted (count : nat) (criteria : Criteria) (at_ : Z)
| SystemWelcome (at_ : Z)
| Pong (at_ : Z).

(* ================================================================== *)
(** * Asynchronous code as a tree of external calls *)

(** What the article and user models ask of the driver.  A filter is the
    query object of the source. *)
Inductive ArticleFilter :=
| FId (o : ObjectId)                 (* { _id } *)
| FTitleRegex (source : string)      (* { title: { $regex: /source/i } } *)
| FAuthor (author : string)          (* { author } *)
| FSearch (source : string).         (* the [$or] of searchArticles *)

Inductive UserFilter :=
| UId (o : ObjectId)
| UEmail (email : string)
| UUsername (username : string).

Inductive DbOp : Type -> Type :=
| articles_insertOne (b : ArticleDoc.fields) (createdAt updatedAt : Z)
    : DbOp ObjectId
| articles_findOne (f : ArticleFilter) : DbOp (option ArticleDoc.t)
| articles_updateOne (f : ArticleFilter) (p : ArticleDoc.patch) : DbOp nat
| articles_updateMany (f : ArticleFilter) (p : ArticleDoc.patch) : DbOp nat
| articles_deleteOne (f : ArticleFilter) : DbOp nat
| articles_deleteMany (f : ArticleFilter) : DbOp nat
| articles_countDocuments (f : ArticleFilter) : DbOp nat
| articles_find_sorted (f : ArticleFilter) (skip limit : Z)
    : DbOp (list ArticleDoc.t)       (* .sort({createdAt:-1}).skip().limit() *)
| users_insertOne (u : UserDoc.t) : DbOp ObjectId
| users_findOne (f : UserFilter) : DbOp (option UserDoc.t)
| users_find_noPassword : DbOp (list UserDoc.t)
| users_updateOne (f : UserFilter) (p : UserDoc.t) : DbOp nat.

(** An external call and the type of its answer.  A driver call settles
    with a value or rejects with an error; [getDB()] throwing inside a model
    function is such a rejection. *)
Inductive Eff : Type -> Type :=
| Await (X : Type) (op : DbOp X) : Eff (Exn + X)
| NewDate : Eff Z
| BcryptHash (plain : option string) (rounds : nat) : Eff (Exn + string)
| BcryptCompare (plain hash : option string) : Eff (Exn + bool)
| WsBroadcast (m : Message) : Eff unit.

Arguments Await {X} op.

Module Prog.

Inductive t (R : Type) : Type :=
| Ret (r : R)
| Throw (e : Exn)
| Vis (X : Type) (e : Eff X) (k : X -> t R).

Arguments Ret {R} r.
Arguments Throw {R} e.
Arguments Vis {R X} e k.

Fixpoint bind {A B} (p : t A) (f : A -> t B) : t B :=
  match p with
  | Ret a => f a
  | Throw e => Throw e
  | Vis e k => Vis e (fun x => bind (k x) f)
  end.

(** [try { p } catch (err) { h err }] *)
Fixpoint try_catch {A} (p : t A) (h : Exn -> t A) : t A :=
  match p with
  | Ret a => Ret a
  | Throw e => h e
  | Vis e k => Vis e (fun x => try_catch (k x) h)
  end.

Definition call {X} (e : Eff X) : t X := Vis e (fun x => Ret x).

(** [await db.collection(..).op(..)] *)
Definition await {X} (op : DbOp X) : t X :=
  Vis (Await op) (fun r => match r with inl e => Throw e | inr x => Ret x end).

(** One answered call of a run. *)
Inductive Entry : Type :=
| Called (X : Type) (e : Eff X) (x : X).

Arguments Called {X} e x.

Inductive Result (R : Type) : Type :=
| Returned (r : R)
| Rejected (e : Exn).

Arguments Returned {R} r.
Arguments Rejected {R} e.

Section Run.
(** The world outside the process: a state and an answer to every
    call. *)
Variable S : Type.
Variable answer : forall X, Eff X -> S -> X * S.

Fixpoint run {R} (p : t R) (s : S) : Result R * S * list Entry :=
  match p with
  | Ret r => (Returned r, s, [])
  | Throw e => (Rejected e, s, [])
  | Vis e k =>
      let '(x, s1) := answer e s in
      let '(r, s2, tr) := run (k x) s1 in
      (r, s2, Called e x :: tr)
  end.

Definition result {R} (p : t R) (s : S) : Result R := fst (fst (run p s)).
Definition final {R} (p : t R) (s : S) : S := snd (fst (run p s)).
Definition trace {R} (p : t R) (s : S) : list Entry := snd (run p s).
End Run.

(** Readings of a trace. *)
Definition is_db (c : Entry) : bool :=
  match c with Called (Await _) _ => true | Called _ _ => false end.







Definition db_calls (tr : list Entry) : nat :=
  List.length (filter is_db tr).

End Prog.

Import Prog.

Declare Scope prog_scope.
Delimit Scope prog_scope with prog.
Notation "x <- p ;; q" := (Prog.bind p (fun x => q))
  (at level 61, p at next level, right associativity) : prog_scope.
Notation "p ;; q" := (Prog.bind p (fun _ => q))
  (at level 61, right associativity) : prog_scope.
Local Open Scope prog_scope.

(* ================================================================== *)
(** * Packages and built-ins the sources call *)

(** The synchronous library functions.  Their code is outside the
    repository, so the programs below take them as given:
    - [ObjectId_parse s] is [Some o] when [new ObjectId(s)] constructs [o]
      (and [ObjectId.isValid(s)] holds), [None] when it throws;
    - [RegExp_valid s] tells whether [new RegExp(s, 'i')] constructs;
    - [decodeURIComponent s] is [None] when the built-in throws [URIError];
    - [parseInt s] is [None] when the built-in yields [NaN], as it does on
      [undefined], and the integer it yields otherwise; digits on which it
      yields an infinity are outside the model;
    - [JWT_SECRET] is [process.env.JWT_SECRET];
    - [jwt_sign uid role secret expiresIn now] is
      [jwt.sign({ userId: uid, role }, secret, { expiresIn })] at clock [now]
      (seconds); [jwt_verify token secret now] is [jwt.verify(token, secret)],
      [inl] when it throws. *)
Class Runtime := {
  ObjectId_parse : string -> option ObjectId;
  RegExp_valid : string -> bool;
  decodeURIComponent : string -> option string;
  parseInt : option string -> option Z;
  JWT_SECRET : string;
  jwt_sign : option ObjectId -> option string -> string -> Z -> Z -> string;
  jwt_verify : string -> string -> Z -> Exn + ReqUser
}.

(** [new Error(message)] *)
Definition Error (message : string) : Exn := mkExn "Error" message.

(** Milliseconds to the seconds of a token's claims. *)
Definition seconds (ms : Z) : Z := ms / 1000.

Section Sources.
Context {rt : Runtime}.

(** [new ObjectId(x)] *)
Definition new_ObjectId (x : IdArg) : Prog.t ObjectId :=
  match x with
  | IdObj o => Ret o
  | IdStr s =>
      match ObjectId_parse s with
      | Some o => Ret o
      | None => Throw (mkExn "BSONError" "input must be a 24 character hex string")
      end
  end.

(** [ObjectId.isValid(x)] *)
Definition ObjectId_isValid (x : IdArg) : bool :=
  match x with
  | IdObj _ => true
  | IdStr s => match ObjectId_parse s with Some _ => true | None => false end
  end.

(** [new RegExp(source, 'i')]: the source, or [SyntaxError]. *)
Definition new_RegExp (source : string) : Prog.t string :=
  if RegExp_valid source then Ret source
  else Throw (mkExn "SyntaxError" "Invalid regular expression").

End Sources.

(* ================================================================== *)
(** * models/user.model.js *)

Module UserModel.
Section Defs.
Context {rt : Runtime}.

Definition createUser (userData : UserDoc.t) : Prog.t ObjectId :=
  await (users_insertOne userData).

Definition findUserByEmail (email : string) : Prog.t (option UserDoc.t) :=
  await (users_findOne (UEmail email)).

Definition findUserById (userId : string) : Prog.t (option UserDoc.t) :=
  o <- new_ObjectId (IdStr userId) ;;
  await (users_findOne (UId o)).

Definition findUserByUsername (username : string)
  : Prog.t (option UserDoc.t) :=
  await (users_findOne (UUsername username)).

(** [find({}, { projection: { password: 0 } })] *)
Definition findAllUsers : Prog.t (list UserDoc.t) :=
  await users_find_noPassword.

(** [updateData.updatedAt = new Date()] *)
Definition stamp (updateData : UserDoc.t) (now : Z) : UserDoc.t :=
  {| UserDoc.id := UserDoc.id updateData;
     UserDoc.username := UserDoc.username updateData;
     UserDoc.email := UserDoc.email updateData;
     UserDoc.password := UserDoc.password updateData;
     UserDoc.role := UserDoc.role updateData;
     UserDoc.createdAt := UserDoc.createdAt updateData;
     UserDoc.updatedAt := Some now |}.

(** The module never requires bcryptjs: the branch that hashes a given
    password reads the unbound name [bcrypt]. *)
Definition updateUserById (userId : string) (updateData : UserDoc.t)
  : Prog.t nat :=
  (if Js.truthy_opt (UserDoc.password updateData)
   then Throw (mkExn "ReferenceError" "bcrypt is not defined")
   else Ret tt) ;;
  now <- call NewDate ;;
  o <- new_ObjectId (IdStr userId) ;;
  await (users_updateOne (UId o) (stamp updateData now)).

Definition updateUserByEmail (email : string) (updateData : UserDoc.t)
  : Prog.t nat :=
  now <- call NewDate ;;
  await (users_updateOne (UEmail email) (stamp updateData now)).

Definition updateUserByUsername (username : string)
  (updateData : UserDoc.t) : Prog.t nat :=
  now <- call NewDate ;;
  await (users_updateOne (UUsername username) (stamp updateData now)).

End Defs.
End UserModel.

(* ================================================================== *)
(** * services/auth.services.js *)

Module AuthService.
Section Defs.
Context {rt : Runtime}.

(** [await bcrypt.hash(s, 10)] *)
Definition bcrypt_hash (s : option string) : Prog.t string :=
  r <- call (BcryptHash s 10) ;;
  match r with inl e => Throw e | inr h => Ret h end.

(** [await bcrypt.compare(s, hash)] *)
Definition bcrypt_compare (s hash : option string) : Prog.t bool :=
  r <- call (BcryptCompare s hash) ;;
  match r with inl e => Throw e | inr b => Ret b end.

Definition registerUser (userData : UserDoc.t) : Prog.t ObjectId :=
  hashedPassword <- bcrypt_hash (UserDoc.password userData) ;;
  createdAt <- call NewDate ;;
  updatedAt <- call NewDate ;;
  UserModel.createUser
    {| UserDoc.id := UserDoc.id userData;
       UserDoc.username := UserDoc.username userData;
       UserDoc.email := UserDoc.email userData;
       UserDoc.password := Some hashedPassword;
       UserDoc.role := Some (Js.or_else (UserDoc.role userData) "member");
       UserDoc.createdAt := Some createdAt;
       UserDoc.updatedAt := Some updatedAt |}.

(** What a successful login returns. *)
Record Login := mkLogin {
  token : string;
  login_userId : option ObjectId;
  login_username : option string;
  login_role : option string
}.

(** [{ expiresIn: '1h' }], in seconds. *)
Definition expiresIn : Z := 3600.

Definition loginUser (email : string) (password : option string)
  : Prog.t (option Login) :=
  user <- UserModel.findUserByEmail email ;;
  match user with
  | None => Ret None
  | Some user =>
      isMatch <- bcrypt_compare password (UserDoc.password user) ;;
      if negb isMatch then Ret None
      else
        now <- call NewDate ;;
        Ret (Some {| token := jwt_sign (UserDoc.id user) (UserDoc.role user)
                                       JWT_SECRET expiresIn (seconds now);
                     login_userId := UserDoc.id user;
                     login_username := UserDoc.username user;
                     login_role := UserDoc.role user |})
  end.

Definition verifyToken (token : string) : Prog.t ReqUser :=
  now <- call NewDate ;;
  match jwt_verify token JWT_SECRET (seconds now) with
  | inl e => Throw e
  | inr payload => Ret payload
  end.

Definition getAllUsers : Prog.t (list UserDoc.t) :=
  UserModel.findAllUsers.

Definition getUserById (userId : string) : Prog.t (option UserDoc.t) :=
  user <- UserModel.findUserById userId ;;
  match user with
  | None => Ret None
  | Some user => Ret (Some (UserDoc.withoutPassword user))
  end.

Definition updateUser (userId : string) (updateData : UserDoc.t)
  : Prog.t nat :=
  updateData1 <-
    (if Js.truthy_opt (UserDoc.password updateData)
     then
       h <- bcrypt_hash (UserDoc.password updateData) ;;
       Ret {| UserDoc.id := UserDoc.id updateData;
              UserDoc.username := UserDoc.username updateData;
              UserDoc.email := UserDoc.email updateData;
              UserDoc.password := Some h;
              UserDoc.role := UserDoc.role updateData;
              UserDoc.createdAt := UserDoc.createdAt updateData;
              UserDoc.updatedAt := UserDoc.updatedAt updateData |}
     else Ret updateData) ;;
  now <- call NewDate ;;
  UserModel.updateUserById userId (UserModel.stamp updateData1 now).

End Defs.
End AuthService.

(* ================================================================== *)
(** * models/article.model.js *)

(** What [searchArticles] resolves to. *)
Record SearchResult := mkSearchResult {
  articles : list ArticleDoc.t;
  totalArticles : nat;
  totalPages : Z;
  currentPage : Z;
  searchQuery : string
}.

Module ArticleModel.
Section Defs.
Context {rt : Runtime}.

(** The query object names five regular expressions over the same
    source; the first [new RegExp] throws when the source is no
    pattern. *)
Definition searchArticles (query : string) (page limit : Z)
  : Prog.t SearchResult :=
  let skip := ((page - 1) * limit)%Z in
  source <- new_RegExp query ;;
  totalArticles <- await (articles_countDocuments (FSearch source)) ;;
  articles <- await (articles_find_sorted (FSearch source) skip limit) ;;
  Ret {| articles := articles;
         totalArticles := totalArticles;
         totalPages := Js.ceil_div (Z.of_nat totalArticles) limit;
         currentPage := page;
         searchQuery := query |}.

Definition createArticle (articleData : ArticleDoc.fields)
  : Prog.t ObjectId :=
  createdAt <- call NewDate ;;
  updatedAt <- call NewDate ;;
  await (articles_insertOne articleData createdAt updatedAt).

Definition getArticleById (articleId : IdArg)
  : Prog.t (option ArticleDoc.t) :=
  o <- new_ObjectId articleId ;;
  await (articles_findOne (FId o)).

Definition updateArticle (articleId : IdArg) (updateData : ArticleDoc.fields)
  : Prog.t nat :=
  updatedAt <- call NewDate ;;
  o <- new_ObjectId articleId ;;
  await (articles_updateOne (FId o) (ArticleDoc.mkPatch updateData updatedAt)).

Definition updateArticlesByTitle (title : string)
  (updateData : ArticleDoc.fields) : Prog.t nat :=
  updatedAt <- call NewDate ;;
  source <- new_RegExp title ;;
  await (articles_updateMany (FTitleRegex source)
           (ArticleDoc.mkPatch updateData updatedAt)).

Definition updateArticlesByAuthor (author : string)
  (updateData : ArticleDoc.fields) : Prog.t nat :=
  updatedAt <- call NewDate ;;
  await (articles_updateMany (FAuthor author)
           (ArticleDoc.mkPatch updateData updatedAt)).

Definition deleteArticle (articleId : IdArg) : Prog.t nat :=
  o <- new_ObjectId articleId ;;
  await (articles_deleteOne (FId o)).

Definition deleteArticlesByTitle (title : string) : Prog.t nat :=
  source <- new_RegExp title ;;
  await (articles_deleteMany (FTitleRegex source)).

Definition deleteArticlesByAuthor (author : string) : Prog.t nat :=
  await (articles_deleteMany (FAuthor author)).

End Defs.
End ArticleModel.

(* ================================================================== *)
(** * services/article.services.js *)

Module ArticleService.
Section Defs.
Context {rt : Runtime}.

(** The dates the service puts on the article are replaced by the
    model's; the two clock readings remain. *)
Definition createArticleService (articleData : ArticleDoc.fields)
  : Prog.t ObjectId :=
  _ <- call NewDate ;;
  _ <- call NewDate ;;
  ArticleModel.createArticle
    {| ArticleDoc.title := ArticleDoc.title articleData;
       ArticleDoc.author := ArticleDoc.author articleData;
       ArticleDoc.journalName := ArticleDoc.journalName articleData;
       ArticleDoc.category := ArticleDoc.category articleData;
       ArticleDoc.description := ArticleDoc.description articleData;
       ArticleDoc.imageUrl :=
         Some (Js.or_else (ArticleDoc.imageUrl articleData) "") |}.

Definition getArticleByIdService (articleId : IdArg)
  : Prog.t (option ArticleDoc.t) :=
  if negb (ObjectId_isValid articleId)
  then Throw (Error "ID d'article invalide")
  else ArticleModel.getArticleById articleId.

Definition updateArticleService (articleId : IdArg)
  (updateData : ArticleDoc.fields) : Prog.t nat :=
  if negb (ObjectId_isValid articleId)
  then Throw (Error "ID d'article invalide")
  else
    _ <- call NewDate ;;
    ArticleModel.updateArticle articleId updateData.

Definition deleteArticleService (articleId : IdArg) : Prog.t nat :=
  if negb (ObjectId_isValid articleId)
  then Throw (Error "ID invalide")
  else ArticleModel.deleteArticle articleId.

(** [!s || typeof s !== 'string' || s.trim().length < 2] *)
Definition too_short (s : option string) : bool :=
  match s with
  | None => true
  | Some s => negb (Js.truthy s) || (String.length (Js.trim s) <? 2)%nat
  end.

(** [!s || typeof s !== 'string'] *)
Definition not_a_string (s : option string) : bool :=
  negb (Js.truthy_opt s).

Definition deleteArticlesByTitleService (title : option string)
  : Prog.t nat :=
  if too_short title
  then Throw (Error "Le titre doit contenir au moins 2 caracteres")
  else ArticleModel.deleteArticlesByTitle (Js.the title).

Definition deleteArticlesByAuthorService (author : option string)
  : Prog.t nat :=
  if too_short author
  then Throw (Error "Le nom d'auteur doit contenir au moins 2 caracteres")
  else ArticleModel.deleteArticlesByAuthor (Js.the author).

Definition updateArticlesByAuthorService (author : option string)
  (updateData : ArticleDoc.fields) : Prog.t nat :=
  if not_a_string author
  then Throw (Error "Nom d'auteur invalide")
  else ArticleModel.updateArticlesByAuthor (Js.the author) updateData.

Definition updateArticlesByTitleService (title : option string)
  (updateData : ArticleDoc.fields) : Prog.t nat :=
  if not_a_string title
  then Throw (Error "Titre invalide")
  else ArticleModel.updateArticlesByTitle (Js.the title) updateData.

Definition searchArticlesService (query : option string) (page limit : Z)
  : Prog.t SearchResult :=
  if too_short query
  then Throw (Error "La requete de recherche doit contenir au moins 2 caracteres")
  else if (page <? 1)%Z
  then Throw (Error "Le numero de page doit etre superieur a 0")
  else if ((limit <? 1) || (100 <? limit))%Z
  then Throw (Error "La limite doit etre entre 1 et 100")
  else
    let cleanedQuery := Js.trim (Js.the query) in
    ArticleModel.searchArticles cleanedQuery page limit.

End Defs.
End ArticleService.

(* ================================================================== *)
(** * Requests and responses *)

(** The parts of an Express request the handlers read.  A route binds the
    parameters of its path; [articleId] is the empty string on a route whose
    path has no [:articleId] (Express never binds a parameter to the empty
    string).  [wsBroadcast] tells whether [app.locals.wsBroadcast] is set, as
    the entry point does before listening. *)
Record Req := mkReq {
  authorization : option string;       (* req.headers.authorization *)
  user : option ReqUser;               (* req.user *)
  articleId : string;                  (* req.params.* *)
  p_title : string;
  p_author : string;
  p_userId : string;
  p_email : string;
  p_username : string;
  q : option string;                   (* req.query.* *)
  q_page : option string;
  q_limit : option string;
  body : ArticleDoc.fields;            (* req.body of an article route *)
  body_user : UserDoc.t;               (* req.body of a user route *)
  filename : option string;            (* req.file && req.file.filename *)
  wsBroadcast : bool
}.

Definition with_user (req : Req) (u : ReqUser) : Req :=
  {| authorization := authorization req; user := Some u;
     articleId := articleId req; p_title := p_title req;
     p_author := p_author req; p_userId := p_userId req;
     p_email := p_email req; p_username := p_username req;
     q := q req; q_page := q_page req; q_limit := q_limit req;
     body := body req; body_user := body_user req;
     filename := filename req; wsBroadcast := wsBroadcast req |}.

Inductive Json :=
| Message_ (message : string)
| MessageError (message error : string)
| MessageCount (message : string) (count : nat)
| MissingFields (missingFields : list string)
| ArticleId (message : string) (articleId : ObjectId)
| UserId (message : string) (userId : ObjectId)
| UserJson (u : UserDoc.t)
| UsersJson (l : list UserDoc.t)
| NoResults (message searchQuery : string)
| SearchJson (message : string) (r : SearchResult)
    (currentPage itemsPerPage : Z).

Record Response := mkResponse { status : nat; json : Json }.

(** [res.json(b)] and [res.status(n).json(b)] *)
Definition res_json (b : Json) : Response := mkResponse 200 b.
Definition res_status (n : nat) (b : Json) : Response := mkResponse n b.

(* ================================================================== *)
(** * controllers/article.controller.js *)

Module ArticleController.
Section Defs.
Context {rt : Runtime}.

(** [if (req.app.locals.wsBroadcast) req.app.locals.wsBroadcast(m)];
    the message, with its timestamp, is built before the call. *)
Definition notify (req : Req) (m : Z -> Message) : Prog.t unit :=
  if wsBroadcast req
  then at_ <- call NewDate ;; call (WsBroadcast (m at_))
  else Ret tt.

(** [decodeURIComponent(s)] *)
Definition decode (s : string) : Prog.t string :=
  match decodeURIComponent s with
  | Some d => Ret d
  | None => Throw (mkExn "URIError" "URI malformed")
  end.

Definition server_error (e : Exn) : Prog.t Response :=
  Ret (res_status 500 (MessageError "Erreur serveur" (exn_message e))).

Definition delete_error (e : Exn) : Prog.t Response :=
  Ret (res_status 400
         (MessageError "Erreur lors de la suppression" (exn_message e))).

Definition with_imageUrl (b : ArticleDoc.fields) (url : string)
  : ArticleDoc.fields :=
  {| ArticleDoc.title := ArticleDoc.title b;
     ArticleDoc.author := ArticleDoc.author b;
     ArticleDoc.journalName := ArticleDoc.journalName b;
     ArticleDoc.category := ArticleDoc.category b;
     ArticleDoc.description := ArticleDoc.description b;
     ArticleDoc.imageUrl := Some url |}.

(** [requiredFields.filter(field => !req.body[field])]; an array is
    truthy, also when empty. *)
Definition missingFields (b : ArticleDoc.fields) : list string :=
  (if Js.truthy_opt (ArticleDoc.title b) then [] else ["title"])
  ++ (if Js.truthy_opt (ArticleDoc.author b) then [] else ["author"])
  ++ (if Js.truthy_opt (ArticleDoc.journalName b) then [] else ["journalName"])
  ++ (match ArticleDoc.category b with Some _ => [] | None => ["category"] end)
  ++ (if Js.truthy_opt (ArticleDoc.description b) then [] else ["description"]).

Definition createArticle (req : Req) : Prog.t Response :=
  try_catch
    (let body1 :=
       match filename req with
       | Some f =>
           if Js.truthy f
           then with_imageUrl (body req)
                  ("http://192.168.1.194:3000" ++ "/api/v1/uploads/" ++ f)
           else body req
       | None => body req
       end in
     match missingFields body1 with
     | (_ :: _) as missing =>
         Ret (res_status 400 (MissingFields missing))
     | [] =>
         articleId <- ArticleService.createArticleService body1 ;;
         newArticle <- ArticleService.getArticleByIdService (IdObj articleId) ;;
         notify req (ArticleCreated newArticle) ;;
         Ret (res_status 201 (ArticleId "Article cree avec succes" articleId))
     end)
    server_error.

Definition updateArticle (req : Req) : Prog.t Response :=
  try_catch
    (modifiedCount <-
       ArticleService.updateArticleService (IdStr (articleId req)) (body req) ;;
     if (modifiedCount =? 0)%nat
     then Ret (res_status 404
                 (Message_ "Article introuvable ou aucune modification"))
     else
       updatedArticle <-
         ArticleService.getArticleByIdService (IdStr (articleId req)) ;;
       notify req (ArticleUpdated updatedArticle) ;;
       Ret (res_json (Message_ "Article modifie")))
    server_error.

Definition updateArticlesByTitle (req : Req) : Prog.t Response :=
  try_catch
    (title <- decode (p_title req) ;;
     modifiedCount <-
       ArticleService.updateArticlesByTitleService (Some title) (body req) ;;
     if (modifiedCount =? 0)%nat
     then Ret (res_status 404
                 (Message_ "Aucun article trouve avec le titre"))
     else
       notify req (ArticlesUpdated modifiedCount (ByTitle title)) ;;
       Ret (res_json (MessageCount "article(s) mis a jour" modifiedCount)))
    server_error.

Definition updateArticlesByAuthor (req : Req) : Prog.t Response :=
  try_catch
    (author <- decode (p_author req) ;;
     modifiedCount <-
       ArticleService.updateArticlesByAuthorService (Some author) (body req) ;;
     if (modifiedCount =? 0)%nat
     then Ret (res_status 404
                 (Message_ "Aucun article trouve pour l'auteur"))
     else
       notify req (ArticlesUpdated modifiedCount (ByAuthor author)) ;;
       Ret (res_json (MessageCount "article(s) mis a jour" modifiedCount)))
    server_error.

Definition deleteArticle (req : Req) : Prog.t Response :=
  try_catch
    (deletedCount <-
       ArticleService.deleteArticleService (IdStr (articleId req)) ;;
     if (deletedCount =? 0)%nat
     then Ret (res_status 404 (Message_ "Article introuvable"))
     else
       notify req (ArticleDeleted (articleId req)) ;;
       Ret (res_json
              (MessageCount "Article supprime avec succes" deletedCount)))
    delete_error.

Definition deleteArticlesByTitle (req : Req) : Prog.t Response :=
  try_catch
    (title <- decode (p_title req) ;;
     deletedCount <-
       ArticleService.deleteArticlesByTitleService (Some title) ;;
     if (deletedCount =? 0)%nat
     then Ret (res_status 404
                 (Message_ "Aucun article trouve avec le titre"))
     else
       notify req (ArticlesDeleted deletedCount (ByTitle title)) ;;
       Ret (res_json (MessageCount "article(s) supprime(s)" deletedCount)))
    delete_error.

Definition deleteArticlesByAuthor (req : Req) : Prog.t Response :=
  try_catch
    (author <- decode (p_author req) ;;
     deletedCount <-
       ArticleService.deleteArticlesByAuthorService (Some author) ;;
     if (deletedCount =? 0)%nat
     then Ret (res_status 404
                 (Message_ "Aucun article trouve pour l'auteur"))
     else
       notify req (ArticlesDeleted deletedCount (ByAuthor author)) ;;
       Ret (res_json (MessageCount "article(s) supprime(s)" deletedCount)))
    delete_error.

(** The routes file mounts this handler without any middleware. *)
Definition searchArticles (req : Req) : Prog.t Response :=
  try_catch
    (let query := q req in
     let page := Js.number_or (parseInt (q_page req)) 1 in
     let limit := Js.number_or (parseInt (q_limit req)) 10 in
     if negb (Js.truthy_opt query)
        || (String.length (Js.trim (Js.the query)) <? 2)%nat
     then Ret (res_status 400
                 (Message_ "La requete de recherche doit contenir au moins 2 caracteres"))
     else
       searchResults <- ArticleService.searchArticlesService query page limit ;;
       if (totalArticles searchResults =? 0)%nat
       then Ret (res_status 404
                   (NoResults "Aucun article trouve pour la recherche"
                      (Js.the query)))
       else Ret (res_json (SearchJson "article(s) trouve(s)" searchResults
                             page limit)))
    (fun err =>
       if Js.includes (exn_message err) "requete de recherche"
       then Ret (res_status 400 (Message_ (exn_message err)))
       else Ret (res_status 500
                   (MessageError "Erreur serveur lors de la recherche"
                      (exn_message err)))).

End Defs.
End ArticleController.

(* ================================================================== *)
(** * routes/auth.routes.js *)

(** A middleware either calls [next()], possibly after writing to the
    request, or answers. *)
Inductive Step :=
| Next (req : Req)
| Reply (r : Response).

Definition Middleware := Req -> Prog.t Step.
Definition Handler := Req -> Prog.t Response.

(** Express runs the stack of a route in order; a middleware that answers
    ends the request.  A rejection that no [try] catches leaves the request
    without an answer. *)
Fixpoint chain (stack : list Middleware) (h : Handler) (req : Req)
  : Prog.t Response :=
  match stack with
  | [] => h req
  | m :: rest =>
      s <- m req ;;
      match s with
      | Next req1 => chain rest h req1
      | Reply r => Ret r
      end
  end.

Module AuthRoutes.
Section Defs.
Context {rt : Runtime}.

(** [authHeader && authHeader.split(' ')[1]] *)
Definition bearer (authHeader : option string) : option string :=
  match authHeader with
  | None => None
  | Some h => if Js.truthy h then Js.index (Js.split " " h) 1 else Some h
  end.

Definition authenticate : Middleware := fun req =>
  let token := bearer (authorization req) in
  if negb (Js.truthy_opt token)
  then Ret (Reply (res_status 401 (Message_ "Token manquant")))
  else
    try_catch
      (u <- AuthService.verifyToken (Js.the token) ;;
       Ret (Next (with_user req u)))
      (fun err =>
         Ret (Reply (res_status 401
                       (MessageError "Token invalide" (exn_message err))))).

(** [req.user?.role] *)
Definition role_of (u : option ReqUser) : option string :=
  match u with Some u => role u | None => None end.

Definition isAdmin : Middleware := fun req =>
  if negb (Js.strict_eq (role_of (user req)) (Some "admin"))
  then Ret (Reply (res_status 403 (Message_ "Acces refuse - Admin requis")))
  else Ret (Next req).

Definition isAuthorOrAdmin : Middleware := fun req =>
  match user req with
  | None =>
      Ret (Reply (res_status 403
                    (Message_ "Acces refuse - Utilisateur non connecte")))
  | Some u =>
      if Js.strict_eq (role u) (Some "admin") then Ret (Next req)
      else if Js.strict_eq (role u) (Some "author") then
        if Js.truthy (articleId req) then
          article <- ArticleModel.getArticleById (IdStr (articleId req)) ;;
          match article with
          | None =>
              Ret (Reply (res_status 404 (Message_ "Article non trouve")))
          | Some article =>
              if negb (Js.strict_eq (ArticleDoc.author (ArticleDoc.body article))
                                    (username u))
              then Ret (Reply (res_status 403
                     (Message_ "Acces refuse - Vous n'etes pas l'auteur de cet article")))
              else Ret (Next req)
          end
        else Ret (Next req)
      else Ret (Reply (res_status 403
                 (Message_ "Acces refuse - Role author ou admin requis")))
  end.

(** ** The user routes *)

Definition register : Handler := fun req =>
  try_catch
    (userId <- AuthService.registerUser (body_user req) ;;
     Ret (res_status 201 (UserId "Utilisateur cree" userId)))
    (fun err => Ret (res_status 400
                       (MessageError "Erreur d'inscription" (exn_message err)))).

Definition server_error (e : Exn) : Prog.t Response :=
  Ret (res_status 500 (MessageError "Erreur serveur" (exn_message e))).

Definition update_error (e : Exn) : Prog.t Response :=
  Ret (res_status 500 (MessageError "Erreur de mise a jour" (exn_message e))).

Definition not_found : Response :=
  res_status 404 (Message_ "Utilisateur non trouve").

Definition get_users : Handler := fun req =>
  try_catch
    (users <- AuthService.getAllUsers ;; Ret (res_json (UsersJson users)))
    server_error.

Definition get_user_by_id : Handler := fun req =>
  try_catch
    (u <- AuthService.getUserById (p_userId req) ;;
     match u with
     | None => Ret not_found
     | Some u => Ret (res_json (UserJson u))
     end)
    server_error.

Definition get_user_by_email : Handler := fun req =>
  try_catch
    (u <- UserModel.findUserByEmail (p_email req) ;;
     match u with
     | None => Ret not_found
     | Some u => Ret (res_json (UserJson (UserDoc.withoutPassword u)))
     end)
    server_error.

Definition get_user_by_username : Handler := fun req =>
  try_catch
    (u <- UserModel.findUserByUsername (p_username req) ;;
     match u with
     | None => Ret not_found
     | Some u => Ret (res_json (UserJson (UserDoc.withoutPassword u)))
     end)
    server_error.

Definition updated (modifiedCount : nat) : Prog.t Response :=
  if (modifiedCount =? 0)%nat
  then Ret (res_status 404 (Message_ "Utilisateur non trouve ou non modifie"))
  else Ret (res_json (MessageCount "Utilisateur mis a jour" modifiedCount)).

Definition put_user_by_id : Handler := fun req =>
  try_catch
    (n <- AuthService.updateUser (p_userId req) (body_user req) ;; updated n)
    update_error.

Definition put_user_by_email : Handler := fun req =>
  try_catch
    (n <- UserModel.updateUserByEmail (p_email req) (body_user req) ;;
     updated n)
    update_error.

Definition put_user_by_username : Handler := fun req =>
  try_catch
    (n <- UserModel.updateUserByUsername (p_username req) (body_user req) ;;
     updated n)
    update_error.

(** The user routes with their stacks. *)
Inductive Route :=
| PostRegister
| GetUsers | GetUserById | GetUserByEmail | GetUserByUsername
| PutUserById | PutUserByEmail | PutUserByUsername.

Definition dispatch (r : Route) : Handler :=
  match r with
  | PostRegister => chain [] register
  | GetUsers => chain [authenticate; isAdmin] get_users
  | GetUserById => chain [authenticate] get_user_by_id
  | GetUserByEmail => chain [authenticate] get_user_by_email
  | GetUserByUsername => chain [authenticate] get_user_by_username
  | PutUserById => chain [authenticate; isAdmin] put_user_by_id
  | PutUserByEmail => chain [authenticate; isAdmin] put_user_by_email
  | PutUserByUsername => chain [authenticate; isAdmin] put_user_by_username
  end.

End Defs.
End AuthRoutes.

(* ================================================================== *)
(** * routes/article.routes.js *)

Module ArticleRoutes.
Section Defs.
Context {rt : Runtime}.

(** The mutation routes, all declared after
    [router.use(authenticate, isAdmin)]. *)
Inductive Route :=
| PostArticle                     (* POST   /                *)
| PutById                         (* PUT    /id/:articleId   *)
| PutByTitle                      (* PUT    /title/:title    *)
| PutByAuthor                     (* PUT    /author/:author  *)
| DeleteById                      (* DELETE /id/:articleId   *)
| DeleteByTitle                   (* DELETE /title/:title    *)
| DeleteByAuthor.                 (* DELETE /author/:author  *)

Definition protected : list Middleware :=
  [AuthRoutes.authenticate; AuthRoutes.isAdmin].

(** The middleware a route names itself.  [POST /] also names
    [upload.single('image')]: the upload is taken as done, [filename] and
    [body] of the request being what it left; an upload that fails is not
    modelled. *)
Definition own (r : Route) : list Middleware :=
  match r with
  | PostArticle | DeleteByAuthor => []
  | PutById | PutByTitle | PutByAuthor | DeleteById | DeleteByTitle =>
      [AuthRoutes.isAuthorOrAdmin]
  end.

Definition controller (r : Route) : Handler :=
  match r with
  | PostArticle => ArticleController.createArticle
  | PutById => ArticleController.updateArticle
  | PutByTitle => ArticleController.updateArticlesByTitle
  | PutByAuthor => ArticleController.updateArticlesByAuthor
  | DeleteById => ArticleController.deleteArticle
  | DeleteByTitle => ArticleController.deleteArticlesByTitle
  | DeleteByAuthor => ArticleController.deleteArticlesByAuthor
  end.

Definition dispatch (r : Route) : Handler :=
  chain (protected ++ own r) (controller r).

(** The routes whose path names one article. *)
Definition by_id (r : Route) : bool :=
  match r with PutById | DeleteById => true | _ => false end.

End Defs.
End ArticleRoutes.

(* ================================================================== *)
(** * realtime/ws.js *)

Module Ws.

(** [ws.readyState] *)
Inductive ReadyState := CONNECTING | OPEN | CLOSING | CLOSED.

Definition is_OPEN (r : ReadyState) : bool :=
  match r with OPEN => true | _ => false end.

(** A socket object, by identity. *)
Definition Socket := nat.

(** What [JSON.parse] yields. *)
#[warnings="-register-all"]
Inductive JSON :=
| JNull
| JBool (b : bool)
| JNumber (literal : string)
| JString (s : string)
| JArray (items : list JSON)
| JObject (properties : list (string * JSON)).

Definition lookup (key : string) (properties : list (string * JSON))
  : option JSON :=
  match find (fun kv => String.eqb (fst kv) key) properties with
  | Some kv => Some (snd kv)
  | None => None
  end.

(** [data.type]: a [TypeError] on [null], the property of an object, and
    [undefined] on any other value. *)
Definition get_type (data : JSON) : Exn + option JSON :=
  match data with
  | JNull => inl (mkExn "TypeError" "Cannot read properties of null")
  | JObject properties => inr (lookup "type" properties)
  | _ => inr None
  end.

(** [v === 'ping'] *)
Definition is_ping (v : option JSON) : bool :=
  match v with
  | Some (JString s) => String.eqb s "ping"
  | _ => false
  end.

(** The closure state of [initWebSocket]: the [clients] set in insertion
    order, and the ready state of every socket, which the transport
    owns. *)
Record Server := mkServer {
  clients : list Socket;
  readyState : Socket -> ReadyState
}.

(** The calls the module makes. *)
Inductive Effect :=
| Stringify (m : Message)               (* JSON.stringify(m) *)
| Send (ws : Socket) (data : string).   (* ws.send(data)     *)

(** [Set.prototype.add] and [Set.prototype.delete] *)
Definition Set_add (ws : Socket) (l : list Socket) : list Socket :=
  if existsb (Nat.eqb ws) l then l else l ++ [ws].

Definition Set_delete (ws : Socket) (l : list Socket) : list Socket :=
  filter (fun c => negb (Nat.eqb c ws)) l.

Definition with_clients (s : Server) (l : list Socket) : Server :=
  {| clients := l; readyState := readyState s |}.

(** The transport moves a socket to another ready state. *)
Definition transport (ws : Socket) (r : ReadyState) (s : Server) : Server :=
  {| clients := clients s;
     readyState := fun c => if Nat.eqb c ws then r else readyState s c |}.

Section Handlers.
Variable JSON_parse : string -> option JSON.     (* [None]: SyntaxError *)
Variable JSON_stringify : Message -> string.

(** [wss.on('connection', ws => ...)] up to the registration of the
    socket's own handlers. *)
Definition on_connection (ws : Socket) (now : Z) (s : Server)
  : Server * list Effect :=
  (with_clients s (Set_add ws (clients s)),
   [Stringify (SystemWelcome now);
    Send ws (JSON_stringify (SystemWelcome now))]).

(** [ws.on('message', message => ...)]; the [catch] only logs. *)
Definition on_message (ws : Socket) (message : string) (now : Z)
  (s : Server) : Server * list Effect :=
  match JSON_parse message with
  | None => (s, [])
  | Some data =>
      match get_type data with
      | inl _ => (s, [])
      | inr ty =>
          if is_ping ty
          then (s, [Stringify (Pong now); Send ws (JSON_stringify (Pong now))])
          else (s, [])
      end
  end.

(** [ws.on('close', ...)] and [ws.on('error', ...)] *)
Definition on_close (ws : Socket) (s : Server) : Server * list Effect :=
  (with_clients s (Set_delete ws (clients s)), []).

Definition on_error (ws : Socket) (s : Server) : Server * list Effect :=
  (with_clients s (Set_delete ws (clients s)), []).

(** The callback of [clients.forEach] in [broadcast]. *)
Definition deliver (s : Server) (messageString : string) (client : Socket)
  : list Effect :=
  if is_OPEN (readyState s client) then [Send client messageString] else [].

Definition broadcast (message : Message) (s : Server)
  : Server * list Effect :=
  let messageString := JSON_stringify message in
  (s, Stringify message :: flat_map (deliver s messageString) (clients s)).

End Handlers.

(** Readings of the calls. *)
Definition is_stringify (e : Effect) : bool :=
  match e with Stringify _ => true | Send _ _ => false end.

Definition sent_data (ws : Socket) (es : list Effect) : list string :=
  flat_map (fun e => match e with
                     | Send c d => if Nat.eqb c ws then [d] else []
                     | Stringify _ => []
                     end) es.

Definition stringified (es : list Effect) : nat :=
  List.length (filter is_stringify es).

Definition registered (ws : Socket) (s : Server) : bool :=
  existsb (Nat.eqb ws) (clients s).

End Ws.

(* ================================================================== *)
(** * The token service *)

Module Jwt.

(** The jsonwebtoken package, which services/auth.services.js calls, is not
    among the sources: [sign] and [verify] below are modelled from the
    specification of the token service.  The wire form of a token (five
    dot-separated fields: the four claims and the signature) is the
    model's; the keyed signature primitive [mac] is a parameter. *)

(** ** The wire form *)

Definition hex_digits : list ascii := Js.chars "0123456789abcdef".

Definition hex_digit (n : nat) : ascii := nth n hex_digits "0"%char.

Fixpoint position (c : ascii) (l : list ascii) : option nat :=
  match l with
  | [] => None
  | d :: r => if Ascii.eqb c d then Some 0
              else option_map S (position c r)
  end.

Definition hex_value (c : ascii) : option nat := position c hex_digits.

Fixpoint to_hex (s : string) : string :=
  match s with
  | EmptyString => EmptyString
  | String c r =>
      let n := nat_of_ascii c in
      String (hex_digit (n / 16)) (String (hex_digit (n mod 16)) (to_hex r))
  end.

Fixpoint of_hex (s : string) : option string :=
  match s with
  | EmptyString => Some EmptyString
  | String h (String l r) =>
      match hex_value h, hex_value l, of_hex r with
      | Some a, Some b, Some r' => Some (String (ascii_of_nat (16 * a + b)) r')
      | _, _, _ => None
      end
  | String _ EmptyString => None
  end.

(** Binary digits of a positive number, least significant first. *)
Fixpoint enc_pos (p : positive) : string :=
  match p with
  | xH => "1"
  | xO q => String "0" (enc_pos q)
  | xI q => String "1" (enc_pos q)
  end.

Fixpoint dec_pos (s : string) : option positive :=
  match s with
  | EmptyString => None
  | String c r =>
      match r with
      | EmptyString => if Ascii.eqb c "1" then Some xH else None
      | String _ _ =>
          match dec_pos r with
          | Some q => if Ascii.eqb c "0" then Some (xO q)
                      else if Ascii.eqb c "1" then Some (xI q) else None
          | None => None
          end
      end
  end.

Definition enc_Z (z : Z) : string :=
  match z with
  | Z0 => "z"
  | Zpos p => String "p" (enc_pos p)
  | Zneg p => String "m" (enc_pos p)
  end.

Definition dec_Z (s : string) : option Z :=
  match s with
  | String c r =>
      if Ascii.eqb c "z" then match r with EmptyString => Some Z0 | _ => None end
      else if Ascii.eqb c "p" then option_map Zpos (dec_pos r)
      else if Ascii.eqb c "m" then option_map Zneg (dec_pos r)
      else None
  | EmptyString => None
  end.

(** An optional id and an optional role: ["u"] is [undefined]. *)
Definition enc_id (o : option ObjectId) : string :=
  match o with
  | None => "u"
  | Some n => enc_Z (Z.of_N n)
  end.

Definition dec_id (s : string) : option (option ObjectId) :=
  if String.eqb s "u" then Some None
  else match dec_Z s with
       | Some z => if (z <? 0)%Z then None else Some (Some (Z.to_N z))
       | None => None
       end.

Definition enc_role (o : option string) : string :=
  match o with
  | None => "u"
  | Some r => String "s" (to_hex r)
  end.

Definition dec_role (s : string) : option (option string) :=
  match s with
  | String c r =>
      if Ascii.eqb c "u" then match r with EmptyString => Some None | _ => None end
      else if Ascii.eqb c "s" then option_map Some (of_hex r)
      else None
  | EmptyString => None
  end.

Definition dot : string := ".".

Definition JsonWebTokenError (message : string) : Exn :=
  mkExn "JsonWebTokenError" message.

Definition TokenExpiredError : Exn := mkExn "TokenExpiredError" "jwt expired".

Section WithMac.
Variable mac : string -> string -> string.   (* secret, signed text *)

Definition claims_text (uid : option ObjectId) (role : option string)
  (iat exp : Z) : string :=
  enc_id uid ++ dot ++ enc_role role ++ dot ++ enc_Z iat ++ dot ++ enc_Z exp.

(** Modelled from the spec: [jwt.sign] of the jsonwebtoken package.
    "issue(subjectId, role) -> token: produces a signed token with a fixed
    expiry", "encoding {subjectId, role, issuedAt, expiresAt}": the claims
    are the id, the role, the clock at the signature and that clock plus
    [expiresIn], followed by their signature under the secret. *)
Definition sign (uid : option ObjectId) (role : option string)
  (secret : string) (expiresIn now : Z) : string :=
  let text := claims_text uid role now (now + expiresIn) in
  text ++ dot ++ to_hex (mac secret text).

(** Modelled from the spec: [jwt.verify] of the jsonwebtoken package.
    "verify(token) -> {subjectId, role}: fails with InvalidToken if signature
    invalid, malformed, or expired. No I/O; pure function of the token and a
    shared secret": a token that does not split into five fields that
    decode is malformed; the signature must be that of the four claim fields
    under the secret; the token is expired once the clock has reached its
    expiry.  Otherwise the claims are returned. *)
Definition verify (token secret : string) (now : Z) : Exn + ReqUser :=
  match Js.split "." token with
  | [u; r; i; e; sg] =>
      match dec_id u, dec_role r, dec_Z i, dec_Z e with
      | Some uid, Some role, Some iat, Some exp =>
          if String.eqb sg
               (to_hex (mac secret (u ++ dot ++ r ++ dot ++ i ++ dot ++ e)))
          then
            if (exp <=? now)%Z then inl TokenExpiredError
            else inr {| userId := uid; role := role; username := None;
                        iat := iat; exp := exp |}
          else inl (JsonWebTokenError "invalid signature")
      | _, _, _, _ => inl (JsonWebTokenError "jwt malformed")
      end
  | _ => inl (JsonWebTokenError "jwt malformed")
  end.

End WithMac.

End Jwt.

(* ================================================================== *)
(** * An in-memory double of the store and of the process environment *)

Module Mongo.

(** ** Patterns

    The store evaluates the patterns it is sent.  The double knows the
    patterns made of ordinary characters and of the dot; a source with
    any other pattern syntax is outside it. *)
Inductive Atom :=
| Lit (c : ascii)
| Dot.

Definition is_syntax (c : ascii) : bool :=
  existsb (Ascii.eqb c) (Js.chars "\^$*+?()[]{}|").

Fixpoint atoms (source : list ascii) : option (list Atom) :=
  match source with
  | [] => Some []
  | c :: r =>
      if is_syntax c then None
      else option_map (cons (if Ascii.eqb c "." then Dot else Lit c)) (atoms r)
  end.

(** A dot stands for any character but a line break. *)
Definition atom_matches (a : Atom) (c : ascii) : bool :=
  match a with
  | Lit l => Ascii.eqb (Js.fold l) (Js.fold c)
  | Dot => negb (Ascii.eqb c "010" || Ascii.eqb c "013")
  end.

Fixpoint match_here (p : list Atom) (s : list ascii) : bool :=
  match p, s with
  | [], _ => true
  | _ :: _, [] => false
  | a :: p', c :: s' => atom_matches a c && match_here p' s'
  end.

Fixpoint match_anywhere (p : list Atom) (s : list ascii) : bool :=
  match_here p s
  || match s with
     | [] => false
     | _ :: s' => match_anywhere p s'
     end.

(** [{ $regex: /source/i }] against a string value. *)
Definition regex_test (source subject : string) : bool :=
  match atoms (Js.chars source) with
  | Some p => match_anywhere p (Js.chars subject)
  | None => false
  end.

Definition regex_test_opt (source : string) (subject : option string) : bool :=
  match subject with Some s => regex_test source s | None => false end.

(** ** Collections *)

Definition matches (f : ArticleFilter) (a : ArticleDoc.t) : bool :=
  let b := ArticleDoc.body a in
  match f with
  | FId o => N.eqb (ArticleDoc.id a) o
  | FTitleRegex source => regex_test_opt source (ArticleDoc.title b)
  | FAuthor author => Js.strict_eq (ArticleDoc.author b) (Some author)
  | FSearch source =>
      regex_test_opt source (ArticleDoc.title b)
      || regex_test_opt source (ArticleDoc.description b)
      || match ArticleDoc.category b with
         | Some l => existsb (regex_test source) l
         | None => false
         end
      || regex_test_opt source (ArticleDoc.journalName b)
      || regex_test_opt source (ArticleDoc.author b)
  end.

Definition opt_eqb {A} (eqb : A -> A -> bool) (x y : option A) : bool :=
  match x, y with
  | Some a, Some b => eqb a b
  | None, None => true
  | _, _ => false
  end.

Fixpoint list_eqb {A} (eqb : A -> A -> bool) (x y : list A) : bool :=
  match x, y with
  | [], [] => true
  | a :: x', b :: y' => eqb a b && list_eqb eqb x' y'
  | _, _ => false
  end.

Definition fields_eqb (x y : ArticleDoc.fields) : bool :=
  opt_eqb String.eqb (ArticleDoc.title x) (ArticleDoc.title y)
  && opt_eqb String.eqb (ArticleDoc.author x) (ArticleDoc.author y)
  && opt_eqb String.eqb (ArticleDoc.journalName x) (ArticleDoc.journalName y)
  && opt_eqb (list_eqb String.eqb) (ArticleDoc.category x) (ArticleDoc.category y)
  && opt_eqb String.eqb (ArticleDoc.description x) (ArticleDoc.description y)
  && opt_eqb String.eqb (ArticleDoc.imageUrl x) (ArticleDoc.imageUrl y).

Definition article_eqb (x y : ArticleDoc.t) : bool :=
  N.eqb (ArticleDoc.id x) (ArticleDoc.id y)
  && fields_eqb (ArticleDoc.body x) (ArticleDoc.body y)
  && Z.eqb (ArticleDoc.createdAt x) (ArticleDoc.createdAt y)
  && Z.eqb (ArticleDoc.updatedAt x) (ArticleDoc.updatedAt y).

Definition user_eqb (x y : UserDoc.t) : bool :=
  opt_eqb N.eqb (UserDoc.id x) (UserDoc.id y)
  && opt_eqb String.eqb (UserDoc.username x) (UserDoc.username y)
  && opt_eqb String.eqb (UserDoc.email x) (UserDoc.email y)
  && opt_eqb String.eqb (UserDoc.password x) (UserDoc.password y)
  && opt_eqb String.eqb (UserDoc.role x) (UserDoc.role y)
  && opt_eqb Z.eqb (UserDoc.createdAt x) (UserDoc.createdAt y)
  && opt_eqb Z.eqb (UserDoc.updatedAt x) (UserDoc.updatedAt y).

(** Update the first document the filter selects ([many = false]) or all
    of them; the count is that of the documents the update changed. *)
Fixpoint update {A} (sel : A -> bool) (upd : A -> A) (eqb : A -> A -> bool)
  (many : bool) (l : list A) : list A * nat :=
  match l with
  | [] => ([], 0)
  | a :: r =>
      if sel a then
        let '(r', n) := if many then update sel upd eqb many r else (r, 0) in
        (upd a :: r', if eqb (upd a) a then n else S n)
      else
        let '(r', n) := update sel upd eqb many r in (a :: r', n)
  end.

Fixpoint remove {A} (sel : A -> bool) (many : bool) (l : list A)
  : list A * nat :=
  match l with
  | [] => ([], 0)
  | a :: r =>
      if sel a then
        if many then let '(r', n) := remove sel many r in (r', S n)
        else (r, 1)
      else let '(r', n) := remove sel many r in (a :: r', n)
  end.

(** [sort({ createdAt: -1 })]: most recent first. *)
Fixpoint insert_desc (a : ArticleDoc.t) (l : list ArticleDoc.t)
  : list ArticleDoc.t :=
  match l with
  | [] => [a]
  | b :: r =>
      if (ArticleDoc.createdAt b <? ArticleDoc.createdAt a)%Z
      then a :: l else b :: insert_desc a r
  end.

Definition sort_desc (l : list ArticleDoc.t) : list ArticleDoc.t :=
  fold_right insert_desc [] l.

Definition user_matches (f : UserFilter) (u : UserDoc.t) : bool :=
  match f with
  | UId o => opt_eqb N.eqb (UserDoc.id u) (Some o)
  | UEmail e => Js.strict_eq (UserDoc.email u) (Some e)
  | UUsername n => Js.strict_eq (UserDoc.username u) (Some n)
  end.

(** The world of a run: the two collections, the next id the store
    hands out, the clock (milliseconds), what the broadcast hook was
    given, and for the coming driver calls whether each is lost to an
    outage. *)
Record World := mkWorld {
  articles : list ArticleDoc.t;
  users : list UserDoc.t;
  nextId : N;
  clock : Z;
  broadcasts : list Message;
  outage : list bool
}.

Definition with_articles (w : World) (l : list ArticleDoc.t) : World :=
  mkWorld l (users w) (nextId w) (clock w) (broadcasts w) (outage w).

Definition with_users (w : World) (l : list UserDoc.t) : World :=
  mkWorld (articles w) l (nextId w) (clock w) (broadcasts w) (outage w).

Definition with_id (u : UserDoc.t) (o : ObjectId) : UserDoc.t :=
  UserDoc.mk (Some o) (UserDoc.username u) (UserDoc.email u)
    (UserDoc.password u) (UserDoc.role u)
    (UserDoc.createdAt u) (UserDoc.updatedAt u).

Definition duplicate_key : Exn :=
  mkExn "MongoServerError" "E11000 duplicate key error".

(** The driver call on the collections. *)
Definition perform {X} (op : DbOp X) (w : World) : (Exn + X) * World :=
  match op in DbOp X return (Exn + X) * World with
  | articles_insertOne b c u =>
      (inr (nextId w),
       mkWorld (articles w ++ [ArticleDoc.mk (nextId w) b c u]) (users w)
         (N.succ (nextId w)) (clock w) (broadcasts w) (outage w))
  | articles_findOne f => (inr (find (matches f) (articles w)), w)
  | articles_updateOne f p =>
      let '(l, n) := update (matches f) (ArticleDoc.apply p) article_eqb
                       false (articles w) in
      (inr n, with_articles w l)
  | articles_updateMany f p =>
      let '(l, n) := update (matches f) (ArticleDoc.apply p) article_eqb
                       true (articles w) in
      (inr n, with_articles w l)
  | articles_deleteOne f =>
      let '(l, n) := remove (matches f) false (articles w) in
      (inr n, with_articles w l)
  | articles_deleteMany f =>
      let '(l, n) := remove (matches f) true (articles w) in
      (inr n, with_articles w l)
  | articles_countDocuments f =>
      (inr (List.length (filter (matches f) (articles w))), w)
  | articles_find_sorted f skip limit =>
      if (skip <? 0)%Z
      then (inl (mkExn "MongoServerError" "skip must be non-negative"), w)
      else
        let found := skipn (Z.to_nat skip)
                       (sort_desc (filter (matches f) (articles w))) in
        (inr (if (limit =? 0)%Z then found
              else firstn (Z.to_nat (Z.abs limit)) found), w)
  | users_insertOne u =>
      (* the unique index on [email] *)
      if existsb (fun v => opt_eqb String.eqb (UserDoc.email v) (UserDoc.email u))
           (users w)
      then (inl duplicate_key, w)
      else
        (inr (nextId w),
         mkWorld (articles w) (users w ++ [with_id u (nextId w)])
           (N.succ (nextId w)) (clock w) (broadcasts w) (outage w))
  | users_findOne f => (inr (find (user_matches f) (users w)), w)
  | users_find_noPassword =>
      (inr (map UserDoc.withoutPassword (users w)), w)
  | users_updateOne f p =>
      let '(l, n) := update (user_matches f) (UserDoc.apply p) user_eqb
                       false (users w) in
      (inr n, with_users w l)
  end.

(** A stand-in for the hash of bcryptjs: a function of the plaintext. *)
Definition hash (plain : string) : string := "$2a$10$" ++ Jwt.to_hex plain.

Definition illegal : Exn := Error "Illegal arguments".

Definition answer (X : Type) (e : Eff X) (w : World) : X * World :=
  match e in Eff X return X * World with
  | Await op =>
      match outage w with
      | true :: rest =>
          (inl (mkExn "MongoNetworkError" "connection closed"),
           mkWorld (articles w) (users w) (nextId w) (clock w)
             (broadcasts w) rest)
      | false :: rest =>
          perform op (mkWorld (articles w) (users w) (nextId w) (clock w)
                        (broadcasts w) rest)
      | [] => perform op w
      end
  | NewDate => (clock w, w)
  | BcryptHash plain _ =>
      (match plain with Some s => inr (hash s) | None => inl illegal end, w)
  | BcryptCompare plain h =>
      (match plain, h with
       | Some s, Some h => inr (String.eqb (hash s) h)
       | _, _ => inl illegal
       end, w)
  | WsBroadcast m =>
      (tt, mkWorld (articles w) (users w) (nextId w) (clock w)
             (broadcasts w ++ [m]) (outage w))
  end.

(** ** The library functions of the double *)

(** [new ObjectId(s)] on a string: twenty-four hexadecimal digits. *)
Definition hex_value_ci (c : ascii) : option nat :=
  match Jwt.hex_value c with
  | Some v => Some v
  | None => Jwt.position c (Js.chars "0123456789ABCDEF")
  end.

Fixpoint hex_number (acc : N) (s : string) : option N :=
  match s with
  | EmptyString => Some acc
  | String c r =>
      match hex_value_ci c with
      | Some v => hex_number (16 * acc + N.of_nat v) r
      | None => None
      end
  end.

Definition ObjectId_hex (s : string) : option ObjectId :=
  if (String.length s =? 24)%nat then hex_number 0 s else None.

(** The patterns the double knows are the ones it lets [new RegExp] build. *)
Definition known_pattern (source : string) : bool :=
  match atoms (Js.chars source) with Some _ => true | None => false end.

(** The double decodes no escape: a string with a percent sign is
    reported as malformed. *)
Definition decode_plain (s : string) : option string :=
  if existsb (Ascii.eqb "%") (Js.chars s) then None else Some s.

(** [parseInt] of the double reads an optional sign and decimal digits
    at the start of the string. *)
Definition digit (c : ascii) : option Z :=
  let n := nat_of_ascii c in
  if ((48 <=? n) && (n <=? 57))%nat then Some (Z.of_nat (n - 48)) else None.

Fixpoint digits (acc : option Z) (s : string) : option Z :=
  match s with
  | EmptyString => acc
  | String c r =>
      match digit c with
      | Some d =>
          digits (Some (10 * match acc with Some a => a | None => 0 end + d)%Z) r
      | None => acc
      end
  end.

Definition parse_decimal (s : option string) : option Z :=
  match s with
  | None => None
  | Some s =>
      match Js.trimStart s with
      | String "-" r => option_map Z.opp (digits None r)
      | String "+" r => digits None r
      | r => digits None r
      end
  end.

(** A stand-in for the signature primitive. *)
Definition mac (secret text : string) : string := secret ++ "/" ++ text.

Definition runtime : Runtime :=
  {| ObjectId_parse := ObjectId_hex;
     RegExp_valid := known_pattern;
     decodeURIComponent := decode_plain;
     parseInt := parse_decimal;
     JWT_SECRET := "s3cret";
     jwt_sign := Jwt.sign mac;
     jwt_verify := Jwt.verify mac |}.

(** Running a program in a world of the double. *)
Definition run {R} (p : Prog.t R) (w : World)
  : Prog.Result R * World * list Prog.Entry :=
  Prog.run answer p w.

End Mongo.

(* ================================================================== *)
(** * A newsroom: one article, an author and an administrator *)

Module Newsroom.
Import Mongo.

Definition alice : UserDoc.t :=
  {| UserDoc.id := Some 1%N;
     UserDoc.username := Some "alice";
     UserDoc.email := Some "alice@news.example";
     UserDoc.password := Some (hash "wonderland");
     UserDoc.role := Some "author";
     UserDoc.createdAt := Some 0%Z;
     UserDoc.updatedAt := Some 0%Z |}.

Definition root : UserDoc.t :=
  {| UserDoc.id := Some 2%N;
     UserDoc.username := Some "root";
     UserDoc.email := Some "root@news.example";
     UserDoc.password := Some (hash "toor");
     UserDoc.role := Some "admin";
     UserDoc.createdAt := Some 0%Z;
     UserDoc.updatedAt := Some 0%Z |}.

Definition technologie : ArticleDoc.t :=
  {| ArticleDoc.id := 10%N;
     ArticleDoc.body :=
       {| ArticleDoc.title := Some "Technologie";
          ArticleDoc.author := Some "alice";
          ArticleDoc.journalName := Some "Le Monde";
          ArticleDoc.category := Some ["science"];
          ArticleDoc.description := Some "IA";
          ArticleDoc.imageUrl := Some "" |};
     ArticleDoc.createdAt := 1000%Z;
     ArticleDoc.updatedAt := 1000%Z |}.

(** The id of [technologie] as a route parameter. *)
Definition technologie_id : string := "00000000000000000000000a".

Definition world : World :=
  {| articles := [technologie];
     users := [alice; root];
     nextId := 11%N;
     clock := 1700000000000%Z;
     broadcasts := [];
     outage := [] |}.


Definition at_clock (w : World) (now : Z) : World :=
  mkWorld (articles w) (users w) (nextId w) now (broadcasts w) (outage w).

Definition no_user : UserDoc.t :=
  UserDoc.mk None None None None None None None.

(** A request of the running application: the broadcast hook is set. *)
Definition request (authorization : option string) (articleId : string)
  (body : ArticleDoc.fields) : Req :=
  {| authorization := authorization; user := None;
     articleId := articleId; p_title := ""; p_author := "";
     p_userId := ""; p_email := ""; p_username := "";
     q := None; q_page := None; q_limit := None;
     body := body; body_user := no_user;
     filename := None; wsBroadcast := true |}.

Definition user_request (authorization : option string) (email : string)
  (body_user : UserDoc.t) : Req :=
  {| authorization := authorization; user := None;
     articleId := ""; p_title := ""; p_author := "";
     p_userId := ""; p_email := email; p_username := "";
     q := None; q_page := None; q_limit := None;
     body := ArticleDoc.empty; body_user := body_user;
     filename := None; wsBroadcast := true |}.

(** The token a login hands out in a world, and the header carrying it. *)
Definition login (email password : string) (w : World) : option string :=
  match Prog.result answer
          (AuthService.loginUser (rt := runtime) email (Some password)) w with
  | Returned (Some l) => Some (AuthService.token l)
  | _ => None
  end.

Definition bearer_header (token : option string) : option string :=
  match token with
  | Some t => Some ("Bearer " ++ t)%string
  | None => None
  end.

Definition alice_header : option string :=
  bearer_header (login "alice@news.example" "wonderland" world).

Definition root_header : option string :=
  bearer_header (login "root@news.example" "toor" world).

Definition retitled : ArticleDoc.fields :=
  ArticleDoc.mkFields (Some "Tech") None None None None None.

End Newsroom.

(* ================================================================== *)
(** * The vocabulary of the properties *)

Module Terms.
Import Mongo Newsroom.

(** ** realtime/ws.js *)

(** The set of the example: sockets 1 and 2, both open. *)
Definition two_open : Ws.Server :=
  {| Ws.clients := [1; 2]; Ws.readyState := fun _ => Ws.OPEN |}.

(** ** The answers of the gate *)

Definition forbidden_admin : Response :=
  res_status 403 (Message_ "Acces refuse - Admin requis").

Definition forbidden_owner : Response :=
  res_status 403
    (Message_ "Acces refuse - Vous n'etes pas l'auteur de cet article").

Definition forbidden_role : Response :=
  res_status 403 (Message_ "Acces refuse - Role author ou admin requis").

Definition article_not_found : Response :=
  res_status 404 (Message_ "Article non trouve").

(** A string without a space: a word of a header. *)
Definition nospace (s : string) : bool :=
  forallb (fun c => negb (Ascii.eqb c " ")) (Js.chars s).

(** Two requests that differ in [req.user] at most. *)
Definition same_but_user (a b : Req) : Prop :=
  authorization a = authorization b /\ articleId a = articleId b
  /\ p_title a = p_title b /\ p_author a = p_author b
  /\ p_userId a = p_userId b /\ p_email a = p_email b
  /\ p_username a = p_username b
  /\ q a = q b /\ q_page a = q_page b /\ q_limit a = q_limit b
  /\ body a = body b /\ body_user a = body_user b
  /\ filename a = filename b /\ wsBroadcast a = wsBroadcast b.

(** The token the administrator of the newsroom is handed at login, and
    what it decodes to. *)
Definition root_token : string :=
  Js.the (login "root@news.example" "toor" world).

Definition root_context : ReqUser :=
  {| userId := Some 2%N; role := Some "admin"; username := None;
     iat := 1700000000; exp := 1700003600 |}.

(** The stack of a route once [authenticate] has set [req.user]. *)
Definition after_authenticate {rt : Runtime} (r : ArticleRoutes.Route)
  : Handler :=
  chain (AuthRoutes.isAdmin :: ArticleRoutes.own r) (ArticleRoutes.controller r).

(** ** Tokens *)

(** A field of a token holds no dot. *)
Definition nodot (s : string) : Prop :=
  forallb (fun c => negb (Ascii.eqb c ".")) (Js.chars s) = true.

(** ** The search *)

(** The specification's words, "case-insensitive substring": the query,
    letters folded, occurs in the text, letters folded. *)
Definition ci_contains (q text : string) : Prop :=
  exists before behind,
    map Js.fold (Js.chars text) = before ++ map Js.fold (Js.chars q) ++ behind.

(** A query of ordinary characters: no pattern syntax, no dot. *)
Definition plain (q : string) : bool :=
  forallb (fun c => negb (is_syntax c || Ascii.eqb c ".")) (Js.chars q).

(** The text fields the search looks into. *)
Definition opt_list (o : option string) : list string :=
  match o with Some s => [s] | None => [] end.

Definition text_fields (a : ArticleDoc.t) : list string :=
  let b := ArticleDoc.body a in
  opt_list (ArticleDoc.title b)
  ++ opt_list (ArticleDoc.description b)
  ++ match ArticleDoc.category b with Some l => l | None => [] end
  ++ opt_list (ArticleDoc.journalName b)
  ++ opt_list (ArticleDoc.author b).

Definition too_short_error : Exn :=
  Error "La requete de recherche doit contenir au moins 2 caracteres".

(** What a search answers in a world of the double for a query the
    service lets through and the double knows. *)
Definition expected (q : string) (page limit : Z) (w : World) : SearchResult :=
  let hits := filter (matches (FSearch (Js.trim q))) (articles w) in
  mkSearchResult
    (firstn (Z.to_nat limit)
       (skipn (Z.to_nat ((page - 1) * limit)) (sort_desc hits)))
    (List.length hits)
    (Js.ceil_div (Z.of_nat (List.length hits)) limit)
    page
    (Js.trim q).

(** ** Passwords *)

Definition is_hash_call (c : Prog.Entry) : bool :=
  match c with Called (BcryptHash _ _) _ => true | Called _ _ => false end.

(** The password a driver call writes, if it is a write to the users. *)
Definition written_password (c : Prog.Entry) : option (option string) :=
  match c with
  | @Called _ (@Await _ op) _ =>
      match op with
      | users_insertOne u => Some (UserDoc.password u)
      | users_updateOne _ p => Some (UserDoc.password p)
      | _ => None
      end
  | _ => None
  end.

(** The body of [PUT /users/email/:email] that sets a new password. *)
Definition new_password (plain : string) : UserDoc.t :=
  UserDoc.mk None None None (Some plain) None None None.

Definition stored_password (email : string) (w : Mongo.World)
  : option (option string) :=
  option_map UserDoc.password
    (find (Mongo.user_matches (UEmail email)) (Mongo.users w)).

(** ** Requests in the newsroom *)

Definition put_by_alice : Prog.t Response :=
  ArticleRoutes.dispatch (rt := runtime) ArticleRoutes.PutById
    (request alice_header technologie_id retitled).


(** A request context whose user is alice, with the username the
    ownership check reads. *)
Definition alice_context : ReqUser :=
  {| userId := Some 1%N; role := Some "author"; username := Some "alice";
     iat := 1700000000; exp := 1700003600 |}.

Definition alice_request : Req :=
  with_user (request None technologie_id retitled) alice_context.

End Terms.

(* ================================================================== *)
(** * The remaining handlers *)

(** What a login answers: the login itself ([res.json(result)], with the
    [message] the controller adds to it) or another response. *)
Inductive LoginAnswer :=
| LoggedIn (l : AuthService.Login) (message : option string)
| LoginOther (r : Response).

(** What the read of one article answers: the article ([res.json(article)])
    or another response. *)
Inductive ArticleAnswer :=
| ArticleJson (a : ArticleDoc.t)
| ArticleOther (r : Response).

(** ** routes/auth.routes.js: [POST /login] *)

Module LoginRoute.
Section Defs.
Context {rt : Runtime}.

(** The handler on a body whose [email] is the string [email];
    [password] is [undefined] when the body has none. *)
Definition login (email : string) (password : option string)
  : Prog.t LoginAnswer :=
  try_catch
    (result <- AuthService.loginUser email password ;;
     match result with
     | None =>
         Ret (LoginOther (res_status 401
                            (Message_ "Email ou mot de passe incorrect")))
     | Some l => Ret (LoggedIn l None)
     end)
    (fun err =>
       Ret (LoginOther (res_status 500
                          (MessageError "Erreur de connexion" (exn_message err))))).

End Defs.
End LoginRoute.

(** ** controllers/auth.controller.js *)

Module AuthController.
Section Defs.
Context {rt : Runtime}.

(** [err.code], the number the driver puts on a server error. *)
Variable code : Exn -> option Z.

Definition server_error (e : Exn) : Prog.t Response :=
  Ret (res_status 500 (MessageError "Erreur serveur" (exn_message e))).

Definition not_found : Response :=
  res_status 404 (Message_ "Utilisateur introuvable").

(** [requiredFields.filter(field => !req.body[field])] *)
Definition missingFields (b : UserDoc.t) : list string :=
  (if Js.truthy_opt (UserDoc.username b) then [] else ["username"])
  ++ (if Js.truthy_opt (UserDoc.email b) then [] else ["email"])
  ++ (if Js.truthy_opt (UserDoc.password b) then [] else ["password"]).

(** [err.code === 11000] *)
Definition is_duplicate (err : Exn) : bool :=
  match code err with Some c => Z.eqb c 11000 | None => false end.

Definition register : Handler := fun req =>
  try_catch
    (match missingFields (body_user req) with
     | (_ :: _) as missing => Ret (res_status 400 (MissingFields missing))
     | [] =>
         userId <- AuthService.registerUser (body_user req) ;;
         Ret (res_status 201 (UserId "Compte cree avec succes" userId))
     end)
    (fun err =>
       if is_duplicate err
       then Ret (res_status 400 (Message_ "Cet email est deja utilise"))
       else server_error err).

(** On a body whose [email] is the string [email]. *)
Definition login (email : string) (password : option string)
  : Prog.t LoginAnswer :=
  try_catch
    (result <- AuthService.loginUser email password ;;
     match result with
     | None =>
         Ret (LoginOther (res_status 401
                            (Message_ "Email ou mot de passe incorrect")))
     | Some l => Ret (LoggedIn l (Some "Connexion reussie"))
     end)
    (fun err => Ret (LoginOther (res_status 500
                       (MessageError "Erreur serveur" (exn_message err))))).

Definition logout : Handler := fun req =>
  Ret (res_json (Message_ "Deconnecte - Supprimez votre jeton cote client")).

Definition getAllUsers : Handler := fun req =>
  try_catch
    (users <- AuthService.getAllUsers ;; Ret (res_json (UsersJson users)))
    server_error.

Definition getUserById : Handler := fun req =>
  try_catch
    (u <- AuthService.getUserById (p_userId req) ;;
     match u with
     | None => Ret not_found
     | Some u => Ret (res_json (UserJson u))
     end)
    server_error.

Definition getUserByEmail : Handler := fun req =>
  try_catch
    (u <- UserModel.findUserByEmail (p_email req) ;;
     match u with
     | None => Ret not_found
     | Some u => Ret (res_json (UserJson (UserDoc.withoutPassword u)))
     end)
    server_error.

Definition getUserByUsername : Handler := fun req =>
  try_catch
    (u <- UserModel.findUserByUsername (p_username req) ;;
     match u with
     | None => Ret not_found
     | Some u => Ret (res_json (UserJson (UserDoc.withoutPassword u)))
     end)
    server_error.

(** [result.modifiedCount], where [result] is what the model resolved to:
    the count itself, a number, which has no such property. *)
Definition modifiedCount (result : nat) : option nat := None.

(** [x === 0] for a number or [undefined]. *)
Definition is_zero (x : option nat) : bool :=
  match x with Some 0 => true | _ => false end.

Definition updated (result : nat) : Prog.t Response :=
  if is_zero (modifiedCount result)
  then Ret (res_status 404
              (Message_ "Utilisateur introuvable ou aucune modification"))
  else Ret (res_json (Message_ "Utilisateur mis a jour")).

Definition updateUserById : Handler := fun req =>
  try_catch
    (result <- UserModel.updateUserById (p_userId req) (body_user req) ;;
     updated result)
    server_error.

Definition updateUserByEmail : Handler := fun req =>
  try_catch
    (result <- UserModel.updateUserByEmail (p_email req) (body_user req) ;;
     updated result)
    server_error.

Definition updateUserByUsername : Handler := fun req =>
  try_catch
    (result <- UserModel.updateUserByUsername (p_username req) (body_user req) ;;
     updated result)
    server_error.

End Defs.
End AuthController.

(** ** controllers/article.controller.js: [getArticleById] *)

Module ArticleReads.
Section Defs.
Context {rt : Runtime}.

(** The route parameter goes through [new ObjectId] before the service
    sees it. *)
Definition getArticleById (req : Req) : Prog.t ArticleAnswer :=
  try_catch
    (o <- new_ObjectId (IdStr (articleId req)) ;;
     article <- ArticleService.getArticleByIdService (IdObj o) ;;
     match article with
     | None => Ret (ArticleOther (res_status 404 (Message_ "Article introuvable")))
     | Some a => Ret (ArticleJson a)
     end)
    (fun err =>
       if Js.includes (exn_message err) "BSONError"
       then Ret (ArticleOther (res_status 400 (Message_ "Format ID invalide")))
       else Ret (ArticleOther
                   (res_status 500
                      (MessageError "Erreur serveur" (exn_message err))))).

End Defs.
End ArticleReads.

(* ================================================================== *)
(** * realtime/ws.js over time *)

Module WsRun.
Import Ws.

(** What happens to the server of [initWebSocket]: the events its handlers
    are registered for, a call of [broadcast], and the transport moving a
    socket to another ready state. *)
Inductive Event :=
| Connection (ws : Socket) (now : Z)
| MessageIn (ws : Socket) (message : string) (now : Z)
| Close (ws : Socket)
| Error_ (ws : Socket)
| Broadcast (m : Message)
| Transport (ws : Socket) (r : ReadyState).

(** [const clients = new Set()] *)
Definition initial (readyState : Socket -> ReadyState) : Server :=
  {| clients := []; readyState := readyState |}.

Section Run.
Variable JSON_parse : string -> option JSON.
Variable JSON_stringify : Message -> string.

Definition step (e : Event) (s : Server) : Server * list Effect :=
  match e with
  | Connection ws now => on_connection JSON_stringify ws now s
  | MessageIn ws message now =>
      on_message JSON_parse JSON_stringify ws message now s
  | Close ws => on_close ws s
  | Error_ ws => on_error ws s
  | Broadcast m => broadcast JSON_stringify m s
  | Transport ws r => (transport ws r s, [])
  end.

Fixpoint replay (es : list Event) (s : Server) : Server * list Effect :=
  match es with
  | [] => (s, [])
  | e :: rest =>
      let '(s1, out1) := step e s in
      let '(s2, out2) := replay rest s1 in
      (s2, out1 ++ out2)
  end.

End Run.

(** Whether socket [c] is connected after the events: its last
    connection came after its last close or error. *)
Fixpoint connected (c : Socket) (es : list Event) (before : bool) : bool :=
  match es with
  | [] => before
  | Connection ws _ :: rest =>
      connected c rest (if Nat.eqb ws c then true else before)
  | Close ws :: rest | Error_ ws :: rest =>
      connected c rest (if Nat.eqb ws c then false else before)
  | _ :: rest => connected c rest before
  end.

(** The events that name socket [c]. *)
Definition about (c : Socket) (e : Event) : bool :=
  match e with
  | Connection ws _ | MessageIn ws _ _ | Close ws | Error_ ws => Nat.eqb ws c
  | Broadcast _ | Transport _ _ => false
  end.

(** The sockets [send] was called on, in the order of the calls. *)
Definition recipients (es : list Effect) : list Socket :=
  flat_map (fun e => match e with Send c _ => [c] | Stringify _ => [] end) es.

End WsRun.

(* ================================================================== *)
(** * configs/db.js *)

Module Db.

(** Where the executor of [connectionPromise] is suspended. *)
Inductive Stage :=
| AwaitConnect                 (* await client.connect() *)
| AwaitIndex (settled : nat).  (* the three createIndex calls, in order *)

(** The module's variables, the suspended executor, the state of
    [connectionPromise] once settled, the number of [MongoClient]s
    constructed, and whether [process.exit(1)] was reached. *)
Record State := mkState {
  db : bool;
  isConnecting : bool;
  suspended : option Stage;
  promise : option bool;
  constructed : nat;
  exited : bool
}.

Definition initial : State := mkState false false None None 0 false.

(** The [catch] of the executor. *)
Definition failed (s : State) : State :=
  {| db := db s; isConnecting := false; suspended := None;
     promise := Some false; constructed := constructed s; exited := true |}.

Inductive Handle :=
| TheDb                        (* [return db] *)
| ThePromise.                  (* [return connectionPromise] *)

(** [connectDB()]; [constructs] tells whether [new MongoClient] returns
    rather than throws. *)
Definition connectDB (constructs : bool) (s : State) : State * Handle :=
  if db s then (s, TheDb)
  else if isConnecting s then (s, ThePromise)
  else
    let s1 := {| db := db s; isConnecting := true; suspended := None;
                 promise := None; constructed := constructed s;
                 exited := exited s |} in
    if constructs
    then ({| db := db s1; isConnecting := true;
             suspended := Some AwaitConnect; promise := None;
             constructed := S (constructed s1); exited := exited s1 |},
          ThePromise)
    else (failed s1, ThePromise).

(** The call the executor awaits settles; [ok] tells whether it
    resolved. *)
Definition settle (ok : bool) (s : State) : State :=
  match suspended s with
  | None => s
  | Some stage =>
      if negb ok then failed s
      else
        match stage with
        | AwaitConnect =>
            {| db := true; isConnecting := isConnecting s;
               suspended := Some (AwaitIndex 0); promise := promise s;
               constructed := constructed s; exited := exited s |}
        | AwaitIndex n =>
            if (n <? 2)%nat
            then {| db := db s; isConnecting := isConnecting s;
                    suspended := Some (AwaitIndex (S n)); promise := promise s;
                    constructed := constructed s; exited := exited s |}
            else {| db := db s; isConnecting := false; suspended := None;
                    promise := Some true; constructed := constructed s;
                    exited := exited s |}
        end
  end.

(** [getDB()] *)
Definition getDB (s : State) : Exn + unit :=
  if db s then inr tt else inl (Error "Base de donnees non connectee").

(** What happens to the module while the process lives. *)
Inductive Event :=
| Call_connectDB (constructs : bool)
| Settle (ok : bool).

Definition step (e : Event) (s : State) : State :=
  if exited s then s
  else match e with
       | Call_connectDB constructs => fst (connectDB constructs s)
       | Settle ok => settle ok s
       end.

Definition replay (es : list Event) (s : State) : State :=
  fold_left (fun s e => step e s) es s.

(** Where the module can be: idle, waiting for the connection, creating
    the indexes, connected, or gone with the process. *)
Definition shape (s : State) : Prop :=
  s = initial
  \/ s = mkState false true (Some AwaitConnect) None 1 false
  \/ (exists n, n <= 2 /\ s = mkState true true (Some (AwaitIndex n)) None 1 false)
  \/ s = mkState true false None (Some true) 1 false
  \/ (exited s = true /\ promise s = Some false /\ isConnecting s = false
      /\ constructed s <= 1).

(** A call the executor awaited has resolved. *)
Definition is_resolution (e : Event) : bool :=
  match e with Settle ok => ok | Call_connectDB _ => false end.

End Db.

(* ================================================================== *)
(** * webSocketClient.js *)

Module Client.
Import Ws.

(** The [type] of the frames the server sends: the object literals of
    realtime/ws.js and of the article controller. *)
Definition type_of (m : Message) : string :=
  match m with
  | ArticleCreated _ _ => "article.created"
  | ArticleUpdated _ _ => "article.updated"
  | ArticleDeleted _ _ => "article.deleted"
  | ArticlesUpdated _ _ _ => "articles.updated"
  | ArticlesDeleted _ _ _ => "articles.deleted"
  | SystemWelcome _ => "system.welcome"
  | Pong _ => "pong"
  end.

(** [x.key] for a parsed value or [undefined]: a [TypeError] on [null] and
    on [undefined], the property of an object, and [undefined] for the
    keys read here on any other value. *)
Definition get (key : string) (x : option JSON) : Exn + option JSON :=
  match x with
  | None => inl (mkExn "TypeError" "Cannot read properties of undefined")
  | Some JNull => inl (mkExn "TypeError" "Cannot read properties of null")
  | Some (JObject properties) => inr (lookup key properties)
  | Some _ => inr None
  end.

(** What the message handler writes to the console after the frame
    itself. *)
Inductive Line :=
| Bienvenue (message : option JSON)
| ReponsePing
| NouvelArticle (title : option JSON)
| ArticleMisAJour (title : option JSON)
| ArticleSupprime (articleId : option JSON)
| TypeInconnu (type : option JSON)
| ErreurDeParsing.

(** [message.article.title] *)
Definition article_title (message : JSON) : Exn + option JSON :=
  match get "article" (Some message) with
  | inl e => inl e
  | inr article => get "title" article
  end.

Section Handlers.
Variable JSON_parse : string -> option JSON.     (* [None]: SyntaxError *)

(** [ws.on('message', ...)]: the [switch] compares with [===]. *)
Definition on_message (data : string) : Line :=
  match JSON_parse data with
  | None => ErreurDeParsing
  | Some message =>
      match get "type" (Some message) with
      | inl _ => ErreurDeParsing
      | inr (Some (JString t) as ty) =>
          if String.eqb t "system.welcome" then
            match get "message" (Some message) with
            | inr v => Bienvenue v
            | inl _ => ErreurDeParsing
            end
          else if String.eqb t "pong" then ReponsePing
          else if String.eqb t "article.created" then
            match article_title message with
            | inr v => NouvelArticle v
            | inl _ => ErreurDeParsing
            end
          else if String.eqb t "article.updated" then
            match article_title message with
            | inr v => ArticleMisAJour v
            | inl _ => ErreurDeParsing
            end
          else if String.eqb t "article.deleted" then
            match get "articleId" (Some message) with
            | inr v => ArticleSupprime v
            | inl _ => ErreurDeParsing
            end
          else TypeInconnu ty
      | inr ty => TypeInconnu ty
      end
  end.

End Handlers.

(** The object of a ping, as [JSON.parse] reads it back from the frame;
    [at_] is the ISO timestamp. *)
Definition ping (message : option string) (at_ : string) : JSON :=
  JObject (("type", JString "ping")
           :: match message with
              | Some m => [("message", JString m)]
              | None => []
              end
           ++ [("at", JString at_)]).

(** The objects the client sends: one on open, and one every thirty
    seconds while its socket is open. *)
Definition on_open (at_ : string) : list JSON :=
  [ping (Some "Test de connexion") at_].

Definition on_interval (state : ReadyState) (at_ : string) : list JSON :=
  if is_OPEN state then [ping None at_] else [].

End Client.

(* ================================================================== *)
(** * The entry point: the broadcast of realtime/ws.js as the hook *)

Module Wired.
Section Defs.
Variable S : Type.
Variable answer : forall X, Eff X -> S -> X * S.
Variable JSON_stringify : Message -> string.

(** The world of a request once [app.locals.wsBroadcast = broadcast]:
    the world of the process, the server of [initWebSocket], and the calls
    that server has made. *)
Record World := mkWorld {
  process : S;
  wss : Ws.Server;
  calls : list Ws.Effect
}.

Definition lift {X} (r : X * S) (w : World) : X * World :=
  (fst r, mkWorld (snd r) (wss w) (calls w)).

Definition wired (X : Type) (e : Eff X) (w : World) : X * World :=
  match e in Eff X return X * World with
  | WsBroadcast m =>
      let '(server, out) := Ws.broadcast JSON_stringify m (wss w) in
      (tt, mkWorld (process w) server (calls w ++ out))
  | Await op => lift (answer (Await op) (process w)) w
  | NewDate => lift (answer NewDate (process w)) w
  | BcryptHash plain rounds => lift (answer (BcryptHash plain rounds) (process w)) w
  | BcryptCompare plain h => lift (answer (BcryptCompare plain h) (process w)) w
  end.

End Defs.
End Wired.

(* ================================================================== *)
(** * More vocabulary *)

Module Words.

(** A reading of the clock. *)
Definition is_clock_call (c : Prog.Entry) : bool :=
  match c with Called NewDate _ => true | Called _ _ => false end.

(** A write to the users collection. *)
Definition is_user_write (c : Prog.Entry) : bool :=
  match Terms.written_password c with Some _ => true | None => false end.

(** The document an [insertOne] on the users was given. *)
Definition inserted_user (c : Prog.Entry) : option UserDoc.t :=
  match c with
  | @Called _ (@Await _ op) _ =>
      match op with
      | users_insertOne u => Some u
      | _ => None
      end
  | _ => None
  end.


(** The filter a bulk write on the articles was given. *)
Definition bulk_filter (c : Prog.Entry) : option ArticleFilter :=
  match c with
  | @Called _ (@Await _ op) _ =>
      match op with
      | articles_updateMany f _ => Some f
      | articles_deleteMany f => Some f
      | _ => None
      end
  | _ => None
  end.



(** The events a run handed to the broadcast hook, in order. *)
Definition events (tr : list Prog.Entry) : list Message :=
  flat_map (fun c => match c with
                     | Called (WsBroadcast m) _ => [m]
                     | Called _ _ => []
                     end) tr.

(** The pages of a search, from the first to the last. *)
Definition pages (total : Z) : list Z :=
  map (fun i => Z.of_nat (S i)) (seq 0 (Z.to_nat total)).

(** What page [p] of a search holds in a world of the double. *)
Definition page_of (q : string) (limit : Z) (w : Mongo.World) (p : Z)
  : list ArticleDoc.t :=
  match Prog.result Mongo.answer
          (ArticleService.searchArticlesService (rt := Mongo.runtime)
             (Some q) p limit) w with
  | Returned r => articles r
  | Rejected _ => []
  end.

End Words.

(* ================================================================== *)
(** * The rest of the driver's interface *)

(** The driver calls of the model functions not met so far: the reads of
    several articles and the deletion of a user. *)
Inductive DbMore : Type -> Type :=
| articles_countAll : DbMore nat           (* countDocuments() *)
| articles_find_all_sorted (skip limit : Z)
    : DbMore (list ArticleDoc.t)           (* find().sort({createdAt:-1}).skip().limit() *)
| articles_find (f : ArticleFilter)
    : DbMore (list ArticleDoc.t)           (* find(f).toArray() *)
| users_deleteOne (f : UserFilter) : DbMore nat.

(** Programs over both interfaces: a call is one of [Eff] or one of
    [DbMore], which settles or rejects as the others do. *)
Module Full.

Inductive Call : Type -> Type :=
| Old (X : Type) (e : Eff X) : Call X
| More (X : Type) (op : DbMore X) : Call (Exn + X).

Arguments Old {X} e.
Arguments More {X} op.

Inductive t (R : Type) : Type :=
| Ret (r : R)
| Throw (e : Exn)
| Vis (X : Type) (c : Call X) (k : X -> t R).

Arguments Ret {R} r.
Arguments Throw {R} e.
Arguments Vis {R X} c k.

Fixpoint bind {A B} (p : t A) (f : A -> t B) : t B :=
  match p with
  | Ret a => f a
  | Throw e => Throw e
  | Vis c k => Vis c (fun x => bind (k x) f)
  end.

Fixpoint try_catch {A} (p : t A) (h : Exn -> t A) : t A :=
  match p with
  | Ret a => Ret a
  | Throw e => h e
  | Vis c k => Vis c (fun x => try_catch (k x) h)
  end.

(** A program of the first interface, as it is. *)
Fixpoint lift {R} (p : Prog.t R) : t R :=
  match p with
  | Prog.Ret r => Ret r
  | Prog.Throw e => Throw e
  | Prog.Vis e k => Vis (Old e) (fun x => lift (k x))
  end.

Definition await {X} (op : DbMore X) : t X :=
  Vis (More op) (fun r => match r with inl e => Throw e | inr x => Ret x end).

Inductive Entry : Type :=
| Called (X : Type) (c : Call X) (x : X).

Arguments Called {X} c x.

Section Run.
Variable S : Type.
Variable answer : forall X, Call X -> S -> X * S.

Fixpoint run {R} (p : t R) (s : S) : Prog.Result R * S * list Entry :=
  match p with
  | Ret r => (Returned r, s, [])
  | Throw e => (Rejected e, s, [])
  | Vis c k =>
      let '(x, s1) := answer c s in
      let '(r, s2, tr) := run (k x) s1 in
      (r, s2, Called c x :: tr)
  end.

End Run.

(** Readings of a trace. *)
Definition is_db (c : Entry) : bool :=
  match c with
  | Called (More _) _ => true
  | Called (Old (Await _)) _ => true
  | Called (Old _) _ => false
  end.

Definition db_calls (tr : list Entry) : nat := List.length (filter is_db tr).

(** The count a settled [deleteOne] on the users reported. *)
Definition deleted_count (c : Entry) : option nat :=
  match c with
  | @Called _ (@More _ op) r =>
      match op in DbMore X return (Exn + X) -> option nat with
      | users_deleteOne _ => fun r => match r with inr n => Some n | inl _ => None end
      | _ => fun _ => None
      end r
  | _ => None
  end.

(** The filter of a [deleteOne] on the users. *)
Definition deletion (c : Entry) : option UserFilter :=
  match c with
  | @Called _ (@More _ op) _ =>
      match op with
      | users_deleteOne f => Some f
      | _ => None
      end
  | _ => None
  end.

(** A settled deletion that removed a user, and one that removed none. *)
Definition deleted_one (c : Entry) : bool :=
  match deleted_count c with Some (S _) => true | _ => false end.

Definition deleted_none (c : Entry) : bool :=
  match deleted_count c with Some 0 => true | _ => false end.

(** The window of a read of the sorted articles. *)
Definition window (c : Entry) : option (Z * Z) :=
  match c with
  | @Called _ (@More _ op) _ =>
      match op with
      | articles_find_all_sorted skip limit => Some (skip, limit)
      | _ => None
      end
  | _ => None
  end.

(** The entry of a call of the first interface. *)
Definition old (c : Prog.Entry) : Entry :=
  match c with Prog.Called e x => Called (Old e) x end.

(** Express, with handlers over both interfaces. *)
Fixpoint chain (stack : list Middleware) (h : Req -> t Response) (req : Req)
  : t Response :=
  match stack with
  | [] => h req
  | m :: rest =>
      bind (lift (m req))
        (fun s => match s with
                  | Next req1 => chain rest h req1
                  | Reply r => Ret r
                  end)
  end.

End Full.

Declare Scope full_scope.
Delimit Scope full_scope with full.
Notation "x <- p ;; q" := (Full.bind p (fun x => q))
  (at level 61, p at next level, right associativity) : full_scope.

(* ================================================================== *)
(** * Numbers

    A number of the code is a double.  The models take the integers among
    the doubles as [Z] and compute on them exactly; [Num] tells where that
    is what the code computes.  [round] is the integer a double holds for
    an exact result below 2^1024 in size: the nearest with 53 significant
    bits, ties to the even one.  [minus] and [times] are the code's [-]
    and [*] on such integers. *)
Module Num.

(** [Number.MAX_SAFE_INTEGER], 2^53 - 1, and [Number.isSafeInteger]. *)
Definition MAX_SAFE_INTEGER : Z := 9007199254740991.

Definition isSafeInteger (z : Z) : bool :=
  (Z.abs z <=? MAX_SAFE_INTEGER)%Z.

Definition round (z : Z) : Z :=
  let a := Z.abs z in
  let dropped := (Z.log2 a - 52)%Z in
  if (dropped <=? 0)%Z then z
  else
    let unit := (2 ^ dropped)%Z in
    let q := (a / unit)%Z in
    let r := (a mod unit)%Z in
    let up := if (2 * r =? unit)%Z then Z.odd q else (unit <? 2 * r)%Z in
    (Z.sgn z * (unit * (if up then q + 1 else q)))%Z.

Definition minus (a b : Z) : Z := round (a - b).

Definition times (a b : Z) : Z := round (a * b).

(** A page and a limit with which [(page - 1) * limit] is computed
    exactly. *)
Definition exact_window (page limit : Z) : bool :=
  isSafeInteger (page - 1) && isSafeInteger ((page - 1) * limit).

End Num.

(* ================================================================== *)
(** * The reads of several articles *)

Module Reads.

(** What [getAllArticles] resolves to.  [totalPages] is [None] when the
    division does not yield a finite number. *)
Record Page := mkPage {
  articles : list ArticleDoc.t;
  totalArticles : nat;
  totalPages : option Z;
  currentPage : Z
}.

(** What a read answers: [res.json(result)], [res.json(articles)], or
    another response. *)
Inductive Answer :=
| PageJson (p : Page)
| ArticlesJson (l : list ArticleDoc.t)
| Other (r : Response).

(** [Math.ceil(a / b)] for a count [a] and an integer [b]: not a finite
    number when [b] is zero. *)
Definition Math_ceil_div (a b : Z) : option Z :=
  if (b =? 0)%Z then None else Some (- ((- a) / b))%Z.

(** ** models/article.model.js *)
Module Model.
Section Defs.
Context {rt : Runtime}.

(** [page] and [limit] are integers, and the arithmetic is exact: this is
    the code for a page and a limit of [Num.exact_window] and a count that
    is a safe integer.  Beyond that the code's doubles round, and a page
    or limit that is infinite is not modelled. *)
Definition getAllArticles (page limit : Z) : Full.t Page :=
  (let skip := ((page - 1) * limit)%Z in
   totalArticles <- Full.await articles_countAll ;;
   articles <- Full.await (articles_find_all_sorted skip limit) ;;
   Full.Ret {| articles := articles;
               totalArticles := totalArticles;
               totalPages := Math_ceil_div (Z.of_nat totalArticles) limit;
               currentPage := page |})%full.

Definition getArticlesByTitle (title : string) : Full.t (list ArticleDoc.t) :=
  (source <- Full.lift (new_RegExp title) ;;
   Full.await (articles_find (FTitleRegex source)))%full.

Definition getArticlesByAuthor (author : string)
  : Full.t (list ArticleDoc.t) :=
  Full.await (articles_find (FAuthor author)).

End Defs.
End Model.

(** ** services/article.services.js *)
Module Service.
Section Defs.
Context {rt : Runtime}.

Definition getArticlesService (page limit : Z) : Full.t Page :=
  Model.getAllArticles page limit.

Definition getArticlesByAuthorService (author : option string)
  : Full.t (list ArticleDoc.t) :=
  if ArticleService.not_a_string author
  then Full.Throw (Error "Nom d'auteur invalide")
  else Model.getArticlesByAuthor (Js.the author).

Definition getArticlesByTitleService (title : option string)
  : Full.t (list ArticleDoc.t) :=
  if ArticleService.not_a_string title
  then Full.Throw (Error "Titre invalide")
  else Model.getArticlesByTitle (Js.the title).

End Defs.
End Service.

(** ** controllers/article.controller.js *)
Module Controller.
Section Defs.
Context {rt : Runtime}.

Definition server_error (e : Exn) : Full.t Answer :=
  Full.Ret (Other (res_status 500
                     (MessageError "Erreur serveur" (exn_message e)))).

Definition getAllArticles (req : Req) : Full.t Answer :=
  Full.try_catch
    (let page := Js.number_or (parseInt (q_page req)) 1 in
     let limit := Js.number_or (parseInt (q_limit req)) 5 in
     result <- Service.getArticlesService page limit ;;
     Full.Ret (PageJson result))%full
    server_error.

(** [!articles || articles.length === 0]; an array is truthy. *)
Definition found (not_found : string) (articles : list ArticleDoc.t)
  : Full.t Answer :=
  match articles with
  | [] => Full.Ret (Other (res_status 404 (Message_ not_found)))
  | _ :: _ => Full.Ret (ArticlesJson articles)
  end.

Definition getArticlesByTitle (req : Req) : Full.t Answer :=
  Full.try_catch
    (title <- Full.lift (ArticleController.decode (p_title req)) ;;
     articles <- Service.getArticlesByTitleService (Some title) ;;
     found ("Aucun article trouve avec le titre: " ++ title) articles)%full
    server_error.

Definition getArticlesByAuthor (req : Req) : Full.t Answer :=
  Full.try_catch
    (author <- Full.lift (ArticleController.decode (p_author req)) ;;
     articles <- Service.getArticlesByAuthorService (Some author) ;;
     found ("Aucun article trouve pour l'auteur: " ++ author) articles)%full
    server_error.

End Defs.
End Controller.

End Reads.

(* ================================================================== *)
(** * The deletion of a user *)

Module Deletes.

(** ** models/user.model.js *)
Module Model.
Section Defs.
Context {rt : Runtime}.

Definition deleteUserById (userId : string) : Full.t nat :=
  (o <- Full.lift (new_ObjectId (IdStr userId)) ;;
   Full.await (users_deleteOne (UId o)))%full.

Definition deleteUserByEmail (email : string) : Full.t nat :=
  Full.await (users_deleteOne (UEmail email)).

Definition deleteUserByUsername (username : string) : Full.t nat :=
  Full.await (users_deleteOne (UUsername username)).

End Defs.
End Model.

(** ** services/auth.services.js *)
Module Service.
Section Defs.
Context {rt : Runtime}.

Definition deleteUser (userId : string) : Full.t nat :=
  Model.deleteUserById userId.

End Defs.
End Service.

(** ** routes/auth.routes.js *)
Module Routes.
Section Defs.
Context {rt : Runtime}.

Definition delete_error (e : Exn) : Full.t Response :=
  Full.Ret (res_status 500
              (MessageError "Erreur de suppression" (exn_message e))).

Definition deleted (deletedCount : nat) : Full.t Response :=
  if (deletedCount =? 0)%nat
  then Full.Ret (res_status 404 (Message_ "Utilisateur non trouve"))
  else Full.Ret (res_json (MessageCount "Utilisateur supprime" deletedCount)).

Definition delete_user_by_id (req : Req) : Full.t Response :=
  Full.try_catch
    (n <- Service.deleteUser (p_userId req) ;; deleted n)%full
    delete_error.

Definition delete_user_by_email (req : Req) : Full.t Response :=
  Full.try_catch
    (n <- Model.deleteUserByEmail (p_email req) ;; deleted n)%full
    delete_error.

Definition delete_user_by_username (req : Req) : Full.t Response :=
  Full.try_catch
    (n <- Model.deleteUserByUsername (p_username req) ;; deleted n)%full
    delete_error.

Inductive Route :=
| DeleteUserById | DeleteUserByEmail | DeleteUserByUsername.

Definition handler (r : Route) : Req -> Full.t Response :=
  match r with
  | DeleteUserById => delete_user_by_id
  | DeleteUserByEmail => delete_user_by_email
  | DeleteUserByUsername => delete_user_by_username
  end.

(** Each route names [authenticate, isAdmin] in front of its handler. *)
Definition dispatch (r : Route) : Req -> Full.t Response :=
  Full.chain [AuthRoutes.authenticate; AuthRoutes.isAdmin] (handler r).

End Defs.
End Routes.

(** ** controllers/auth.controller.js *)
Module Controller.
Section Defs.
Context {rt : Runtime}.

Definition server_error (e : Exn) : Full.t Response :=
  Full.Ret (res_status 500 (MessageError "Erreur serveur" (exn_message e))).

(** [result.deletedCount], where [result] is the count the model
    resolved to: a number has no such property. *)
Definition deletedCount (result : nat) : option nat := None.

Definition deleted (result : nat) : Full.t Response :=
  if AuthController.is_zero (deletedCount result)
  then Full.Ret (res_status 404 (Message_ "Utilisateur introuvable"))
  else Full.Ret (res_json (Message_ "Utilisateur supprime")).

Definition deleteUserById (req : Req) : Full.t Response :=
  Full.try_catch
    (result <- Model.deleteUserById (p_userId req) ;; deleted result)%full
    server_error.

Definition deleteUserByEmail (req : Req) : Full.t Response :=
  Full.try_catch
    (result <- Model.deleteUserByEmail (p_email req) ;; deleted result)%full
    server_error.

Definition deleteUserByUsername (req : Req) : Full.t Response :=
  Full.try_catch
    (result <- Model.deleteUserByUsername (p_username req) ;; deleted result)%full
    server_error.

End Defs.
End Controller.

End Deletes.

(* ================================================================== *)
(** * The double, for the rest of the interface *)

Module MongoMore.
Import Mongo.

(** [find().sort().skip(skip).limit(limit)] as the double has it for the
    search. *)
Definition page_of_sorted (found : list ArticleDoc.t) (skip limit : Z)
  : Exn + list ArticleDoc.t :=
  if (skip <? 0)%Z
  then inl (mkExn "MongoServerError" "skip must be non-negative")
  else
    let rest := skipn (Z.to_nat skip) (sort_desc found) in
    inr (if (limit =? 0)%Z then rest
         else firstn (Z.to_nat (Z.abs limit)) rest).

Definition perform {X} (op : DbMore X) (w : World) : (Exn + X) * World :=
  match op in DbMore X return (Exn + X) * World with
  | articles_countAll => (inr (List.length (Mongo.articles w)), w)
  | articles_find_all_sorted skip limit =>
      (page_of_sorted (Mongo.articles w) skip limit, w)
  | articles_find f => (inr (filter (matches f) (Mongo.articles w)), w)
  | users_deleteOne f =>
      let '(l, n) := remove (user_matches f) false (users w) in
      (inr n, with_users w l)
  end.

Definition answer (X : Type) (c : Full.Call X) (w : World) : X * World :=
  match c in Full.Call X return X * World with
  | Full.Old e => Mongo.answer e w
  | Full.More op =>
      match outage w with
      | true :: rest =>
          (inl (mkExn "MongoNetworkError" "connection closed"),
           mkWorld (Mongo.articles w) (users w) (nextId w) (clock w)
             (broadcasts w) rest)
      | false :: rest =>
          perform op (mkWorld (Mongo.articles w) (users w) (nextId w) (clock w)
                        (broadcasts w) rest)
      | [] => perform op w
      end
  end.

(** Running a program over both interfaces in a world of the double. *)
Definition run {R} (p : Full.t R) (w : World)
  : Prog.Result R * World * list Full.Entry :=
  Full.run answer p w.

(** What page [p] of the list of all articles holds in a world of the
    double. *)
Definition list_page (limit : Z) (w : World) (p : Z) : list ArticleDoc.t :=
  match fst (fst (run (Reads.Service.getArticlesService p limit) w)) with
  | Returned r => Reads.articles r
  | Rejected _ => []
  end.

End MongoMore.

(** ** More requests in the newsroom *)

Module MoreTerms.
Import Mongo Newsroom.

(** The administrator deletes alice's account. *)
Definition delete_alice : Full.t Response :=
  Deletes.Routes.dispatch (rt := runtime) Deletes.Routes.DeleteUserByEmail
    (user_request root_header "alice@news.example" no_user).

(** A second, older article, by the administrator. *)
Definition economie : ArticleDoc.t :=
  {| ArticleDoc.id := 9%N;
     ArticleDoc.body :=
       {| ArticleDoc.title := Some "Economie";
          ArticleDoc.author := Some "root";
          ArticleDoc.journalName := Some "Les Echos";
          ArticleDoc.category := Some ["finance"];
          ArticleDoc.description := Some "Taux";
          ArticleDoc.imageUrl := Some "" |};
     ArticleDoc.createdAt := 500%Z;
     ArticleDoc.updatedAt := 500%Z |}.

(** The newsroom with both articles. *)
Definition two_articles : World :=
  with_articles world [technologie; economie].

End MoreTerms.

(* ================================================================== *)
(** * Proof tools *)

(** Case analysis on the next undetermined test of a program. *)
Ltac split_match :=
  match goal with
  | |- context [match ?x with _ => _ end] =>
      lazymatch x with
      | context [match _ with _ => _ end] => fail
      | _ => destruct x eqn:?
      end
  end.



(** The sources behind the bulk routes. *)
Ltac unfold_bulk :=
  unfold ArticleController.updateArticlesByTitle,
    ArticleController.deleteArticlesByTitle,
    ArticleController.updateArticlesByAuthor,
    ArticleController.deleteArticlesByAuthor,
    ArticleController.decode, ArticleController.notify,
    ArticleController.server_error, ArticleController.delete_error,
    ArticleService.updateArticlesByTitleService,
    ArticleService.deleteArticlesByTitleService,
    ArticleService.updateArticlesByAuthorService,
    ArticleService.deleteArticlesByAuthorService,
    ArticleService.not_a_string,
    ArticleModel.updateArticlesByTitle, ArticleModel.deleteArticlesByTitle,
    ArticleModel.updateArticlesByAuthor, ArticleModel.deleteArticlesByAuthor,
    new_RegExp.

(** The sources behind the deletion of a user. *)
Ltac unfold_deletes :=
  unfold Deletes.Routes.handler, Deletes.Routes.delete_user_by_id,
    Deletes.Routes.delete_user_by_email,
    Deletes.Routes.delete_user_by_username,
    Deletes.Routes.deleted, Deletes.Routes.delete_error,
    Deletes.Controller.deleteUserById, Deletes.Controller.deleteUserByEmail,
    Deletes.Controller.deleteUserByUsername, Deletes.Controller.deleted,
    Deletes.Controller.server_error,
    Deletes.Service.deleteUser, Deletes.Model.deleteUserById,
    Deletes.Model.deleteUserByEmail, Deletes.Model.deleteUserByUsername,
    new_ObjectId.

(* ================================================================== *)
(** * Properties of realtime/ws.js *)

Module WsFacts.
Import Ws Terms.

Lemma registered_In (ws : Socket) (s : Server) :
  registered ws s = true <-> In ws (clients s).
Proof.
  unfold registered. rewrite existsb_exists. split.
  - intros [c [Hc Heq]]. apply Nat.eqb_eq in Heq. now subst.
  - intros H. exists ws. split; [exact H | apply Nat.eqb_refl].
Qed.

Lemma registered_false (ws : Socket) (s : Server) :
  registered ws s = false <-> ~ In ws (clients s).
Proof.
  rewrite <- registered_In. destruct (registered ws s); split; intros H;
    try reflexivity; try discriminate; try (intros H'; discriminate).
  now contradiction H.
Qed.

Lemma Set_delete_In (ws c : Socket) (l : list Socket) :
  In c (Set_delete ws l) <-> In c l /\ c <> ws.
Proof.
  unfold Set_delete. rewrite filter_In, negb_true_iff, Nat.eqb_neq. tauto.
Qed.

Lemma Set_delete_absent (ws : Socket) (l : list Socket) :
  ~ In ws l -> Set_delete ws l = l.
Proof.
  induction l as [|c l IH]; simpl; intros H; [reflexivity|].
  destruct (Nat.eqb_spec c ws) as [->|Hne]; simpl.
  - exfalso. apply H. now left.
  - f_equal. apply IH. intros Hin. apply H. now right.
Qed.

Lemma Set_delete_NoDup (ws : Socket) (l : list Socket) :
  NoDup l -> NoDup (Set_delete ws l).
Proof. apply NoDup_filter. Qed.

Lemma Set_add_NoDup (ws : Socket) (l : list Socket) :
  NoDup l -> NoDup (Set_add ws l).
Proof.
  intros H. unfold Set_add.
  destruct (existsb (Nat.eqb ws) l) eqn:E; [exact H|].
  assert (Hnot : ~ In ws l).
  { intros Hin. assert (existsb (Nat.eqb ws) l = true).
    { apply existsb_exists. exists ws. split; [exact Hin | apply Nat.eqb_refl]. }
    congruence. }
  clear E. induction H as [|c l Hc Hl IH]; simpl.
  - constructor; [intros [] | constructor].
  - constructor.
    + rewrite in_app_iff. intros [Hin | [-> | []]]; [now apply Hc|].
      apply Hnot. now left.
    + apply IH. intros Hin. apply Hnot. now right.
Qed.

Lemma Set_delete_split (ws : Socket) (l : list Socket) :
  NoDup l -> In ws l ->
  exists l1 l2, l = l1 ++ ws :: l2 /\ Set_delete ws l = l1 ++ l2.
Proof.
  induction 1 as [|c l Hc Hl IH]; simpl; intros Hin; [contradiction|].
  destruct (Nat.eqb_spec c ws) as [->|Hne]; simpl.
  - exists [], l. split; [reflexivity|]. now apply Set_delete_absent.
  - destruct Hin as [Heq|Hin]; [contradiction|].
    destruct (IH Hin) as [l1 [l2 [E1 E2]]].
    exists (c :: l1), l2. simpl. split; f_equal; assumption.
Qed.

(** The set never holds a socket twice: every handler keeps it so. *)
Lemma handlers_keep_NoDup (JSON_parse : string -> option JSON)
  (JSON_stringify : Message -> string) (ws : Socket) (frame : string)
  (now : Z) (m : Message) (r : ReadyState) (s : Server) :
  NoDup (clients s) ->
  NoDup (clients (fst (on_connection JSON_stringify ws now s)))
  /\ NoDup (clients (fst (on_message JSON_parse JSON_stringify ws frame now s)))
  /\ NoDup (clients (fst (on_close ws s)))
  /\ NoDup (clients (fst (on_error ws s)))
  /\ NoDup (clients (fst (broadcast JSON_stringify m s)))
  /\ NoDup (clients (transport ws r s)).
Proof.
  intros H. repeat split; simpl;
    try (now apply Set_add_NoDup); try (now apply Set_delete_NoDup);
    try exact H.
  unfold on_message. destruct (JSON_parse frame) as [data|]; [|exact H].
  destruct (get_type data) as [e|ty]; [exact H|].
  now destruct (is_ping ty).
Qed.

(** What one pass of [forEach] hands a socket: a copy per occurrence in the
    set when the socket is open, nothing otherwise. *)
Lemma forEach_sent (s : Server) (data : string) (c : Socket) (l : list Socket) :
  sent_data c (flat_map (deliver s data) l)
  = if is_OPEN (readyState s c) then repeat data (count_occ Nat.eq_dec l c)
    else [].
Proof.
  induction l as [|d l IH]; simpl.
  - now destruct (is_OPEN (readyState s c)).
  - unfold sent_data in *. rewrite flat_map_app, IH. unfold deliver.
    destruct (Nat.eq_dec d c) as [->|Hne].
    + destruct (is_OPEN (readyState s c)); simpl; [|reflexivity].
      now rewrite Nat.eqb_refl.
    + destruct (is_OPEN (readyState s d)); simpl;
        [apply Nat.eqb_neq in Hne; rewrite Hne|]; reflexivity.
Qed.

Lemma forEach_no_stringify (s : Server) (data : string) (l : list Socket) :
  filter is_stringify (flat_map (deliver s data) l) = [].
Proof.
  induction l as [|d l IH]; simpl; [reflexivity|].
  rewrite filter_app, IH, app_nil_r. unfold deliver.
  now destruct (is_OPEN (readyState s d)).
Qed.

(** C3: [broadcast] serialises the event once and hands that one string
    exactly once to every socket that is in the set and open at the call; a
    socket that is not in the set at the call (it registers later), or whose
    ready state is not OPEN, is handed nothing. *)
Theorem broadcast_delivers_once :
  forall (JSON_stringify : Message -> string) (m : Message) (s : Server),
    NoDup (clients s) ->
    let calls := snd (broadcast JSON_stringify m s) in
    stringified calls = 1
    /\ (forall c, sent_data c calls =
                  if registered c s && is_OPEN (readyState s c)
                  then [JSON_stringify m] else [])
    /\ (forall c now,
          registered c s = false ->
          sent_data c calls = []
          /\ registered c (fst (on_connection JSON_stringify c now s)) = true).
Proof.
  intros stringify m s Hnd calls. subst calls.
  assert (Hsent : forall c,
    sent_data c (snd (broadcast stringify m s))
    = if registered c s && is_OPEN (readyState s c) then [stringify m] else []).
  { intros c. change (sent_data c (flat_map (deliver s (stringify m)) (clients s))
                      = if registered c s && is_OPEN (readyState s c)
                        then [stringify m] else []).
    rewrite forEach_sent.
    destruct (registered c s) eqn:R; simpl.
    - apply registered_In in R.
      destruct (is_OPEN (readyState s c)); [|reflexivity].
      assert (count_occ Nat.eq_dec (clients s) c = 1) as ->; [|reflexivity].
      apply NoDup_count_occ' ; assumption.
    - apply registered_false in R.
      destruct (is_OPEN (readyState s c)); [|reflexivity].
      apply (count_occ_not_In Nat.eq_dec) in R. now rewrite R. }
  split; [|split].
  - unfold stringified, broadcast. simpl. now rewrite forEach_no_stringify.
  - exact Hsent.
  - intros c now R. split.
    + rewrite Hsent, R. reflexivity.
    + apply registered_In. simpl. unfold Set_add.
      unfold registered in R. rewrite R. apply in_app_iff. right. now left.
Qed.

Lemma broadcast_delivers_once_witness :
  NoDup (clients two_open)
  /\ sent_data 2 (snd (broadcast (fun _ => "frame") (Pong 0) two_open))
     = ["frame"].
Proof.
  assert (H : NoDup (clients two_open)).
  { repeat constructor; simpl; intuition discriminate. }
  split; [exact H|].
  exact (proj1 (proj2 (broadcast_delivers_once (fun _ => "frame") (Pong 0)
                         two_open H)) 2).
Defined.

(** The scenario of the specification: A and B register and both receive
    the first event; B unregisters and only A receives the second. *)
Example two_then_one :
  let str := fun m : Message =>
               match m with ArticleCreated _ _ => "X" | _ => "other" end in
  let s0 := {| clients := []; readyState := fun _ => OPEN |} in
  let s1 := fst (on_connection str 1 0 s0) in
  let s2 := fst (on_connection str 2 0 s1) in
  let first := snd (broadcast str (ArticleCreated None 5) s2) in
  let s3 := fst (on_close 2 s2) in
  let second := snd (broadcast str (ArticleDeleted "id" 6) s3) in
  sent_data 1 first = ["X"] /\ sent_data 2 first = ["X"]
  /\ sent_data 1 second = ["other"] /\ sent_data 2 second = [].
Proof. repeat split. Qed.



(** C9: the close and error handlers delete the socket from the set.
    Deleting a socket that is not in the set changes nothing and raises
    nothing; deleting one that is in it removes that socket and leaves the
    others, and their order, as they were; a second deletion is a no-op. *)
Theorem unregister_idempotent :
  forall (ws : Socket) (s : Server),
    let after := fst (on_close ws s) in
    on_error ws s = on_close ws s
    /\ snd (on_close ws s) = []
    /\ readyState after = readyState s
    /\ (registered ws s = false -> clients after = clients s)
    /\ registered ws after = false
    /\ (forall c, c <> ws -> registered c after = registered c s)
    /\ (NoDup (clients s) -> registered ws s = true ->
        exists before behind,
          clients s = before ++ ws :: behind
          /\ clients after = before ++ behind)
    /\ fst (on_close ws after) = after.
Proof.
  intros ws s after. subst after. unfold on_close, on_error. simpl.
  repeat split.
  - intros H. apply Set_delete_absent. now apply registered_false.
  - apply registered_false. simpl. rewrite Set_delete_In. tauto.
  - intros c Hne. unfold registered. simpl.
    destruct (existsb (Nat.eqb c) (clients s)) eqn:E.
    + apply existsb_exists. apply existsb_exists in E.
      destruct E as [d [Hd Heq]]. apply Nat.eqb_eq in Heq. subst d.
      exists c. split; [|apply Nat.eqb_refl]. apply Set_delete_In. now split.
    + destruct (existsb (Nat.eqb c) (Set_delete ws (clients s))) eqn:E';
        [|reflexivity].
      apply existsb_exists in E'. destruct E' as [d [Hd Heq]].
      apply Set_delete_In in Hd. destruct Hd as [Hd _].
      assert (existsb (Nat.eqb c) (clients s) = true).
      { apply existsb_exists. now exists d. }
      congruence.
  - intros Hnd Hin. apply Set_delete_split; [exact Hnd|].
    now apply registered_In.
  - unfold with_clients. simpl. f_equal.
    apply Set_delete_absent. rewrite Set_delete_In. tauto.
Qed.

Example unregister_examples :
  Set_delete 7 [1; 2; 3] = [1; 2; 3]
  /\ Set_delete 2 [1; 2; 3] = [1; 3]
  /\ Set_delete 2 (Set_delete 2 [1; 2; 3]) = [1; 3].
Proof. repeat split. Qed.

(** C10: the message handler never touches the set and never raises.  A
    frame that does not parse, or parses to anything but an object whose
    [type] is the string ["ping"], answers nothing; a frame that parses to
    an object whose [type] is ["ping"] answers one pong, sent to the socket
    the frame came from and to no other. *)
Theorem on_message_answers_ping_only :
  forall (JSON_parse : string -> option JSON)
         (JSON_stringify : Message -> string)
         (ws : Socket) (message : string) (now : Z) (s : Server),
    let r := on_message JSON_parse JSON_stringify ws message now s in
    fst r = s
    /\ (JSON_parse message = None -> snd r = [])
    /\ (forall data, JSON_parse message = Some data ->
          (forall properties, data = JObject properties ->
             lookup "type" properties <> Some (JString "ping")) ->
          snd r = [])
    /\ (forall properties,
          JSON_parse message = Some (JObject properties) ->
          lookup "type" properties = Some (JString "ping") ->
          snd r = [Stringify (Pong now); Send ws (JSON_stringify (Pong now))]
          /\ sent_data ws (snd r) = [JSON_stringify (Pong now)])
    /\ (snd r <> [] ->
        exists properties,
          JSON_parse message = Some (JObject properties)
          /\ lookup "type" properties = Some (JString "ping"))
    /\ (forall c, c <> ws -> sent_data c (snd r) = []).
Proof.
  intros parse stringify ws message now s r. subst r. unfold on_message.
  destruct (parse message) as [data|] eqn:P.
  2:{ repeat split; try reflexivity; try discriminate.
      intros H; now contradiction H. }
  assert (Hping : forall ty, is_ping ty = true -> ty = Some (JString "ping")).
  { intros [[| | | x | |]|]; simpl; try discriminate.
    intros H. apply String.eqb_eq in H. now subst. }
  assert (Hobj : forall properties,
             data = JObject properties ->
             get_type data = inr (lookup "type" properties)).
  { intros properties ->. reflexivity. }
  assert (Hnot : forall ty props,
             get_type data = inr ty -> is_ping ty = false ->
             Some data = Some (JObject props) ->
             lookup "type" props <> Some (JString "ping")).
  { intros ty props T I Hd Hl. injection Hd as Hd.
    rewrite (Hobj _ Hd), Hl in T. injection T as <-. discriminate. }
  destruct (get_type data) as [e|ty] eqn:T.
  { split; [reflexivity|]. split; [intros; reflexivity|].
    split; [intros; reflexivity|]. split.
    - intros props Hd Hl. injection Hd as Hd.
      discriminate (Hobj _ Hd).
    - split; [intros H; now contradiction H | intros; reflexivity]. }
  destruct (is_ping ty) eqn:I.
  - apply Hping in I. subst ty. cbn [fst snd].
    split; [reflexivity|]. split; [discriminate|]. split.
    { intros d Hd Hno. injection Hd as <-.
      destruct data; simpl in T; try discriminate.
      injection T as T. now contradiction (Hno _ eq_refl). }
    split.
    { intros props _ _. split; [reflexivity|].
      unfold sent_data. simpl. now rewrite Nat.eqb_refl. }
    split.
    { intros _. destruct data; simpl in T; try discriminate.
      exists properties. split; [reflexivity|]. now injection T. }
    intros c Hne. unfold sent_data. simpl.
    apply Nat.eqb_neq in Hne. rewrite Nat.eqb_sym, Hne. reflexivity.
  - split; [reflexivity|]. split; [intros; reflexivity|].
    split; [intros; reflexivity|]. split.
    + intros props Hd Hl. now contradiction (Hnot _ _ eq_refl I Hd).
    + split; [intros H; now contradiction H | intros; reflexivity].
Qed.

(** A frame that parses to [{type: "ping"}], from socket 1 at time 7, with
    sockets 1 and 2 both in the set: one pong, to socket 1. *)
Lemma on_message_answers_ping_only_witness :
  let parse := fun frame : string =>
                 if String.eqb frame "<ping>"
                 then Some (JObject [("id", JNumber "3");
                                     ("type", JString "ping")])
                 else None in
  let stringify := fun m : Message =>
                     match m with Pong _ => "<pong>" | _ => "<other>" end in
  let r := on_message parse stringify 1 "<ping>" 7 Terms.two_open in
  lookup "type" [("id", JNumber "3"); ("type", JString "ping")]
  = Some (JString "ping")
  /\ snd r = [Stringify (Pong 7); Send 1 "<pong>"]
  /\ sent_data 1 (snd r) = ["<pong>"]
  /\ sent_data 2 (snd r) = []
  /\ fst r = Terms.two_open
  /\ snd (on_message parse stringify 1 "ping" 7 Terms.two_open) = [].
Proof.
  intros parse stringify r.
  pose proof (on_message_answers_ping_only parse stringify 1 "<ping>" 7
                Terms.two_open) as (Hs & _ & _ & Hping & _ & Hother).
  specialize (Hping _ eq_refl eq_refl). destruct Hping as [Hcalls Hsent].
  split; [reflexivity|]. split; [exact Hcalls|]. split; [exact Hsent|].
  split; [apply Hother; discriminate|]. split; [exact Hs|].
  exact (proj1 (proj2 (on_message_answers_ping_only parse stringify 1 "ping" 7
                         Terms.two_open)) eq_refl).
Defined.

End WsFacts.

(* ================================================================== *)
(** * Running programs *)

Module ProgFacts.
Section Facts.
Variable S : Type.
Variable answer : forall X, Eff X -> S -> X * S.

Lemma run_bind {A B} (p : Prog.t A) (f : A -> Prog.t B) (s : S) :
  Prog.run answer (Prog.bind p f) s
  = match Prog.run answer p s with
    | (Returned a, s1, tr1) =>
        let '(r, s2, tr2) := Prog.run answer (f a) s1 in (r, s2, tr1 ++ tr2)
    | (Rejected e, s1, tr1) => (Rejected e, s1, tr1)
    end.
Proof.
  revert s. induction p as [a|e|X e k IH]; intros s; simpl.
  - now destruct (Prog.run answer (f a) s) as [[r s2] tr2].
  - reflexivity.
  - destruct (answer e s) as [x s1]. rewrite IH.
    destruct (Prog.run answer (k x) s1) as [[[a|err] s2] tr1]; [|reflexivity].
    now destruct (Prog.run answer (f a) s2) as [[r s3] tr2].
Qed.


(** A middleware that answers ends the request: what follows it in the
    stack, and the handler, are not run. *)
Lemma chain_reply (m : Middleware) (rest : list Middleware) (h : Handler)
  (req : Req) (s s1 : S) (r : Response) (tr : list Prog.Entry) :
  Prog.run answer (m req) s = (Returned (Reply r), s1, tr) ->
  Prog.run answer (chain (m :: rest) h req) s = (Returned r, s1, tr).
Proof.
  intros H. simpl. rewrite run_bind, H. simpl. now rewrite app_nil_r.
Qed.

Lemma chain_next (m : Middleware) (rest : list Middleware) (h : Handler)
  (req req1 : Req) (s s1 : S) (tr : list Prog.Entry) :
  Prog.run answer (m req) s = (Returned (Next req1), s1, tr) ->
  Prog.run answer (chain (m :: rest) h req) s
  = let '(r, s2, tr2) := Prog.run answer (chain rest h req1) s1 in
    (r, s2, tr ++ tr2).
Proof.
  intros H. simpl. rewrite run_bind, H. reflexivity.
Qed.

End Facts.
End ProgFacts.

(* ================================================================== *)
(** * The words of a header *)

Module HeaderFacts.
Import Terms.

Lemma split_without (sep : ascii) (a : string) :
  forallb (fun c => negb (Ascii.eqb c sep)) (Js.chars a) = true ->
  Js.split sep a = [a].
Proof.
  induction a as [|c a IH]; simpl; [reflexivity|].
  intros H. apply andb_true_iff in H. destruct H as [Hc Ha].
  apply negb_true_iff in Hc. now rewrite Hc, (IH Ha).
Qed.

Lemma split_at (sep : ascii) (a r : string) :
  forallb (fun c => negb (Ascii.eqb c sep)) (Js.chars a) = true ->
  Js.split sep (a ++ String sep r)%string = a :: Js.split sep r.
Proof.
  induction a as [|c a IH]; simpl.
  - intros _. now rewrite Ascii.eqb_refl.
  - intros H. apply andb_true_iff in H. destruct H as [Hc Ha].
    apply negb_true_iff in Hc. now rewrite Hc, (IH Ha).
Qed.

Lemma truthy_app (a : string) (c : ascii) (r : string) :
  Js.truthy (a ++ String c r)%string = true.
Proof. now destruct a. Qed.

(** A header of one word carries no token. *)
Lemma bearer_one_word (scheme : string) :
  nospace scheme = true ->
  Js.truthy_opt (AuthRoutes.bearer (Some scheme)) = false.
Proof.
  intros Hs. unfold AuthRoutes.bearer, Js.index.
  destruct (Js.truthy scheme) eqn:E; [|exact E].
  now rewrite (@split_without _ _ Hs).
Qed.

(** The token is the second word, with or without words after it. *)
Lemma bearer_second_word (scheme token : string) :
  nospace scheme = true -> nospace token = true ->
  AuthRoutes.bearer (Some (scheme ++ " " ++ token)%string) = Some token.
Proof.
  intros Hs Ht. unfold AuthRoutes.bearer, Js.index.
  change (scheme ++ " " ++ token)%string with (scheme ++ String " " token)%string.
  rewrite truthy_app, (@split_at _ _ _ Hs), (@split_without _ _ Ht).
  reflexivity.
Qed.

Lemma bearer_second_of_more (scheme token tail : string) :
  nospace scheme = true -> nospace token = true ->
  AuthRoutes.bearer (Some (scheme ++ " " ++ token ++ " " ++ tail)%string)
  = Some token.
Proof.
  intros Hs Ht. unfold AuthRoutes.bearer, Js.index.
  change (scheme ++ " " ++ token ++ " " ++ tail)%string
    with (scheme ++ String " " (token ++ String " " tail))%string.
  rewrite truthy_app, (@split_at _ _ _ Hs), (@split_at _ _ _ Ht).
  reflexivity.
Qed.

(** Every header is one word, or a word, a space and the rest. *)
Lemma first_word (header : string) :
  nospace header = true
  \/ exists scheme r,
       nospace scheme = true /\ header = (scheme ++ String " " r)%string.
Proof.
  induction header as [|c header IH].
  - now left.
  - destruct (Ascii.eqb c " ") eqn:E.
    + right. apply Ascii.eqb_eq in E. subst c.
      exists EmptyString, header. now split.
    + destruct IH as [IH|[scheme [r [Hs ->]]]].
      * left. unfold nospace in *. simpl. now rewrite E.
      * right. exists (String c scheme), r. split; [|reflexivity].
        unfold nospace in *. simpl. now rewrite E.
Qed.

(** A token [authenticate] finds in a header is its second word. *)
Lemma bearer_is_second_word (header token : string) :
  AuthRoutes.bearer (Some header) = Some token -> token <> "" ->
  exists scheme,
    nospace scheme = true /\ nospace token = true
    /\ (header = (scheme ++ " " ++ token)%string
        \/ exists tail,
             header = (scheme ++ " " ++ token ++ " " ++ tail)%string).
Proof.
  intros H Hne.
  destruct (first_word header) as [Hw|[scheme [r [Hs ->]]]].
  - pose proof (bearer_one_word _ Hw) as F. rewrite H in F.
    destruct token; [now contradiction Hne | discriminate].
  - exists scheme. split; [exact Hs|].
    destruct (first_word r) as [Hr|[word [tail [Hword ->]]]].
    + change (scheme ++ String " " r)%string
        with (scheme ++ " " ++ r)%string in H.
      rewrite (bearer_second_word _ _ Hs Hr) in H. injection H as <-.
      split; [exact Hr|]. now left.
    + change (scheme ++ String " " (word ++ String " " tail))%string
        with (scheme ++ " " ++ word ++ " " ++ tail)%string in H.
      rewrite (bearer_second_of_more _ _ tail Hs Hword) in H.
      injection H as <-. split; [exact Hword|]. right. now exists tail.
Qed.

End HeaderFacts.

(* ================================================================== *)
(** * Properties of the access control gate *)

Module GateFacts.
Import Terms.
Section Facts.
Context {rt : Runtime}.
Variable S : Type.
Variable answer : forall X, Eff X -> S -> X * S.

Abbreviation run := (Prog.run answer).

Lemma run_isAdmin (req : Req) (s : S) :
  run (AuthRoutes.isAdmin req) s
  = if Js.strict_eq (AuthRoutes.role_of (user req)) (Some "admin")
    then (Returned (Next req), s, [])
    else (Returned (Reply (res_status 403 (Message_ "Acces refuse - Admin requis"))),
          s, []).
Proof.
  unfold AuthRoutes.isAdmin.
  now destruct (Js.strict_eq (AuthRoutes.role_of (user req)) (Some "admin")).
Qed.

Lemma run_authenticate (req : Req) (s : S) :
  run (AuthRoutes.authenticate req) s
  = match AuthRoutes.bearer (authorization req) with
    | Some (String c tok) =>
        let '(now, s1) := answer NewDate s in
        match jwt_verify (String c tok) JWT_SECRET (seconds now) with
        | inr u => (Returned (Next (with_user req u)), s1, [Called NewDate now])
        | inl e =>
            (Returned (Reply (res_status 401
                                (MessageError "Token invalide" (exn_message e)))),
             s1, [Called NewDate now])
        end
    | _ => (Returned (Reply (res_status 401 (Message_ "Token manquant"))), s, [])
    end.
Proof.
  unfold AuthRoutes.authenticate.
  destruct (AuthRoutes.bearer (authorization req)) as [[|c tok]|];
    try reflexivity.
  cbn. destruct (answer NewDate s) as [now s1].
  now destruct (jwt_verify (String c tok) JWT_SECRET (seconds now)).
Qed.

(** The stack behind [authenticate] for a request whose header carries no
    token, and for one whose header carries [token]. *)
Lemma chain_without_token (rest : list Middleware) (h : Handler) (req : Req)
  (s : S) :
  Js.truthy_opt (AuthRoutes.bearer (authorization req)) = false ->
  run (chain (AuthRoutes.authenticate :: rest) h req) s
  = (Returned (res_status 401 (Message_ "Token manquant")), s, []).
Proof.
  intros H. apply ProgFacts.chain_reply. rewrite run_authenticate.
  destruct (AuthRoutes.bearer (authorization req)) as [[|c tok]|];
    try reflexivity. discriminate.
Qed.

Lemma authenticate_with_token (req : Req) (s : S) (token : string) :
  AuthRoutes.bearer (authorization req) = Some token -> token <> "" ->
  run (AuthRoutes.authenticate req) s
  = let now := fst (answer NewDate s) in
    match jwt_verify token JWT_SECRET (seconds now) with
    | inr u =>
        (Returned (Next (with_user req u)), snd (answer NewDate s),
         [Called NewDate now])
    | inl e =>
        (Returned (Reply (res_status 401
                            (MessageError "Token invalide" (exn_message e)))),
         snd (answer NewDate s), [Called NewDate now])
    end.
Proof.
  intros H Hne. rewrite run_authenticate, H.
  destruct token as [|c tok]; [now contradiction Hne|].
  now destruct (answer NewDate s) as [now s1].
Qed.

Lemma same_but_user_with_user (req : Req) (u : ReqUser) :
  user (with_user req u) = Some u /\ same_but_user req (with_user req u).
Proof. unfold same_but_user. simpl. repeat split. Qed.

(** C5, as the code has it.  On a route behind [authenticate], a request
    with no Authorization header, or with a header that has no second word
    (a single word, or nothing between its first space and the end or the
    next space), is answered 401 "Token manquant".  The token is the second
    of the words of the header, whatever the first word is and whatever
    follows the second.  When the token does not verify the answer is 401
    "Token invalide"; in both cases nothing that follows in the stack runs
    and no driver call is made (the clock read by the verification is the
    only call).  When the token verifies, the stack goes on with a request
    that differs in [req.user] only, which is the decoded payload.  The
    admin check that follows short-circuits in the same way. *)
Theorem authenticate_short_circuits :
  forall (rest : list Middleware) (h : Handler) (req : Req) (s : S),
    let p := chain (AuthRoutes.authenticate :: rest) h req in
    let now := fst (answer NewDate s) in
    let s1 := snd (answer NewDate s) in
    let header := authorization req in
    let missing :=
      (Returned (res_status 401 (Message_ "Token manquant")), s, []) in
    (header = None -> run p s = missing)
    /\ (forall scheme tail,
          nospace scheme = true ->
          header = Some scheme
          \/ header = Some (scheme ++ " ")%string
          \/ header = Some (scheme ++ "  " ++ tail)%string ->
          run p s = missing)
    /\ (forall scheme token tail,
          nospace scheme = true -> nospace token = true -> token <> "" ->
          header = Some (scheme ++ " " ++ token)%string
          \/ header = Some (scheme ++ " " ++ token ++ " " ++ tail)%string ->
          (forall e,
             jwt_verify token JWT_SECRET (seconds now) = inl e ->
             run p s
             = (Returned (res_status 401
                            (MessageError "Token invalide" (exn_message e))),
                s1, [Called NewDate now])
             /\ Prog.db_calls (Prog.trace answer p s) = 0)
          /\ (forall u,
                jwt_verify token JWT_SECRET (seconds now) = inr u ->
                exists req1,
                  user req1 = Some u /\ same_but_user req req1
                  /\ run p s
                     = let '(r, s2, tr) := run (chain rest h req1) s1 in
                       (r, s2, Called NewDate now :: tr)))
    /\ ((user req = None
         \/ exists u, user req = Some u /\ role u <> Some "admin") ->
        run (chain (AuthRoutes.isAdmin :: rest) h req) s
        = (Returned (res_status 403 (Message_ "Acces refuse - Admin requis")),
           s, []))
    /\ (forall u, user req = Some u -> role u = Some "admin" ->
        run (chain (AuthRoutes.isAdmin :: rest) h req) s
        = run (chain rest h req) s).
Proof.
  intros rest h req s p now s1 header missing.
  subst p now s1 header missing.
  split; [|split; [|split; [|split]]].
  - intros H. apply chain_without_token. now rewrite H.
  - intros scheme tail Hs [H|[H|H]]; apply chain_without_token; rewrite H.
    + now apply HeaderFacts.bearer_one_word.
    + change (scheme ++ " ")%string with (scheme ++ " " ++ "")%string.
      now rewrite HeaderFacts.bearer_second_word.
    + change (scheme ++ "  " ++ tail)%string
        with (scheme ++ " " ++ "" ++ " " ++ tail)%string.
      now rewrite HeaderFacts.bearer_second_of_more.
  - intros scheme token tail Hs Ht Hne Hh.
    assert (Hb : AuthRoutes.bearer (authorization req) = Some token).
    { destruct Hh as [H|H]; rewrite H.
      - now apply HeaderFacts.bearer_second_word.
      - now apply HeaderFacts.bearer_second_of_more. }
    pose proof (authenticate_with_token req s Hb Hne) as R. cbv zeta in R.
    split.
    + intros e He. rewrite He in R.
      assert (C : run (chain (AuthRoutes.authenticate :: rest) h req) s
                  = (Returned (res_status 401
                       (MessageError "Token invalide" (exn_message e))),
                     snd (answer NewDate s),
                     [Called NewDate (fst (answer NewDate s))])).
      { now apply ProgFacts.chain_reply. }
      split; [exact C|]. unfold Prog.trace. now rewrite C.
    + intros u Hu. rewrite Hu in R. exists (with_user req u).
      destruct (same_but_user_with_user req u) as [H1 H2].
      split; [exact H1|]. split; [exact H2|].
      now rewrite (@ProgFacts.chain_next S answer _ rest h req
                     (with_user req u) s (snd (answer NewDate s))
                     [Called NewDate (fst (answer NewDate s))] R).
  - intros H. apply ProgFacts.chain_reply. rewrite run_isAdmin.
    assert (E : Js.strict_eq (AuthRoutes.role_of (user req)) (Some "admin")
                = false).
    { destruct H as [H|[u [H Hr]]]; rewrite H; [reflexivity|].
      unfold AuthRoutes.role_of. destruct (role u) as [r|]; [|reflexivity].
      simpl. apply String.eqb_neq. intros ->. now contradiction Hr. }
    now rewrite E.
  - intros u Hu Hr.
    rewrite (@ProgFacts.chain_next S answer _ rest h req req s s []).
    + now destruct (run (chain rest h req) s) as [[r s2] tr].
    + rewrite run_isAdmin, Hu. unfold AuthRoutes.role_of. now rewrite Hr.
Qed.

End Facts.
End GateFacts.

(* ================================================================== *)
(** * Properties of the article controllers *)

Module ControllerFacts.
Section Facts.
Context {rt : Runtime}.
Variable S : Type.
Variable answer : forall X, Eff X -> S -> X * S.


End Facts.
End ControllerFacts.

(* ================================================================== *)
(** * Properties of the authorization of the article routes *)

Module PolicyFacts.
Import Terms.
Section Facts.
Context {rt : Runtime}.
Variable S : Type.
Variable answer : forall X, Eff X -> S -> X * S.

Abbreviation run := (Prog.run answer).

Lemma dispatch_after_authenticate (r : ArticleRoutes.Route) :
  ArticleRoutes.dispatch r = chain [AuthRoutes.authenticate] (after_authenticate r).
Proof. reflexivity. Qed.

(** C1, as the code has it.  The article routes are mounted behind
    [router.use(authenticate, isAdmin)]: with [req.user] set, a requester
    whose role is not admin, an author among them, is answered Forbidden by
    that gate before any call is made, and an admin reaches the controller.
    [isAuthorOrAdmin] on its own lets an admin pass; for an author on a route
    that names an article it looks the article up and answers NotFound when
    there is none, before any comparison, Forbidden when the article's
    [author] is not [req.user.username], and passes when the two are equal;
    any other role is answered Forbidden. *)
Theorem article_route_authorization :
  forall (r : ArticleRoutes.Route) (req : Req) (u : ReqUser) (s : S),
    user req = Some u ->
    (Js.strict_eq (role u) (Some "admin") = false ->
       run (after_authenticate r req) s = (Returned forbidden_admin, s, []))
    /\ (Js.strict_eq (role u) (Some "admin") = true ->
          run (after_authenticate r req) s
          = run (ArticleRoutes.controller r req) s
          /\ run (AuthRoutes.isAuthorOrAdmin req) s = (Returned (Next req), s, []))
    /\ (Js.strict_eq (role u) (Some "author") = true ->
        Js.truthy (articleId req) = true ->
        forall found s1 tr,
          run (ArticleModel.getArticleById (IdStr (articleId req))) s
          = (Returned found, s1, tr) ->
          run (AuthRoutes.isAuthorOrAdmin req) s
          = (Returned
               match found with
               | None => Reply article_not_found
               | Some article =>
                   if Js.strict_eq (ArticleDoc.author (ArticleDoc.body article))
                        (username u)
                   then Next req else Reply forbidden_owner
               end, s1, tr))
    /\ (Js.strict_eq (role u) (Some "admin") = false ->
        Js.strict_eq (role u) (Some "author") = false ->
        run (AuthRoutes.isAuthorOrAdmin req) s
        = (Returned (Reply forbidden_role), s, [])).
Proof.
  intros r req u s Hu.
  assert (Hpass : Js.strict_eq (role u) (Some "admin") = true ->
                  run (AuthRoutes.isAuthorOrAdmin req) s
                  = (Returned (Next req), s, [])).
  { intros H. unfold AuthRoutes.isAuthorOrAdmin. now rewrite Hu, H. }
  split; [|split; [|split]].
  - intros Hr. unfold after_authenticate. apply ProgFacts.chain_reply.
    rewrite GateFacts.run_isAdmin. unfold AuthRoutes.role_of.
    now rewrite Hu, Hr.
  - intros H. split; [|now apply Hpass].
    unfold after_authenticate.
    rewrite (@ProgFacts.chain_next S answer _ _ _ req req s s []).
    2:{ rewrite GateFacts.run_isAdmin. unfold AuthRoutes.role_of.
        now rewrite Hu, H. }
    destruct r; simpl ArticleRoutes.own; simpl chain;
      simpl ArticleRoutes.controller;
      try (rewrite ProgFacts.run_bind, (Hpass H); simpl);
      match goal with
      | |- context [run (?c req) s] =>
          now destruct (run (c req) s) as [[res s2] tr2]
      end.
  - intros Hau Hid found s1 tr Hfind.
    unfold AuthRoutes.isAuthorOrAdmin. rewrite Hu.
    destruct (Js.strict_eq (role u) (Some "admin")) eqn:Had.
    { destruct (role u) as [x|]; simpl in *; try discriminate.
      apply String.eqb_eq in Had, Hau. congruence. }
    rewrite Hau, Hid, ProgFacts.run_bind, Hfind.
    destruct found as [article|]; simpl; [|now rewrite app_nil_r].
    destruct (Js.strict_eq _ (username u)); simpl; now rewrite app_nil_r.
  - intros Had Hau. unfold AuthRoutes.isAuthorOrAdmin.
    now rewrite Hu, Had, Hau.
Qed.

End Facts.
End PolicyFacts.

(* ================================================================== *)
(** * Properties of the token service *)

Module JwtFacts.
Import Jwt Terms.

Lemma append_assoc (a b c : string) : ((a ++ b) ++ c = a ++ (b ++ c))%string.
Proof. induction a as [|x a IH]; simpl; [reflexivity | now rewrite IH]. Qed.

Lemma split_last (a : string) : nodot a -> Js.split "." a = [a].
Proof.
  unfold nodot. induction a as [|c a IH]; simpl; [reflexivity|].
  intros H. apply andb_true_iff in H. destruct H as [Hc Ha].
  apply negb_true_iff in Hc. rewrite Hc, (IH Ha). reflexivity.
Qed.

Lemma split_field (a r : string) :
  nodot a -> Js.split "." (a ++ String "." r) = a :: Js.split "." r.
Proof.
  unfold nodot. induction a as [|c a IH]; simpl; [reflexivity|].
  intros H. apply andb_true_iff in H. destruct H as [Hc Ha].
  apply negb_true_iff in Hc. rewrite Hc, (IH Ha). reflexivity.
Qed.

Lemma hex_char (c : ascii) :
  hex_value (hex_digit (nat_of_ascii c / 16)) = Some (nat_of_ascii c / 16)
  /\ hex_value (hex_digit (nat_of_ascii c mod 16)) = Some (nat_of_ascii c mod 16)
  /\ ascii_of_nat (16 * (nat_of_ascii c / 16) + nat_of_ascii c mod 16) = c
  /\ Ascii.eqb (hex_digit (nat_of_ascii c / 16)) "." = false
  /\ Ascii.eqb (hex_digit (nat_of_ascii c mod 16)) "." = false.
Proof.
  destruct c as [[] [] [] [] [] [] [] []]; vm_compute; repeat split.
Qed.

Lemma of_hex_to_hex (s : string) : of_hex (to_hex s) = Some s.
Proof.
  induction s as [|c s IH]; [reflexivity|].
  destruct (hex_char c) as (H1 & H2 & H3 & _).
  cbn [to_hex of_hex]. rewrite H1, H2, IH, H3. reflexivity.
Qed.

Lemma to_hex_nodot (s : string) : nodot (to_hex s).
Proof.
  unfold nodot. induction s as [|c s IH]; [reflexivity|].
  destruct (hex_char c) as (_ & _ & _ & H4 & H5).
  cbn [to_hex Js.chars forallb]. rewrite H4, H5, IH. reflexivity.
Qed.

Lemma dec_enc_pos (p : positive) : dec_pos (enc_pos p) = Some p.
Proof.
  induction p as [q IH|q IH|]; [| |reflexivity]; cbn [enc_pos dec_pos];
    (destruct (enc_pos q) eqn:E; [now destruct q|]); rewrite IH; reflexivity.
Qed.

Lemma enc_pos_nodot (p : positive) : nodot (enc_pos p).
Proof.
  unfold nodot. induction p as [q IH|q IH|]; [| |reflexivity];
    cbn [enc_pos Js.chars forallb]; now rewrite IH.
Qed.

Lemma dec_enc_Z (z : Z) : dec_Z (enc_Z z) = Some z.
Proof.
  destruct z as [|p|p]; [reflexivity| |]; cbn; now rewrite dec_enc_pos.
Qed.

Lemma enc_Z_nodot (z : Z) : nodot (enc_Z z).
Proof.
  destruct z as [|p|p]; [reflexivity| |]; unfold nodot;
    cbn [enc_Z Js.chars forallb]; now rewrite (enc_pos_nodot p).
Qed.

Lemma dec_enc_id (o : option ObjectId) : dec_id (enc_id o) = Some o.
Proof.
  destruct o as [n|]; [|reflexivity]. unfold dec_id, enc_id.
  assert (E : String.eqb (enc_Z (Z.of_N n)) "u" = false)
    by (now destruct n).
  rewrite E, dec_enc_Z.
  assert (L : (Z.of_N n <? 0)%Z = false) by (apply Z.ltb_ge; lia).
  now rewrite L, N2Z.id.
Qed.

Lemma enc_id_nodot (o : option ObjectId) : nodot (enc_id o).
Proof. destruct o; [apply enc_Z_nodot | reflexivity]. Qed.

Lemma dec_enc_role (r : option string) : dec_role (enc_role r) = Some r.
Proof.
  destruct r as [r|]; [|reflexivity]. cbn. now rewrite of_hex_to_hex.
Qed.

Lemma enc_role_nodot (r : option string) : nodot (enc_role r).
Proof.
  destruct r as [r|]; [|reflexivity]. unfold nodot.
  cbn [enc_role Js.chars forallb]. now rewrite (to_hex_nodot r).
Qed.

Section WithMac.
Variable mac : string -> string -> string.

(** The fields of an issued token. *)
Lemma split_sign (uid : option ObjectId) (role : option string)
  (secret : string) (expiresIn now : Z) :
  Js.split "." (sign mac uid role secret expiresIn now)
  = [enc_id uid; enc_role role; enc_Z now; enc_Z (now + expiresIn);
     to_hex (mac secret (claims_text uid role now (now + expiresIn)))].
Proof.
  unfold sign, claims_text, dot.
  rewrite !append_assoc. cbn [append].
  rewrite (split_field _ (enc_id_nodot uid)).
  rewrite (split_field _ (enc_role_nodot role)).
  rewrite (split_field _ (enc_Z_nodot now)).
  rewrite (split_field _ (enc_Z_nodot (now + expiresIn))).
  rewrite (split_last (to_hex_nodot _)). reflexivity.
Qed.

(** What [verify] answers on an issued token. *)
Lemma verify_sign (uid : option ObjectId) (role : option string)
  (secret : string) (expiresIn issued now : Z) :
  verify mac (sign mac uid role secret expiresIn issued) secret now
  = if (issued + expiresIn <=? now)%Z then inl TokenExpiredError
    else inr {| userId := uid; role := role; username := None;
                iat := issued; exp := issued + expiresIn |}.
Proof.
  unfold verify. rewrite split_sign.
  rewrite dec_enc_id, dec_enc_role, !dec_enc_Z.
  fold (claims_text uid role issued (issued + expiresIn)).
  now rewrite String.eqb_refl.
Qed.

(** [verify] yields a payload only for a token of five fields that decode,
    whose signature is the one of its claims under the secret and whose
    expiry lies after the clock. *)
Lemma verify_sound (token secret : string) (now : Z) (u : ReqUser) :
  verify mac token secret now = inr u ->
  exists a b c d sg,
    Js.split "." token = [a; b; c; d; sg]
    /\ sg = to_hex (mac secret (a ++ dot ++ b ++ dot ++ c ++ dot ++ d))
    /\ dec_id a = Some (userId u) /\ dec_role b = Some (role u)
    /\ dec_Z c = Some (iat u) /\ dec_Z d = Some (exp u)
    /\ username u = None
    /\ (now < exp u)%Z.
Proof.
  unfold verify.
  destruct (Js.split "." token) as [|a [|b [|c [|d [|sg [|x l]]]]]];
    try discriminate.
  destruct (dec_id a) as [uid|] eqn:Ha; try discriminate.
  destruct (dec_role b) as [r|] eqn:Hb; try discriminate.
  destruct (dec_Z c) as [i|] eqn:Hc; try discriminate.
  destruct (dec_Z d) as [e|] eqn:Hd; try discriminate.
  destruct (String.eqb_spec sg
              (to_hex (mac secret (a ++ dot ++ b ++ dot ++ c ++ dot ++ d))))
    as [->|Hsg]; try discriminate.
  destruct (Z.leb_spec e now) as [Hle|Hlt]; try discriminate.
  intros Hu. injection Hu as <-.
  exists a, b, c, d,
    (to_hex (mac secret (a ++ dot ++ b ++ dot ++ c ++ dot ++ d))).
  cbn. repeat split; auto.
Qed.

End WithMac.
End JwtFacts.

Module TokenFacts.
Section Facts.
Context {rt : Runtime}.
Variable mac : string -> string -> string.
Variable S : Type.
Variable answer : forall X, Eff X -> S -> X * S.

Abbreviation run := (Prog.run answer).

Lemma run_verifyToken (token : string) (s : S) :
  run (AuthService.verifyToken token) s
  = (match jwt_verify token JWT_SECRET (seconds (fst (answer NewDate s))) with
     | inl e => Rejected e
     | inr u => Returned u
     end, snd (answer NewDate s), [Called NewDate (fst (answer NewDate s))]).
Proof.
  unfold AuthService.verifyToken. cbn.
  destruct (answer NewDate s) as [now s1]. cbn.
  now destruct (jwt_verify token JWT_SECRET (seconds now)).
Qed.

(** What a successful login hands out: the token signed over the id and
    role of the user found, at the clock read, with the one-hour expiry. *)
Lemma login_token (email : string) (password : option string) (s : S)
  (l : AuthService.Login) :
  Prog.result answer (AuthService.loginUser email password) s
  = Returned (Some l) ->
  exists u issued,
    In (Called (Await (users_findOne (UEmail email))) (inr (Some u)))
       (Prog.trace answer (AuthService.loginUser email password) s)
    /\ In (Called NewDate issued)
          (Prog.trace answer (AuthService.loginUser email password) s)
    /\ AuthService.token l
       = jwt_sign (UserDoc.id u) (UserDoc.role u) JWT_SECRET 3600
           (seconds issued)
    /\ AuthService.login_role l = UserDoc.role u.
Proof.
  unfold Prog.result, Prog.trace, AuthService.loginUser,
    UserModel.findUserByEmail, AuthService.bcrypt_compare. cbn.
  repeat (split_match; cbn in * ); intros Hres; try discriminate.
  injection Hres as <-. cbn. eexists _, _. repeat split.
  - left. reflexivity.
  - right. right. left. reflexivity.
Qed.

(** C6: a login issues a token that expires one hour after the clock it was
    signed at, and verifying reads nothing but the token, the secret and the
    clock: thirty minutes after the issue the token verifies to the signed
    id and role, sixty-one minutes after it the verification fails as
    expired, and so from the hour on; a token that verifies is well formed
    and carries the signature of its claims under the secret. *)
Theorem token_expires_after_one_hour :
  jwt_sign = Jwt.sign mac ->
  jwt_verify = Jwt.verify mac ->
  forall (email : string) (password : option string) (s : S)
         (l : AuthService.Login),
    Prog.result answer (AuthService.loginUser email password) s
    = Returned (Some l) ->
    exists u issued,
      In (Called (Await (users_findOne (UEmail email))) (inr (Some u)))
         (Prog.trace answer (AuthService.loginUser email password) s)
      /\ In (Called NewDate issued)
            (Prog.trace answer (AuthService.loginUser email password) s)
      /\ (forall s',
            let now := fst (answer NewDate s') in
            let verified := {| userId := UserDoc.id u; role := UserDoc.role u;
                               username := None; iat := seconds issued;
                               exp := seconds issued + 3600 |} in
            run (AuthService.verifyToken (AuthService.token l)) s'
            = (if (seconds issued + 3600 <=? seconds now)%Z
               then Rejected Jwt.TokenExpiredError else Returned verified,
               snd (answer NewDate s'), [Called NewDate now])
            /\ (now = issued + 30 * 60 * 1000 ->
                Prog.result answer
                  (AuthService.verifyToken (AuthService.token l)) s'
                = Returned verified)
            /\ (now = issued + 61 * 60 * 1000 ->
                Prog.result answer
                  (AuthService.verifyToken (AuthService.token l)) s'
                = Rejected Jwt.TokenExpiredError))%Z
      /\ (forall token s' v,
            Prog.result answer (AuthService.verifyToken token) s' = Returned v ->
            exists a b c d,
              Js.split "." token
              = [a; b; c; d;
                 Jwt.to_hex (mac JWT_SECRET
                   (a ++ Jwt.dot ++ b ++ Jwt.dot ++ c ++ Jwt.dot ++ d))]
              /\ Jwt.dec_id a = Some (userId v)
              /\ Jwt.dec_role b = Some (role v)
              /\ Jwt.dec_Z c = Some (iat v) /\ Jwt.dec_Z d = Some (exp v)
              /\ (seconds (fst (answer NewDate s')) < exp v)%Z).
Proof.
  intros Hsign Hverify email password s l Hlogin.
  destruct (login_token _ _ _ Hlogin) as (u & issued & Hfind & Hclock & Htok & _).
  exists u, issued. split; [exact Hfind|]. split; [exact Hclock|]. split.
  - intros s' now verified.
    assert (R : run (AuthService.verifyToken (AuthService.token l)) s'
                = (if (seconds issued + 3600 <=? seconds now)%Z
                   then Rejected Jwt.TokenExpiredError else Returned verified,
                   snd (answer NewDate s'), [Called NewDate now])).
    { rewrite run_verifyToken, Htok, Hsign, Hverify, JwtFacts.verify_sign.
      fold now. now destruct (seconds issued + 3600 <=? seconds now)%Z. }
    split; [exact R|]. unfold Prog.result. rewrite R. cbn [fst].
    split; intros ->; unfold seconds.
    + replace (issued + 30 * 60 * 1000)%Z with (issued + 1800 * 1000)%Z by lia.
      rewrite Z.div_add by lia.
      destruct (Z.leb_spec (issued / 1000 + 3600) (issued / 1000 + 1800))%Z;
        [lia | reflexivity].
    + replace (issued + 61 * 60 * 1000)%Z with (issued + 3660 * 1000)%Z by lia.
      rewrite Z.div_add by lia.
      destruct (Z.leb_spec (issued / 1000 + 3600) (issued / 1000 + 3660))%Z;
        [reflexivity | lia].
  - intros token s' v Hv. unfold Prog.result in Hv.
    rewrite run_verifyToken in Hv. cbn [fst] in Hv. rewrite Hverify in Hv.
    destruct (Jwt.verify mac token JWT_SECRET (seconds (fst (answer NewDate s'))))
      as [e|v'] eqn:V; [discriminate|].
    injection Hv as ->.
    destruct (JwtFacts.verify_sound _ _ _ _ V)
      as (a & b & c & d & sg & Hs & -> & Ha & Hb & Hc & Hd & _ & He).
    exists a, b, c, d. now repeat split.
Qed.

End Facts.
End TokenFacts.

(* ================================================================== *)
(** * Properties of the search *)

Module SearchFacts.
Import Mongo Terms.

(** The folding on the code units 0..255: a-z and the Latin-1 letters go to
    their capitals; the division sign, the micro sign, the sharp s and the
    y with diaeresis stay. *)
Example fold_examples :
  map Js.fold (Js.chars "aZ9.") = Js.chars "AZ9."
  /\ map (fun n => nat_of_ascii (Js.fold (ascii_of_nat n)))
       [224; 233; 246; 248; 254; 201; 192; 222]
     = [192; 201; 214; 216; 222; 201; 192; 222]
  /\ map (fun n => nat_of_ascii (Js.fold (ascii_of_nat n)))
       [181; 215; 223; 247; 255; 96; 123]
     = [181; 215; 223; 247; 255; 96; 123].
Proof. repeat split. Qed.

Lemma atoms_plain (q : list ascii) :
  forallb (fun c => negb (is_syntax c || Ascii.eqb c ".")) q = true ->
  atoms q = Some (map Lit q).
Proof.
  induction q as [|c q IH]; simpl; [reflexivity|].
  intros H. apply andb_true_iff in H. destruct H as [Hc Hq].
  apply negb_true_iff, orb_false_iff in Hc. destruct Hc as [H1 H2].
  now rewrite H1, H2, (IH Hq).
Qed.

Lemma match_here_lits (q s : list ascii) :
  match_here (map Lit q) s = true
  <-> exists behind, map Js.fold s = map Js.fold q ++ behind.
Proof.
  revert s. induction q as [|c q IH]; intros s; simpl.
  - split; [intros _; now exists (map Js.fold s) | reflexivity].
  - destruct s as [|d s]; simpl.
    + split; [discriminate | intros [behind H]; discriminate].
    + rewrite andb_true_iff, IH, Ascii.eqb_eq. split.
      * intros [-> [behind H]]. exists behind. now rewrite H.
      * intros [behind H]. injection H as H1 H2. split; [now symmetry|].
        now exists behind.
Qed.

Lemma match_anywhere_split (p : list Atom) (s : list ascii) :
  match_anywhere p s = true
  <-> exists before rest, s = before ++ rest /\ match_here p rest = true.
Proof.
  induction s as [|c s IH].
  - simpl. rewrite orb_false_r. split.
    + intros H. now exists [], [].
    + intros (before & rest & E & H). symmetry in E.
      apply app_eq_nil in E. destruct E as [_ ->]. exact H.
  - cbn [match_anywhere]. rewrite orb_true_iff, IH. split.
    + intros [H | (before & rest & E & H)].
      * now exists [], (c :: s).
      * exists (c :: before), rest. split; [now rewrite E | exact H].
    + intros (before & rest & E & H). destruct before as [|b before].
      * left. simpl in E. now subst rest.
      * right. injection E as -> E. now exists before, rest.
Qed.

(** For a plain query the store's test is the substring test. *)
Lemma regex_test_plain (q text : string) :
  plain q = true -> (regex_test q text = true <-> ci_contains q text).
Proof.
  intros Hq. unfold regex_test, ci_contains. rewrite (atoms_plain _ Hq).
  rewrite match_anywhere_split. split.
  - intros (before & rest & E & H). apply match_here_lits in H.
    destruct H as [behind H]. exists (map Js.fold before), behind.
    now rewrite E, map_app, H.
  - intros (before & behind & E).
    apply map_eq_app in E. destruct E as (b' & rest & E & Hb & Hr).
    exists b', rest. split; [exact E|]. apply match_here_lits.
    now exists behind.
Qed.

Lemma matches_search_plain (q : string) (a : ArticleDoc.t) :
  plain q = true ->
  (matches (FSearch q) a = true
   <-> exists text, In text (text_fields a) /\ ci_contains q text).
Proof.
  intros Hq. unfold matches, text_fields.
  destruct (ArticleDoc.body a) as [t au j c d i]. simpl.
  rewrite !orb_true_iff. split.
  - intros [[[[H|H]|H]|H]|H].
    + destruct t as [t|]; [|discriminate]. exists t. split; [now left|].
      now apply regex_test_plain.
    + destruct d as [d|]; [|discriminate]. exists d. split.
      * apply in_app_iff. right. now left.
      * now apply regex_test_plain.
    + destruct c as [c|]; [|discriminate]. apply existsb_exists in H.
      destruct H as [x [Hx H]]. exists x. split.
      * apply in_app_iff. right. apply in_app_iff. right.
        apply in_app_iff. now left.
      * now apply regex_test_plain.
    + destruct j as [j|]; [|discriminate]. exists j. split.
      * apply in_app_iff. right. apply in_app_iff. right.
        apply in_app_iff. right. apply in_app_iff. left. now left.
      * now apply regex_test_plain.
    + destruct au as [au|]; [|discriminate]. exists au. split.
      * apply in_app_iff. right. apply in_app_iff. right.
        apply in_app_iff. right. apply in_app_iff. right. now left.
      * now apply regex_test_plain.
  - intros [text [Hin Hc]]. apply (proj2 (regex_test_plain q text Hq)) in Hc.
    repeat (apply in_app_iff in Hin; destruct Hin as [Hin|Hin]).
    + destruct t as [t|]; [|contradiction]. destruct Hin as [->|[]].
      now repeat left.
    + destruct d as [d|]; [|contradiction]. destruct Hin as [->|[]].
      left. left. left. now right.
    + destruct c as [c|]; [|contradiction]. left. left. right.
      apply existsb_exists. now exists text.
    + destruct j as [j|]; [|contradiction]. destruct Hin as [->|[]].
      left. now right.
    + destruct au as [au|]; [|contradiction]. destruct Hin as [->|[]].
      now right.
Qed.

End SearchFacts.


Module SearchTheorems.
Import Mongo Terms SearchFacts.

Lemma known_plain (q : string) : plain q = true -> known_pattern q = true.
Proof.
  intros H. unfold known_pattern. now rewrite (atoms_plain _ H).
Qed.

Lemma search_in_world (q : string) (page limit : Z) (w : World) :
  ArticleService.too_short (Some q) = false ->
  plain (Js.trim q) = true ->
  (1 <= page)%Z -> (1 <= limit <= 100)%Z -> outage w = [] ->
  Prog.result answer
    (ArticleService.searchArticlesService (rt := runtime) (Some q) page limit) w
  = Returned (expected q page limit w).
Proof.
  intros Hq Hp Hpage Hlimit Hout.
  unfold Prog.result, ArticleService.searchArticlesService,
    ArticleModel.searchArticles, new_RegExp.
  rewrite Hq.
  destruct (Z.ltb_spec page 1); [lia|].
  destruct (Z.ltb_spec limit 1); [lia|].
  destruct (Z.ltb_spec 100 limit); [lia|].
  cbn [orb Js.the RegExp_valid runtime].
  rewrite (known_plain _ Hp). cbn. rewrite Hout. cbn. rewrite Hout.
  destruct (Z.ltb_spec ((page - 1) * limit) 0); [nia|].
  destruct (Z.eqb_spec limit 0); [lia|].
  cbn. unfold expected. rewrite Z.abs_eq by lia. reflexivity.
Qed.

Section General.
Context {rt : Runtime}.
Variable S : Type.
Variable answer : forall X, Eff X -> S -> X * S.

(** C7, as the code has it.  A search whose query, trimmed, has fewer than
    two characters is rejected before any call, and so is one whose page is
    below 1 or whose limit is outside 1..100.  A query the service lets
    through reaches the store as a pattern: when it is made of ordinary
    characters, an article is found exactly when one of its text fields
    (title, description, a category, journal name, author) contains the
    query, letters compared without case, the accented letters of Latin-1
    among them.  Against one article titled "Technologie", ["te"] finds it
    and ["t"] is rejected; the query of code units 201 (capital E acute)
    and "conomie" finds the text that starts with 233 (small e acute),
    while "ss" does not find the sharp s, 223. *)
Theorem search_validates_then_matches :
  forall (query : option string) (page limit : Z) (s : S),
    (forall q, query = Some q -> String.length (Js.trim q) < 2 ->
       Prog.run answer (ArticleService.searchArticlesService query page limit) s
       = (Rejected too_short_error, s, []))
    /\ ((page < 1 \/ limit < 1 \/ 100 < limit)%Z ->
        exists e,
          Prog.run answer
            (ArticleService.searchArticlesService query page limit) s
          = (Rejected e, s, []))
    /\ (forall q w,
          ArticleService.too_short (Some q) = false ->
          plain (Js.trim q) = true ->
          (1 <= page)%Z -> (1 <= limit <= 100)%Z -> outage w = [] ->
          Prog.result Mongo.answer
            (ArticleService.searchArticlesService (rt := runtime)
               (Some q) page limit) w
          = Returned (expected q page limit w)
          /\ forall a,
               matches (FSearch (Js.trim q)) a = true
               <-> exists text,
                     In text (text_fields a) /\ ci_contains (Js.trim q) text)
    /\ Prog.result Mongo.answer
         (ArticleService.searchArticlesService (rt := runtime) (Some "te") 1 10)
         Newsroom.world
       = Returned (mkSearchResult [Newsroom.technologie] 1 1 1 "te")
    /\ Prog.result Mongo.answer
         (ArticleService.searchArticlesService (rt := runtime) (Some "t") 1 10)
         Newsroom.world
       = Rejected too_short_error
    /\ (plain (String "201" "conomie") = true
        /\ regex_test (String "201" "conomie") (String "233" "conomie") = true
        /\ regex_test (String "233" "conomie") (String "201" "CONOMIE") = true
        /\ regex_test "ss" (String "223" "") = false
        /\ regex_test (String "247" "") (String "215" "") = false).
Proof.
  intros query page limit s. split; [|split; [|split; [|split; [|split]]]].
  - intros q -> Hlen. unfold ArticleService.searchArticlesService.
    assert (H : ArticleService.too_short (Some q) = true).
    { unfold ArticleService.too_short. apply orb_true_iff. right.
      now apply Nat.ltb_lt. }
    now rewrite H.
  - intros H. unfold ArticleService.searchArticlesService.
    destruct (ArticleService.too_short query); [now eexists|].
    destruct (Z.ltb_spec page 1); [now eexists|].
    destruct (Z.ltb_spec limit 1); [now eexists|].
    destruct (Z.ltb_spec 100 limit); [now eexists|]. lia.
  - intros q w Hq Hp Hpage Hlimit Hout. split.
    + now apply search_in_world.
    + intros a. now apply matches_search_plain.
  - reflexivity.
  - reflexivity.
  - repeat split.
Qed.

(** The handler of [GET /search] in front of the service: the query is
    tested once more and answered 400; a page or limit the service rejects
    is answered 500, its message not being the one the [catch] looks for.
    Neither makes a call. *)
Lemma search_controller_answers (req : Req) (s : S) :
  let page := Js.number_or (parseInt (q_page req)) 1 in
  let limit := Js.number_or (parseInt (q_limit req)) 10 in
  (forall query, q req = Some query -> String.length (Js.trim query) < 2 ->
     Prog.run answer (ArticleController.searchArticles req) s
     = (Returned (res_status 400 (Message_ (exn_message too_short_error))),
        s, []))
  /\ (ArticleService.too_short (q req) = false ->
      (page < 1 \/ limit < 1 \/ 100 < limit)%Z ->
      exists message,
        Prog.run answer (ArticleController.searchArticles req) s
        = (Returned (res_status 500
                       (MessageError "Erreur serveur lors de la recherche"
                          message)), s, [])).
Proof.
  intros page limit. unfold ArticleController.searchArticles. split.
  - intros query Hq Hlen. rewrite Hq. cbn [Js.the Js.truthy_opt].
    apply Nat.ltb_lt in Hlen. rewrite Hlen, orb_true_r. reflexivity.
  - intros Hq Hrange. fold page limit.
    unfold ArticleService.searchArticlesService. rewrite Hq.
    assert (Hc : negb (Js.truthy_opt (q req))
                 || (String.length (Js.trim (Js.the (q req))) <? 2)%nat = false).
    { unfold ArticleService.too_short in Hq.
      destruct (q req) as [query|]; [|discriminate]. exact Hq. }
    rewrite Hc.
    destruct (Z.ltb_spec page 1); [now eexists|].
    destruct (Z.ltb_spec limit 1); [now eexists|].
    destruct (Z.ltb_spec 100 limit); [now eexists|]. lia.
Qed.

End General.

(** C7, as the claim has it, fails: the query [".."] passes the validation
    and finds the article titled "Technologie", none of whose text fields
    contains two dots. *)
Lemma dots_find_every_article :
  Prog.result Mongo.answer
    (ArticleService.searchArticlesService (rt := runtime) (Some "..") 1 10)
    Newsroom.world
  = Returned (mkSearchResult [Newsroom.technologie] 1 1 1 "..")
  /\ (forall text, In text (text_fields Newsroom.technologie) ->
        ~ ci_contains ".." text).
Proof.
  split; [reflexivity|].
  intros text Hin (before & behind & E).
  assert (Hdot : In "."%char (map Js.fold (Js.chars text))).
  { rewrite E. apply in_app_iff. right. now left. }
  clear E. cbn in Hin.
  repeat (destruct Hin as [<-|Hin];
          [cbn in Hdot; repeat (destruct Hdot as [Hdot|Hdot];
                                [discriminate|]); contradiction|]).
  contradiction.
Qed.

End SearchTheorems.

(* ================================================================== *)
(** * Properties of the password handling *)

Module PasswordFacts.
Import Terms.

Section General.
Context {rt : Runtime}.
Variable S : Type.
Variable answer : forall X, Eff X -> S -> X * S.

(** Registration writes the hash bcrypt answered, never the given
    password. *)
Lemma register_writes_hash (userData : UserDoc.t) (s : S) (c : Prog.Entry)
  (pw : option string) :
  In c (Prog.trace answer (AuthService.registerUser userData) s) ->
  written_password c = Some pw ->
  exists h, pw = Some h
            /\ In (Called (BcryptHash (UserDoc.password userData) 10) (inr h))
                  (Prog.trace answer (AuthService.registerUser userData) s).
Proof.
  unfold Prog.trace, AuthService.registerUser, AuthService.bcrypt_hash,
    UserModel.createUser. cbn.
  repeat (split_match; cbn in * ); intros Hin Hw;
    repeat (destruct Hin as [<-|Hin]; [try discriminate|]);
    try contradiction.
  all: injection Hw as <-; eexists; split; [reflexivity|]; now left.
Qed.

(** The handlers that answer with one user strip the password. *)
Lemma reads_strip_password (req : Req) (s : S) (u : UserDoc.t) (n : nat) :
  (Prog.result answer (AuthRoutes.get_user_by_id req) s
   = Returned (mkResponse n (UserJson u))
   \/ Prog.result answer (AuthRoutes.get_user_by_email req) s
      = Returned (mkResponse n (UserJson u))
   \/ Prog.result answer (AuthRoutes.get_user_by_username req) s
      = Returned (mkResponse n (UserJson u))) ->
  UserDoc.password u = None.
Proof.
  unfold Prog.result, AuthRoutes.get_user_by_id, AuthRoutes.get_user_by_email,
    AuthRoutes.get_user_by_username, AuthService.getUserById,
    UserModel.findUserById, UserModel.findUserByEmail,
    UserModel.findUserByUsername, new_ObjectId, AuthRoutes.server_error,
    AuthRoutes.not_found.
  intros [H|[H|H]]; revert H; cbn;
    repeat (split_match; cbn in * ); intros H; try discriminate;
    injection H as _ <-; reflexivity.
Qed.

(** C8 at its failing input.  [PUT /users/email/:email] and
    [PUT /users/username/:username] hand the request body to the driver as
    the [$set]: no hash is computed and the password written is the one
    received.  In the newsroom, the administrator setting alice's password
    to ["hunter2"] leaves that very string stored. *)
Theorem update_by_email_stores_plaintext :
  forall (req : Req) (s : S),
    (forall c,
       In c (Prog.trace answer (AuthRoutes.put_user_by_email req) s) ->
       is_hash_call c = false
       /\ forall pw, written_password c = Some pw ->
                     pw = UserDoc.password (body_user req))
    /\ (forall c,
          In c (Prog.trace answer (AuthRoutes.put_user_by_username req) s) ->
          is_hash_call c = false
          /\ forall pw, written_password c = Some pw ->
                        pw = UserDoc.password (body_user req))
    /\ (let put :=
          AuthRoutes.dispatch (rt := Mongo.runtime) AuthRoutes.PutUserByEmail
            (Newsroom.user_request Newsroom.root_header "alice@news.example"
               (new_password "hunter2")) in
        Prog.result Mongo.answer put Newsroom.world
        = Returned (res_json (MessageCount "Utilisateur mis a jour" 1))
        /\ stored_password "alice@news.example" Newsroom.world
           = Some (Some (Mongo.hash "wonderland"))
        /\ stored_password "alice@news.example"
             (Prog.final Mongo.answer put Newsroom.world)
           = Some (Some "hunter2")).
Proof.
  intros req s. split; [|split].
  - unfold Prog.trace, AuthRoutes.put_user_by_email,
      UserModel.updateUserByEmail, AuthRoutes.updated, AuthRoutes.update_error.
    cbn. repeat (split_match; cbn in * ); intros c Hin;
      repeat (destruct Hin as [<-|Hin];
              [split; [reflexivity|]; cbn; intros pw Hpw;
               try discriminate; now injection Hpw as <-|]);
      contradiction.
  - unfold Prog.trace, AuthRoutes.put_user_by_username,
      UserModel.updateUserByUsername, AuthRoutes.updated,
      AuthRoutes.update_error.
    cbn. repeat (split_match; cbn in * ); intros c Hin;
      repeat (destruct Hin as [<-|Hin];
              [split; [reflexivity|]; cbn; intros pw Hpw;
               try discriminate; now injection Hpw as <-|]);
      contradiction.
  - vm_compute. repeat split.
Qed.

End General.

(** The list of all users leaves the store without passwords. *)
Example get_users_without_passwords :
  Prog.result Mongo.answer
    (AuthRoutes.dispatch (rt := Mongo.runtime) AuthRoutes.GetUsers
       (Newsroom.user_request Newsroom.root_header "" Newsroom.no_user))
    Newsroom.world
  = Returned (res_json (UsersJson
      [UserDoc.withoutPassword Newsroom.alice;
       UserDoc.withoutPassword Newsroom.root])).
Proof. reflexivity. Qed.

(** A password update by id never reaches the store: the service hashes
    the password and the model, finding one, meets the unbound [bcrypt]. *)
Example update_by_id_with_password_fails :
  let put :=
    AuthRoutes.dispatch (rt := Mongo.runtime) AuthRoutes.PutUserById
      (mkReq Newsroom.root_header None "" "" "" "000000000000000000000001"
         "" "" None None None ArticleDoc.empty (new_password "hunter2")
         None true) in
  Prog.result Mongo.answer put Newsroom.world
  = Returned (res_status 500
                (MessageError "Erreur de mise a jour" "bcrypt is not defined"))
  /\ Mongo.users (Prog.final Mongo.answer put Newsroom.world)
     = Mongo.users Newsroom.world.
Proof. vm_compute. repeat split. Qed.

End PasswordFacts.

(* ================================================================== *)
(** * The newsroom at work *)

Module NewsroomFacts.
Import Mongo Newsroom Terms.

(** C1, as the claim has it, fails: alice has the author role, the article
    exists and names her as its author, and her request to update it is
    answered Forbidden by the admin gate; the store is not touched. *)
Lemma author_refused_on_own_article :
  (exists token, login "alice@news.example" "wonderland" world = Some token)
  /\ UserDoc.role alice = Some "author"
  /\ find (matches (FId 10%N)) (articles world) = Some technologie
  /\ ObjectId_hex technologie_id = Some 10%N
  /\ ArticleDoc.author (ArticleDoc.body technologie) = UserDoc.username alice
  /\ Mongo.run put_by_alice world
     = (Returned forbidden_admin, world,
        [Called NewDate (clock world)]).
Proof.
  split; [eexists; vm_compute; reflexivity|].
  vm_compute. repeat split.
Qed.

Lemma article_route_authorization_witness :
  user alice_request = Some alice_context
  /\ Prog.run answer
       (after_authenticate (rt := runtime) ArticleRoutes.PutById
          alice_request) world
     = (Returned forbidden_admin, world, [])
  /\ Prog.run answer (AuthRoutes.isAuthorOrAdmin (rt := runtime) alice_request)
       world
     = (Returned (Next alice_request), world,
        [Called (Await (articles_findOne (FId 10%N))) (inr (Some technologie))]).
Proof.
  pose proof (@PolicyFacts.article_route_authorization runtime World answer
                ArticleRoutes.PutById alice_request alice_context world
                eq_refl) as (Hgate & _ & Hauthor & _).
  split; [reflexivity|]. split.
  - apply Hgate. reflexivity.
  - exact (Hauthor eq_refl eq_refl (Some technologie) world _ eq_refl).
Defined.



(** C5 in the newsroom: no header, a header without a token, and a token
    that is no token. *)
Example unauthenticated_requests :
  Mongo.run (ArticleRoutes.dispatch (rt := runtime) ArticleRoutes.DeleteById
               (request None technologie_id ArticleDoc.empty)) world
  = (Returned (res_status 401 (Message_ "Token manquant")), world, [])
  /\ Mongo.run (ArticleRoutes.dispatch (rt := runtime) ArticleRoutes.DeleteById
                  (request (Some "Bearer") technologie_id ArticleDoc.empty))
       world
     = (Returned (res_status 401 (Message_ "Token manquant")), world, [])
  /\ Mongo.run (ArticleRoutes.dispatch (rt := runtime) ArticleRoutes.DeleteById
                  (request (Some "Bearer abc.def") technologie_id
                     ArticleDoc.empty)) world
     = (Returned (res_status 401 (MessageError "Token invalide" "jwt malformed")),
        world, [Called NewDate (clock world)]).
Proof. vm_compute. repeat split. Qed.

(** C5 in the newsroom: the administrator's token behind the word Bearer,
    on the route that deletes an article. *)
Lemma authenticate_short_circuits_witness :
  let req := request root_header technologie_id ArticleDoc.empty in
  let rest := AuthRoutes.isAdmin
              :: ArticleRoutes.own (rt := runtime) ArticleRoutes.DeleteById in
  let h := ArticleRoutes.controller (rt := runtime) ArticleRoutes.DeleteById in
  nospace "Bearer" = true /\ nospace root_token = true /\ root_token <> ""
  /\ authorization req = Some ("Bearer " ++ root_token)%string
  /\ jwt_verify (Runtime := runtime) root_token
       (JWT_SECRET (Runtime := runtime)) (seconds (clock world))
     = inr root_context
  /\ exists req1,
       user req1 = Some root_context /\ same_but_user req req1
       /\ Mongo.run (ArticleRoutes.dispatch (rt := runtime)
                       ArticleRoutes.DeleteById req) world
          = let '(r, s2, tr) :=
              Mongo.run (chain rest h req1) (snd (answer NewDate world)) in
            (r, s2, Called NewDate (clock world) :: tr).
Proof.
  intros req rest h.
  assert (Hne : root_token <> "") by (vm_compute; discriminate).
  split; [reflexivity|]. split; [vm_compute; reflexivity|].
  split; [exact Hne|]. split; [vm_compute; reflexivity|].
  split; [vm_compute; reflexivity|].
  exact (proj2 (proj1 (proj2 (proj2
           (@GateFacts.authenticate_short_circuits runtime World answer
              rest h req world)))
           "Bearer" root_token "" eq_refl eq_refl Hne (or_introl eq_refl))
           root_context eq_refl).
Defined.

(** C5, as the claim has it, fails: a header whose first word is not
    Bearer carries no bearer token, and yet the request is not answered 401.
    With the administrator's token behind the word Basic, [authenticate]
    sets [req.user] and the article is deleted. *)
Lemma basic_scheme_is_accepted :
  let req := request (Some ("Basic " ++ root_token)%string) technologie_id
               ArticleDoc.empty in
  Js.startsWith (Js.the (authorization req)) "Bearer" = false
  /\ Prog.result answer (AuthRoutes.authenticate (rt := runtime) req) world
     = Returned (Next (with_user req root_context))
  /\ Prog.result answer
       (ArticleRoutes.dispatch (rt := runtime) ArticleRoutes.DeleteById req)
       world
     = Returned (res_json (MessageCount "Article supprime avec succes" 1)).
Proof. vm_compute. repeat split. Qed.

(** C6 in the newsroom: the administrator's token half an hour and
    sixty-one minutes after the login. *)
Example token_after_login :
  let later (minutes : Z) := at_clock world (clock world + minutes * 60 * 1000) in
  let delete := ArticleRoutes.dispatch (rt := runtime) ArticleRoutes.DeleteById
                  (request root_header technologie_id ArticleDoc.empty) in
  Prog.result answer delete (later 30%Z)
  = Returned (res_json (MessageCount "Article supprime avec succes" 1))
  /\ Prog.result answer delete (later 61%Z)
     = Returned (res_status 401 (MessageError "Token invalide" "jwt expired")).
Proof. vm_compute. repeat split. Qed.

Lemma token_expires_after_one_hour_witness :
  exists u issued,
    In (Called (Await (users_findOne (UEmail "root@news.example")))
          (inr (Some u)))
       (Prog.trace answer
          (AuthService.loginUser (rt := runtime) "root@news.example"
             (Some "toor")) world)
    /\ In (Called NewDate issued)
          (Prog.trace answer
             (AuthService.loginUser (rt := runtime) "root@news.example"
                (Some "toor")) world).
Proof.
  destruct (Prog.result answer
              (AuthService.loginUser (rt := runtime) "root@news.example"
                 (Some "toor")) world) as [[l|]|e] eqn:E;
    [|vm_compute in E; discriminate E|vm_compute in E; discriminate E].
  destruct (@TokenFacts.token_expires_after_one_hour runtime mac World answer
              eq_refl eq_refl "root@news.example" (Some "toor") world l E)
    as (u & issued & H1 & H2 & _).
  exists u, issued. split; assumption.
Defined.

End NewsroomFacts.
(* ================================================================== *)
(** * realtime/ws.js: the registry over time *)

Module WsRunFacts.
Import Ws WsRun.

Lemma registered_add (ws c : Socket) (l : list Socket) :
  existsb (Nat.eqb c) (Set_add ws l)
  = if Nat.eqb ws c then true else existsb (Nat.eqb c) l.
Proof.
  unfold Set_add. destruct (existsb (Nat.eqb ws) l) eqn:E.
  - destruct (Nat.eqb_spec ws c) as [->|Hne]; [exact E | reflexivity].
  - rewrite existsb_app. simpl. rewrite orb_false_r, (Nat.eqb_sym c ws).
    destruct (Nat.eqb ws c); [apply orb_true_r | apply orb_false_r].
Qed.

Lemma registered_delete (ws c : Socket) (l : list Socket) :
  existsb (Nat.eqb c) (Set_delete ws l)
  = if Nat.eqb ws c then false else existsb (Nat.eqb c) l.
Proof.
  induction l as [|d l IH]; simpl.
  - now destruct (Nat.eqb ws c).
  - destruct (Nat.eqb_spec d ws) as [->|Hne]; simpl.
    + rewrite IH, (Nat.eqb_sym c ws). now destruct (Nat.eqb ws c).
    + rewrite IH. destruct (Nat.eqb_spec ws c) as [->|Hne'].
      * apply Nat.neq_sym, Nat.eqb_neq in Hne. now rewrite Hne.
      * reflexivity.
Qed.

Section Run.
Variable JSON_parse : string -> option JSON.
Variable JSON_stringify : Message -> string.

Abbreviation replay := (WsRun.replay JSON_parse JSON_stringify).
Abbreviation step := (WsRun.step JSON_parse JSON_stringify).

Lemma on_message_state (ws : Socket) (message : string) (now : Z) (s : Server) :
  fst (on_message JSON_parse JSON_stringify ws message now s) = s.
Proof.
  unfold on_message. destruct (JSON_parse message) as [data|]; [|reflexivity].
  destruct (get_type data) as [e|ty]; [reflexivity|].
  now destruct (is_ping ty).
Qed.

Lemma step_NoDup (e : Event) (s : Server) :
  NoDup (clients s) -> NoDup (clients (fst (step e s))).
Proof.
  intros H. destruct e; simpl;
    try (now apply WsFacts.Set_add_NoDup);
    try (now apply WsFacts.Set_delete_NoDup); try exact H.
  now rewrite on_message_state.
Qed.

Lemma step_registered (e : Event) (c : Socket) (s : Server) :
  registered c (fst (step e s))
  = connected c [e] (registered c s).
Proof.
  unfold registered. destruct e; simpl;
    try apply registered_add; try apply registered_delete; try reflexivity.
  now rewrite on_message_state.
Qed.

Lemma connected_cons (c : Socket) (e : Event) (es : list Event) (b : bool) :
  connected c (e :: es) b = connected c es (connected c [e] b).
Proof. now destruct e. Qed.

Lemma replay_cons (e : Event) (es : list Event) (s : Server) :
  fst (replay (e :: es) s) = fst (replay es (fst (step e s))).
Proof.
  simpl. destruct (step e s) as [s1 out1]. simpl.
  now destruct (replay es s1) as [s2 out2].
Qed.

(** Whatever happens, the set holds no socket twice, and it holds a
    socket exactly when the socket is connected. *)
Lemma replay_invariant (es : list Event) (s : Server) :
  NoDup (clients s) ->
  NoDup (clients (fst (replay es s)))
  /\ forall c, registered c (fst (replay es s))
               = connected c es (registered c s).
Proof.
  revert s. induction es as [|e es IH]; intros s H.
  - split; [exact H | reflexivity].
  - destruct (IH (fst (step e s)) (@step_NoDup e s H)) as [H1 H2].
    rewrite replay_cons. split; [exact H1|].
    intros c. now rewrite H2, step_registered, <- connected_cons.
Qed.

(** From the empty set on, whatever the sequence of connections, frames,
    closes, errors, broadcasts and transport changes: the set never holds
    a socket twice, and a socket is in it exactly when its last connection
    came after its last close or error. *)
Theorem registry_tracks_connections :
  forall (es : list Event) (rs : Socket -> ReadyState) (c : Socket),
    let s := fst (replay es (initial rs)) in
    NoDup (clients s)
    /\ registered c s = connected c es false.
Proof.
  intros es rs c s. subst s.
  destruct (@replay_invariant es (initial rs)) as [H1 H2]; [constructor|].
  split; [exact H1 | apply H2].
Qed.

Lemma recipients_forEach (s : Server) (data : string) (l : list Socket) :
  recipients (flat_map (deliver s data) l)
  = filter (fun c => is_OPEN (readyState s c)) l.
Proof.
  induction l as [|d l IH]; simpl; [reflexivity|].
  unfold recipients in *. rewrite flat_map_app, IH. unfold deliver.
  now destruct (is_OPEN (readyState s d)).
Qed.

(** A broadcast made after any sequence of events calls [send] once for
    every socket that is connected and open, in the order the sockets
    joined the set, each time with the one serialised string; it calls
    [send] for no other socket and leaves the set as it is. *)
Theorem broadcast_reaches_connected_open :
  forall (es : list Event) (rs : Socket -> ReadyState) (m : Message),
    let s := fst (replay es (initial rs)) in
    let calls := snd (broadcast JSON_stringify m s) in
    recipients calls = filter (fun c => is_OPEN (readyState s c)) (clients s)
    /\ NoDup (recipients calls)
    /\ (forall c,
          sent_data c calls
          = if connected c es false && is_OPEN (readyState s c)
            then [JSON_stringify m] else [])
    /\ fst (broadcast JSON_stringify m s) = s.
Proof.
  intros es rs m s calls.
  destruct (@replay_invariant es (initial rs)) as [Hnd Hreg]; [constructor|].
  fold s in Hnd, Hreg.
  assert (Hrec : recipients calls
                 = filter (fun c => is_OPEN (readyState s c)) (clients s)).
  { subst calls. unfold broadcast. simpl. apply recipients_forEach. }
  split; [exact Hrec|]. split; [rewrite Hrec; now apply NoDup_filter|].
  split; [|reflexivity].
  intros c. subst calls. unfold broadcast. simpl.
  change (sent_data c (flat_map (deliver s (JSON_stringify m)) (clients s))
          = if connected c es false && is_OPEN (readyState s c)
            then [JSON_stringify m] else []).
  pose proof (Hreg c) as Hc.
  change (registered c (initial rs)) with false in Hc.
  rewrite WsFacts.forEach_sent, <- Hc.
  destruct (registered c s) eqn:R; simpl.
  - apply WsFacts.registered_In in R.
    destruct (is_OPEN (readyState s c)); [|reflexivity].
    assert (count_occ Nat.eq_dec (clients s) c = 1) as ->; [|reflexivity].
    now apply NoDup_count_occ'.
  - apply WsFacts.registered_false in R.
    destruct (is_OPEN (readyState s c)); [|reflexivity].
    apply (count_occ_not_In Nat.eq_dec) in R. now rewrite R.
Qed.

Lemma sent_data_app (c : Socket) (a b : list Effect) :
  sent_data c (a ++ b) = sent_data c a ++ sent_data c b.
Proof. apply flat_map_app. Qed.

Lemma step_silent (e : Event) (c : Socket) (s : Server) :
  about c e = false -> registered c s = false ->
  sent_data c (snd (step e s)) = [].
Proof.
  intros Ha Hr. destruct e; simpl in *; try reflexivity.
  - unfold sent_data. simpl. now rewrite Ha.
  - unfold on_message. destruct (JSON_parse message) as [data|]; [|reflexivity].
    destruct (get_type data) as [x|ty]; [reflexivity|].
    destruct (is_ping ty); [|reflexivity].
    unfold sent_data. simpl. now rewrite Ha.
  - change (sent_data c (flat_map (deliver s (JSON_stringify m)) (clients s)) = []).
    rewrite WsFacts.forEach_sent.
    apply WsFacts.registered_false in Hr.
    apply (count_occ_not_In Nat.eq_dec) in Hr. rewrite Hr.
    now destruct (is_OPEN (readyState s c)).
Qed.

Lemma replay_silent (es : list Event) (c : Socket) (s : Server) :
  forallb (fun e => negb (about c e)) es = true ->
  registered c s = false ->
  sent_data c (snd (replay es s)) = []
  /\ registered c (fst (replay es s)) = false.
Proof.
  revert s. induction es as [|e es IH]; intros s Hes Hr; [now split|].
  simpl in Hes. apply andb_true_iff in Hes. destruct Hes as [He Hes].
  apply negb_true_iff in He.
  pose proof (step_silent e c s He Hr) as Hs.
  assert (Hr1 : registered c (fst (step e s)) = false).
  { rewrite step_registered, Hr. destruct e; simpl in *; try reflexivity;
      now rewrite He. }
  destruct (IH (fst (step e s)) Hes Hr1) as [H1 H2].
  simpl. destruct (step e s) as [s1 out1]. simpl in *.
  destruct (replay es s1) as [s2 out2]. simpl in *.
  split; [|exact H2]. now rewrite sent_data_app, Hs, H1.
Qed.

(** A socket that no event names, one that never connected, is never sent
    a frame and never enters the set, whatever else happens. *)
Theorem strangers_receive_nothing :
  forall (es : list Event) (rs : Socket -> ReadyState) (c : Socket),
    forallb (fun e => negb (about c e)) es = true ->
    sent_data c (snd (replay es (initial rs))) = []
    /\ registered c (fst (replay es (initial rs))) = false.
Proof.
  intros es rs c H. now apply replay_silent.
Qed.

End Run.

Lemma strangers_receive_nothing_witness :
  let es := [Connection 1 0; Broadcast (ArticleDeleted "a" 5);
             MessageIn 1 "ping" 6; Close 1] in
  let replayed := WsRun.replay (fun _ => Some (JObject [("type", JString "ping")]))
                    (fun _ => "frame") es (initial (fun _ => OPEN)) in
  forallb (fun e => negb (about 2 e)) es = true
  /\ sent_data 2 (snd replayed) = []
  /\ sent_data 1 (snd replayed) = ["frame"; "frame"; "frame"].
Proof.
  split; [reflexivity|]. split; [|reflexivity].
  exact (proj1 (@strangers_receive_nothing
                  (fun _ => Some (JObject [("type", JString "ping")]))
                  (fun _ => "frame")
                  [Connection 1 0; Broadcast (ArticleDeleted "a" 5);
                   MessageIn 1 "ping" 6; Close 1]
                  (fun _ => OPEN) 2 eq_refl)).
Defined.

End WsRunFacts.

(* ================================================================== *)
(** * The token of a request *)

Module BearerFacts.
Import Terms HeaderFacts.

(** [authenticate] takes the second of the pieces the header falls into at
    its spaces, whatever the first piece is: the scheme is not looked at,
    and what follows a second space is dropped.  A header without a space
    carries no token. *)
Theorem bearer_takes_second_word :
  forall scheme token rest : string,
    nospace scheme = true -> nospace token = true ->
    AuthRoutes.bearer (Some (scheme ++ " " ++ token)%string) = Some token
    /\ AuthRoutes.bearer (Some (scheme ++ " " ++ token ++ " " ++ rest)%string)
       = Some token
    /\ Js.truthy_opt (AuthRoutes.bearer (Some scheme)) = false.
Proof.
  intros scheme token rest Hs Ht. unfold AuthRoutes.bearer, Js.index.
  split; [|split].
  - change (scheme ++ " " ++ token)%string with (scheme ++ String " " token)%string.
    rewrite truthy_app, (@split_at _ _ _ Hs), (@split_without _ _ Ht). reflexivity.
  - change (scheme ++ " " ++ token ++ " " ++ rest)%string
      with (scheme ++ String " " (token ++ String " " rest))%string.
    rewrite truthy_app, (@split_at _ _ _ Hs), (@split_at _ _ _ Ht). reflexivity.
  - destruct (Js.truthy scheme) eqn:E.
    + now rewrite (@split_without _ _ Hs).
    + exact E.
Qed.

Lemma bearer_takes_second_word_witness :
  nospace "Basic" = true /\ nospace "abc.def" = true
  /\ AuthRoutes.bearer (Some "Basic abc.def") = Some "abc.def".
Proof.
  split; [reflexivity|]. split; [reflexivity|].
  exact (proj1 (bearer_takes_second_word "Basic" "abc.def" "" eq_refl eq_refl)).
Defined.

End BearerFacts.

(* ================================================================== *)
(** * The article handlers and the ownership check at their edges *)

Module ArticleAnswerFacts.
Import Words.
Section Facts.
Context {rt : Runtime}.
Variable S : Type.
Variable answer : forall X, Eff X -> S -> X * S.

Abbreviation run := (Prog.run answer).

Lemma author_is_not_admin (u : ReqUser) :
  Js.strict_eq (role u) (Some "author") = true ->
  Js.strict_eq (role u) (Some "admin") = false.
Proof.
  destruct (role u) as [x|]; simpl; [|discriminate].
  intros H. apply String.eqb_eq in H. now subst x.
Qed.

(** [isAuthorOrAdmin] where the ownership comparison is not reached.  A
    request without [req.user] is answered 403.  An author on a route
    that names no article passes without any lookup.  For an author on a
    route that names an article, an id that is no ObjectId, or a lookup the
    store rejects, makes the middleware itself reject: nothing catches it,
    the handler is not run and the request is left without an answer. *)
Theorem owner_gate_edges :
  forall (rest : list Middleware) (h : Handler) (req : Req) (s : S),
    let gate := chain (AuthRoutes.isAuthorOrAdmin :: rest) h req in
    (user req = None ->
       run gate s
       = (Returned (res_status 403
                      (Message_ "Acces refuse - Utilisateur non connecte")),
          s, []))
    /\ (forall u,
          user req = Some u ->
          Js.strict_eq (role u) (Some "author") = true ->
          articleId req = "" ->
          run (AuthRoutes.isAuthorOrAdmin req) s = (Returned (Next req), s, []))
    /\ (forall u,
          user req = Some u ->
          Js.strict_eq (role u) (Some "author") = true ->
          Js.truthy (articleId req) = true ->
          ObjectId_parse (articleId req) = None ->
          exists e, run gate s = (Rejected e, s, []))
    /\ (forall u o e s1,
          user req = Some u ->
          Js.strict_eq (role u) (Some "author") = true ->
          Js.truthy (articleId req) = true ->
          ObjectId_parse (articleId req) = Some o ->
          answer (Await (articles_findOne (FId o))) s = (inl e, s1) ->
          run gate s
          = (Rejected e, s1,
             [Called (Await (articles_findOne (FId o))) (inl e)])).
Proof.
  intros rest h req s gate. subst gate. split; [|split; [|split]].
  - intros Hu. apply ProgFacts.chain_reply.
    unfold AuthRoutes.isAuthorOrAdmin. now rewrite Hu.
  - intros u Hu Hau Hid. unfold AuthRoutes.isAuthorOrAdmin.
    now rewrite Hu, (author_is_not_admin _ Hau), Hau, Hid.
  - intros u Hu Hau Hid Hp. eexists. simpl. rewrite ProgFacts.run_bind.
    unfold AuthRoutes.isAuthorOrAdmin, ArticleModel.getArticleById, new_ObjectId.
    rewrite Hu, (author_is_not_admin _ Hau), Hau, Hid, Hp. reflexivity.
  - intros u o e s1 Hu Hau Hid Hp Ha. simpl. rewrite ProgFacts.run_bind.
    unfold AuthRoutes.isAuthorOrAdmin, ArticleModel.getArticleById, new_ObjectId.
    rewrite Hu, (author_is_not_admin _ Hau), Hau, Hid, Hp. cbn.
    now rewrite Ha.
Qed.

(** An article id that is no ObjectId never reaches the store, and each
    handler reports it in its own way: the update answers 500, the delete
    400, and the read, whose [catch] looks for the word BSONError in the
    message, 500. *)
Theorem invalid_id_never_reaches_store :
  forall (req : Req) (s : S),
    ObjectId_parse (articleId req) = None ->
    run (ArticleController.updateArticle req) s
    = (Returned (res_status 500
                   (MessageError "Erreur serveur" "ID d'article invalide")),
       s, [])
    /\ run (ArticleController.deleteArticle req) s
       = (Returned (res_status 400
                      (MessageError "Erreur lors de la suppression"
                         "ID invalide")), s, [])
    /\ exists message,
         run (ArticleReads.getArticleById req) s
         = (Returned (ArticleOther
                        (res_status 500 (MessageError "Erreur serveur" message))),
            s, []).
Proof.
  intros req s H.
  unfold ArticleController.updateArticle, ArticleController.deleteArticle,
    ArticleReads.getArticleById, ArticleService.updateArticleService,
    ArticleService.deleteArticleService, ObjectId_isValid, new_ObjectId.
  rewrite H. cbn. repeat split. eexists. reflexivity.
Qed.


End Facts.
End ArticleAnswerFacts.

(* ================================================================== *)
(** * Accounts: registration, login and updates *)

Module AccountFacts.
Import Words Terms.
Section Facts.
Context {rt : Runtime}.
Variable S : Type.
Variable answer : forall X, Eff X -> S -> X * S.

Abbreviation run := (Prog.run answer).

(** [POST /register] stores the role the body names, whatever it is, and
    ["member"] when the body names none; the name and the e-mail are the
    body's and the password is the hash bcrypt answered.  The request makes
    at most one driver call and is always answered, 201 or 400. *)
Theorem register_keeps_given_role :
  forall (req : Req) (s : S),
    let given := body_user req in
    let out := run (AuthRoutes.register req) s in
    (exists res, fst (fst out) = Returned res
                 /\ (status res = 201 \/ status res = 400))
    /\ Prog.db_calls (snd out) <= 1
    /\ (forall c u,
          In c (snd out) -> inserted_user c = Some u ->
          UserDoc.role u = Some (Js.or_else (UserDoc.role given) "member")
          /\ UserDoc.username u = UserDoc.username given
          /\ UserDoc.email u = UserDoc.email given
          /\ exists h,
               UserDoc.password u = Some h
               /\ In (Called (BcryptHash (UserDoc.password given) 10) (inr h))
                     (snd out))
    /\ (forall r c u,
          UserDoc.role given = Some r -> Js.truthy r = true ->
          In c (snd out) -> inserted_user c = Some u ->
          UserDoc.role u = Some r).
Proof.
  intros req s given out. subst given out.
  unfold AuthRoutes.register, AuthService.registerUser,
    AuthService.bcrypt_hash, UserModel.createUser.
  cbn. repeat (split_match; cbn in * ).
  all: split; [eexists; split; [reflexivity|]; cbn; tauto|].
  all: split; [cbn; lia|].
  all: split; [intros c u Hin Hi | intros r c u Hr Ht Hin Hi].
  all: repeat (destruct Hin as [<-|Hin]; [try discriminate|]);
       try contradiction.
  all: injection Hi as <-; cbn.
  all: try (rewrite Hr; cbn; now rewrite Ht).
  all: repeat split; eexists; split; [reflexivity|]; now left.
Qed.

(** [POST /login] always answers, reads the users once and writes
    nothing.  An unknown e-mail is refused without bcrypt being called;
    a wrong password is refused with the same 401 and the same body, and
    no token is signed (the clock is not read).  A login is answered only
    after bcrypt found the password to match the stored one, and carries
    the id, name and role of the stored user. *)
Theorem login_refusals_are_alike :
  forall (email : string) (password : option string) (s : S),
    let out := run (LoginRoute.login email password) s in
    let find := Await (users_findOne (UEmail email)) in
    let refused :=
      LoginOther (res_status 401 (Message_ "Email ou mot de passe incorrect")) in
    (exists a, fst (fst out) = Returned a)
    /\ Prog.db_calls (snd out) = 1
    /\ existsb is_user_write (snd out) = false
    /\ (forall s1,
          answer find s = (inr None, s1) ->
          out = (Returned refused, s1, [Called find (inr None)]))
    /\ (forall u s1 s2,
          answer find s = (inr (Some u), s1) ->
          answer (BcryptCompare password (UserDoc.password u)) s1
          = (inr false, s2) ->
          fst (fst out) = Returned refused
          /\ existsb is_clock_call (snd out) = false)
    /\ (forall l m,
          fst (fst out) = Returned (LoggedIn l m) ->
          exists u,
            In (Called find (inr (Some u))) (snd out)
            /\ In (Called (BcryptCompare password (UserDoc.password u))
                     (inr true)) (snd out)
            /\ AuthService.login_userId l = UserDoc.id u
            /\ AuthService.login_username l = UserDoc.username u
            /\ AuthService.login_role l = UserDoc.role u).
Proof.
  intros email password s out find refused. subst out find refused.
  unfold LoginRoute.login, AuthService.loginUser, AuthService.bcrypt_compare,
    UserModel.findUserByEmail.
  cbn. repeat (split_match; cbn in * ).
  all: split; [eexists; reflexivity|].
  all: split; [reflexivity|].
  all: split; [reflexivity|].
  all: split; [intros st1 Hst; try discriminate; injection Hst as <-; reflexivity|].
  all: split;
       [intros usr st1 st2 H1 H2; try discriminate;
        injection H1 as <- <-;
        first [split; reflexivity | exfalso; congruence
              | exfalso;
                match goal with
                | Hb : negb ?b = false |- _ =>
                    destruct b; [congruence | discriminate Hb]
                end]|].
  all: intros l m Hl; try discriminate.
  match goal with
  | Hb : negb ?b = false |- _ => destruct b; [|discriminate Hb]
  end.
  injection Hl as <- <-. eexists. split; [now left|].
  split; [right; now left|]. cbn. repeat split.
Qed.

(** [PUT /users/id/:userId] with a password in the body, where bcrypt
    does not answer an empty hash: the service hashes the password and the
    model, finding one in the data, reads the unbound name [bcrypt].  No
    driver call is made and the request is answered 500.  The controller
    of the same name fails on the password as it is given, before any
    call. *)
Theorem password_update_by_id_never_writes :
  forall (req : Req) (s : S),
    Js.truthy_opt (UserDoc.password (body_user req)) = true ->
    (forall h s1,
       answer (BcryptHash (UserDoc.password (body_user req)) 10) s = (inr h, s1) ->
       Js.truthy h = true) ->
    let out := run (AuthRoutes.put_user_by_id req) s in
    Prog.db_calls (snd out) = 0
    /\ (exists message,
          fst (fst out)
          = Returned (res_status 500
                        (MessageError "Erreur de mise a jour" message)))
    /\ (exists message,
          run (AuthController.updateUserById req) s
          = (Returned (res_status 500
                         (MessageError "Erreur serveur" message)),
             s, [])).
Proof.
  intros req s Hpw Hhash out. subst out.
  unfold AuthRoutes.put_user_by_id, AuthController.updateUserById,
    AuthService.updateUser, AuthService.bcrypt_hash,
    UserModel.updateUserById, AuthRoutes.update_error,
    AuthController.server_error.
  rewrite Hpw. cbn.
  destruct (answer (BcryptHash (UserDoc.password (body_user req)) 10) s)
    as [[e|h] s1] eqn:Hb; cbn.
  - destruct (answer NewDate s1) as [now s2] eqn:Hn. cbn.
    repeat split; eexists; reflexivity.
  - destruct (answer NewDate s1) as [now s2] eqn:Hn. cbn.
    rewrite (Hhash h s1 eq_refl). cbn.
    repeat split; eexists; reflexivity.
Qed.

(** The controllers that update a user test [result.modifiedCount] on
    what the model resolved to, which is the count itself: the test never
    holds, so they never answer 404.  When the store reports that nothing
    was modified the controller answers 200 where the route of the same
    path answers 404. *)
Theorem user_controllers_never_answer_404 :
  forall (req : Req) (s : S),
    (forall h,
       In h [AuthController.updateUserById; AuthController.updateUserByEmail;
             AuthController.updateUserByUsername] ->
       exists res, fst (fst (run (h req) s)) = Returned res
                   /\ (status res = 200 \/ status res = 500))
    /\ (forall now s1 s2,
          answer NewDate s = (now, s1) ->
          answer (Await (users_updateOne (UEmail (p_email req))
                           (UserModel.stamp (body_user req) now))) s1
          = (inr 0, s2) ->
          fst (fst (run (AuthController.updateUserByEmail req) s))
          = Returned (res_json (Message_ "Utilisateur mis a jour"))
          /\ fst (fst (run (AuthRoutes.put_user_by_email req) s))
             = Returned (res_status 404
                           (Message_ "Utilisateur non trouve ou non modifie"))).
Proof.
  intros req s. split.
  - intros h [<-|[<-|[<-|[]]]];
      unfold AuthController.updateUserById, AuthController.updateUserByEmail,
        AuthController.updateUserByUsername, UserModel.updateUserById,
        UserModel.updateUserByEmail, UserModel.updateUserByUsername,
        AuthController.updated, AuthController.server_error, new_ObjectId;
      cbn; repeat (split_match; cbn in * );
      eexists; (split; [reflexivity|]); cbn; tauto.
  - intros now s1 s2 Hn Hu.
    unfold AuthController.updateUserByEmail, AuthRoutes.put_user_by_email,
      UserModel.updateUserByEmail, AuthController.updated, AuthRoutes.updated.
    cbn. rewrite Hn. cbn. rewrite Hu. cbn. split; reflexivity.
Qed.


(** The controllers of auth.controller.js that read users and log in do
    what the routes do: the same calls, the same status, and when a user
    is found the same body, without the password; they differ in the
    wording of their messages only. *)
Theorem user_controllers_mirror_routes :
  forall (req : Req) (email : string) (password : option string) (s : S),
    (forall pair,
       In pair [(AuthController.getAllUsers, AuthRoutes.get_users);
                (AuthController.getUserById, AuthRoutes.get_user_by_id);
                (AuthController.getUserByEmail, AuthRoutes.get_user_by_email);
                (AuthController.getUserByUsername,
                 AuthRoutes.get_user_by_username)] ->
       let controller := run (fst pair req) s in
       let route := run (snd pair req) s in
       snd controller = snd route
       /\ snd (fst controller) = snd (fst route)
       /\ exists a b,
            fst (fst controller) = Returned a /\ fst (fst route) = Returned b
            /\ status a = status b
            /\ (status a = 200 -> a = b)
            /\ forall u, json a = UserJson u -> UserDoc.password u = None)
    /\ (let controller := run (AuthController.login email password) s in
        let route := run (LoginRoute.login email password) s in
        snd controller = snd route
        /\ snd (fst controller) = snd (fst route)
        /\ match fst (fst controller), fst (fst route) with
           | Returned (LoggedIn a _), Returned (LoggedIn b _) => a = b
           | Returned (LoginOther a), Returned (LoginOther b) =>
               status a = status b
           | _, _ => False
           end)
    /\ run (AuthController.logout req) s
       = (Returned (res_json
                      (Message_ "Deconnecte - Supprimez votre jeton cote client")),
          s, []).
Proof.
  intros req email password s. split; [|split].
  - intros pair [<-|[<-|[<-|[<-|[]]]]]; cbn [fst snd];
      unfold AuthController.getAllUsers, AuthRoutes.get_users,
        AuthController.getUserById, AuthRoutes.get_user_by_id,
        AuthController.getUserByEmail, AuthRoutes.get_user_by_email,
        AuthController.getUserByUsername, AuthRoutes.get_user_by_username,
        AuthService.getAllUsers, AuthService.getUserById,
        UserModel.findAllUsers, UserModel.findUserById,
        UserModel.findUserByEmail, UserModel.findUserByUsername,
        AuthController.server_error, AuthRoutes.server_error,
        AuthController.not_found, AuthRoutes.not_found, new_ObjectId;
      cbn; repeat (split_match; cbn in * );
      (split; [reflexivity|]); (split; [reflexivity|]);
      eexists; eexists; (split; [reflexivity|]); (split; [reflexivity|]);
      cbn; (split; [reflexivity|]);
      (split; [intros Hst; try discriminate Hst; reflexivity|]);
      intros u Hu; try discriminate Hu; now injection Hu as <-.
  - unfold AuthController.login, LoginRoute.login, AuthService.loginUser,
      AuthService.bcrypt_compare, UserModel.findUserByEmail.
    cbn. repeat (split_match; cbn in * ); repeat split.
  - reflexivity.
Qed.

End Facts.
End AccountFacts.

(* ================================================================== *)
(** * What the article handlers let through *)

Module ArticleInputFacts.
Import Words.
Section Facts.
Context {rt : Runtime}.
Variable S : Type.
Variable answer : forall X, Eff X -> S -> X * S.

Abbreviation run := (Prog.run answer).


(** The bulk routes check the title and the author they are given
    differently.  A title that does not decode is refused before any call,
    by the update with 500 and by the delete with 400.  The delete refuses a
    title or an author of fewer than two characters, trimmed, before any
    call; the update has no such bound: one character is enough for it to
    reach the store.  A title that is no pattern never reaches the store.
    The title is handed to the store as a pattern, the author as the exact
    value to compare with. *)
Theorem bulk_routes_check_their_input :
  forall (req : Req) (s : S),
    let update_title := run (ArticleController.updateArticlesByTitle req) s in
    let delete_title := run (ArticleController.deleteArticlesByTitle req) s in
    let update_author := run (ArticleController.updateArticlesByAuthor req) s in
    let delete_author := run (ArticleController.deleteArticlesByAuthor req) s in
    (decodeURIComponent (p_title req) = None ->
       update_title
       = (Returned (res_status 500 (MessageError "Erreur serveur" "URI malformed")),
          s, [])
       /\ delete_title
          = (Returned (res_status 400
                         (MessageError "Erreur lors de la suppression"
                            "URI malformed")), s, []))
    /\ (forall title,
          decodeURIComponent (p_title req) = Some title ->
          String.length (Js.trim title) < 2 ->
          delete_title
          = (Returned (res_status 400
                         (MessageError "Erreur lors de la suppression"
                            "Le titre doit contenir au moins 2 caracteres")),
             s, []))
    /\ (forall author,
          decodeURIComponent (p_author req) = Some author ->
          String.length (Js.trim author) < 2 ->
          delete_author
          = (Returned (res_status 400
                         (MessageError "Erreur lors de la suppression"
                            "Le nom d'auteur doit contenir au moins 2 caracteres")),
             s, []))
    /\ (forall title,
          decodeURIComponent (p_title req) = Some title ->
          Js.truthy title = true -> RegExp_valid title = true ->
          Prog.db_calls (snd update_title) = 1)
    /\ (forall author,
          decodeURIComponent (p_author req) = Some author ->
          Js.truthy author = true ->
          Prog.db_calls (snd update_author) = 1)
    /\ (forall title,
          decodeURIComponent (p_title req) = Some title ->
          RegExp_valid title = false ->
          Prog.db_calls (snd update_title) = 0
          /\ Prog.db_calls (snd delete_title) = 0)
    /\ (forall c f,
          In c (snd update_title ++ snd delete_title) ->
          bulk_filter c = Some f ->
          exists title,
            decodeURIComponent (p_title req) = Some title
            /\ f = FTitleRegex title)
    /\ (forall c f,
          In c (snd update_author ++ snd delete_author) ->
          bulk_filter c = Some f ->
          exists author,
            decodeURIComponent (p_author req) = Some author
            /\ f = FAuthor author).
Proof.
  intros req s update_title delete_title update_author delete_author.
  subst update_title delete_title update_author delete_author.
  assert (Hshort : forall x, String.length (Js.trim x) < 2 ->
                             ArticleService.too_short (Some x) = true).
  { intros x Hx. unfold ArticleService.too_short. apply orb_true_iff. right.
    now apply Nat.ltb_lt. }
  split; [|split; [|split; [|split; [|split; [|split; [|split]]]]]].
  - unfold_bulk. intros H. rewrite H. split; reflexivity.
  - intros title H Hlen.
    unfold ArticleController.deleteArticlesByTitle, ArticleController.decode,
      ArticleService.deleteArticlesByTitleService.
    rewrite H. cbn [Prog.bind]. now rewrite (Hshort _ Hlen).
  - intros author H Hlen.
    unfold ArticleController.deleteArticlesByAuthor, ArticleController.decode,
      ArticleService.deleteArticlesByAuthorService.
    rewrite H. cbn [Prog.bind]. now rewrite (Hshort _ Hlen).
  - unfold_bulk. intros title H Ht Hv. rewrite H. cbn. rewrite Ht. cbn.
    destruct (answer NewDate s) as [now s1]. cbn. rewrite Hv. cbn.
    repeat (split_match; cbn in * ); reflexivity.
  - unfold_bulk. intros author H Ht. rewrite H. cbn. rewrite Ht. cbn.
    repeat (split_match; cbn in * ); reflexivity.
  - unfold_bulk. intros title H Hv. rewrite H. cbn. rewrite Hv. split.
    + repeat (split_match; cbn in * ); reflexivity.
    + repeat (split_match; cbn in * ); reflexivity.
  - unfold_bulk. destruct (decodeURIComponent (p_title req)) as [title|]; cbn.
    2:{ intros c f []. }
    repeat (split_match; cbn in * ).
    all: intros c f Hin Hf.
    all: repeat (destruct Hin as [<-|Hin]; [try discriminate|]);
         try contradiction.
    all: injection Hf as <-; eexists; split; reflexivity.
  - unfold_bulk. destruct (decodeURIComponent (p_author req)) as [author|]; cbn.
    2:{ intros c f []. }
    repeat (split_match; cbn in * ).
    all: intros c f Hin Hf.
    all: repeat (destruct Hin as [<-|Hin]; [try discriminate|]);
         try contradiction.
    all: injection Hf as <-; eexists; split; reflexivity.
Qed.

End Facts.
End ArticleInputFacts.

(* ================================================================== *)
(** * The pages of a search *)

Module PagingFacts.
Import Words Terms.

Lemma insert_desc_length (a : ArticleDoc.t) (l : list ArticleDoc.t) :
  List.length (Mongo.insert_desc a l) = S (List.length l).
Proof.
  induction l as [|b l IH]; simpl; [reflexivity|].
  destruct (ArticleDoc.createdAt b <? ArticleDoc.createdAt a)%Z; simpl;
    [reflexivity | now rewrite IH].
Qed.

Lemma sort_desc_length (l : list ArticleDoc.t) :
  List.length (Mongo.sort_desc l) = List.length l.
Proof.
  induction l as [|a l IH]; simpl; [reflexivity|].
  unfold Mongo.sort_desc in *. now rewrite insert_desc_length, IH.
Qed.

(** Cutting a list into [k] slices of [n] elements, from the first on,
    loses nothing when [k * n] reaches its length. *)
Lemma slices_concat {A} (n : nat) (l : list A) (k : nat) :
  0 < n -> List.length l <= k * n ->
  concat (map (fun i => firstn n (skipn (i * n) l)) (seq 0 k)) = l.
Proof.
  intros Hn. revert l. induction k as [|k IH]; intros l Hl.
  - simpl in *. destruct l; [reflexivity | simpl in Hl; lia].
  - change (seq 0 (S k)) with (0 :: seq 1 k). rewrite <- seq_shift.
    cbn [map concat]. rewrite map_map. change (0 * n) with 0.
    cbn [skipn]. transitivity (firstn n l ++ skipn n l);
      [|apply firstn_skipn]. f_equal.
    rewrite <- (IH (skipn n l)).
    + f_equal. apply map_ext. intros i.
      now rewrite skipn_skipn, (Nat.add_comm (i * n) n).
    + rewrite length_skipn. simpl in Hl. lia.
Qed.

Lemma ceil_div_covers (a b : Z) :
  (0 <= a)%Z -> (0 < b)%Z -> (a <= Js.ceil_div a b * b)%Z.
Proof.
  intros Ha Hb. unfold Js.ceil_div.
  pose proof (Z.div_mod (a + b - 1) b ltac:(lia)) as E.
  pose proof (Z.mod_pos_bound (a + b - 1) b Hb) as M. nia.
Qed.

Lemma ceil_div_nonneg (a b : Z) :
  (0 <= a)%Z -> (0 < b)%Z -> (0 <= Js.ceil_div a b)%Z.
Proof.
  intros Ha Hb. unfold Js.ceil_div. apply Z.div_pos; lia.
Qed.

Lemma page_of_slice (q : string) (limit : Z) (w : Mongo.World) (p : Z) :
  ArticleService.too_short (Some q) = false ->
  plain (Js.trim q) = true ->
  (1 <= p)%Z -> (1 <= limit <= 100)%Z -> Mongo.outage w = [] ->
  page_of q limit w p
  = firstn (Z.to_nat limit)
      (skipn (Z.to_nat ((p - 1) * limit))
         (Mongo.sort_desc
            (filter (Mongo.matches (FSearch (Js.trim q))) (Mongo.articles w)))).
Proof.
  intros Hq Hp Hpage Hlimit Hout. unfold page_of.
  now rewrite (SearchTheorems.search_in_world q w Hq Hp Hpage Hlimit Hout).
Qed.

(** The pages of a search, read one after the other from the first to the
    last the search announces, are the articles the query finds, most
    recent first, each once and none left out; no page holds more than
    [limit] articles and a page past the last one is empty. *)
Theorem search_pages_partition_hits :
  forall (q : string) (limit : Z) (w : Mongo.World),
    ArticleService.too_short (Some q) = false ->
    plain (Js.trim q) = true ->
    (1 <= limit <= 100)%Z -> Mongo.outage w = [] ->
    let hits :=
      Mongo.sort_desc
        (filter (Mongo.matches (FSearch (Js.trim q))) (Mongo.articles w)) in
    let total := Js.ceil_div (Z.of_nat (List.length hits)) limit in
    (forall p, (1 <= p)%Z ->
       Prog.result Mongo.answer
         (ArticleService.searchArticlesService (rt := Mongo.runtime)
            (Some q) p limit) w
       = Returned (mkSearchResult (page_of q limit w p) (List.length hits)
                     total p (Js.trim q)))
    /\ concat (map (page_of q limit w) (pages total)) = hits
    /\ (forall p, (1 <= p)%Z ->
          List.length (page_of q limit w p) <= Z.to_nat limit)
    /\ (forall p, (total < p)%Z -> page_of q limit w p = []).
Proof.
  intros q limit w Hq Hp Hlimit Hout hits total.
  assert (Hlen : (Z.of_nat (List.length hits) <= total * limit)%Z).
  { apply ceil_div_covers; lia. }
  assert (Htotal : (0 <= total)%Z).
  { apply ceil_div_nonneg; lia. }
  split; [|split; [|split]].
  - intros p Hpage. unfold page_of.
    rewrite (SearchTheorems.search_in_world q w Hq Hp Hpage Hlimit Hout).
    unfold expected. cbn [articles]. f_equal. f_equal.
    + subst hits. now rewrite sort_desc_length.
    + subst total hits. now rewrite sort_desc_length.
  - unfold pages. rewrite map_map.
    etransitivity;
      [|apply (@slices_concat _ (Z.to_nat limit) hits (Z.to_nat total)); lia].
    f_equal. apply map_ext. intros i.
    rewrite page_of_slice by (try assumption; lia).
    fold hits. f_equal. f_equal. lia.
  - intros p Hpage. rewrite page_of_slice by assumption.
    rewrite length_firstn. lia.
  - intros p Hpage. rewrite page_of_slice by (try assumption; lia).
    fold hits. rewrite skipn_all2; [now destruct (Z.to_nat limit)|]. nia.
Qed.

Lemma search_pages_partition_hits_witness :
  concat (map (page_of "te" 10 Newsroom.world) (pages 1))
  = [Newsroom.technologie].
Proof.
  exact (proj1 (proj2 (@search_pages_partition_hits "te" 10 Newsroom.world
                         eq_refl eq_refl ltac:(lia) eq_refl))).
Defined.

End PagingFacts.

(* ================================================================== *)
(** * The connection to the store *)

Module DbFacts.
Import Db.

Lemma step_shape (e : Event) (s : State) : shape s -> shape (step e s).
Proof.
  unfold shape, step.
  intros [->|[->|[[n [Hn ->]]|[->|[Hx H]]]]].
  - destruct e as [[|]|[|]]; cbn; auto.
    right. right. right. right. cbn. repeat split; lia.
  - destruct e as [[|]|[|]]; cbn; auto.
    + right. right. left. exists 0. split; [lia | reflexivity].
    + right. right. right. right. cbn. repeat split; lia.
  - destruct e as [[|]|[|]]; cbn.
    + right. right. left. now exists n.
    + right. right. left. now exists n.
    + destruct n as [|[|n]]; cbn.
      * right. right. left. exists 1. split; [lia | reflexivity].
      * right. right. left. exists 2. split; [lia | reflexivity].
      * right. right. right. left. destruct n; [reflexivity | lia].
    + right. right. right. right. cbn. repeat split; lia.
  - destruct e as [[|]|[|]]; cbn; auto.
  - rewrite Hx. right. right. right. right. now split.
Qed.

Lemma replay_shape (es : list Event) (s : State) :
  shape s -> shape (replay es s).
Proof.
  revert s. induction es as [|e es IH]; intros s H; [exact H|].
  apply IH. now apply step_shape.
Qed.

Lemma replay_unresolved (es : list Event) (s : State) :
  db s = false -> existsb is_resolution es = false ->
  db (replay es s) = false.
Proof.
  revert s. induction es as [|e es IH]; intros s Hdb Hes; [exact Hdb|].
  simpl in Hes. apply orb_false_iff in Hes. destruct Hes as [He Hes].
  apply IH; [|exact Hes]. unfold step.
  destruct (exited s); [exact Hdb|].
  destruct e as [c|ok]; simpl in *.
  - unfold connectDB. rewrite Hdb.
    destruct (isConnecting s); [exact Hdb|]. now destruct c.
  - subst ok. unfold settle. destruct (suspended s); [|exact Hdb].
    exact Hdb.
Qed.

(** From the start of the process on, whatever the calls of [connectDB]
    and however the calls it awaits settle: at most one [MongoClient] is
    ever constructed; a call made while the connection is being set up
    joins the pending promise and a call made once [db] is set returns it,
    neither changing anything; when the promise has resolved [getDB]
    returns, and until a call has resolved [getDB] throws; a failure ends
    the process. *)
Theorem connection_is_made_once :
  forall (es : list Event),
    let s := replay es initial in
    constructed s <= 1
    /\ (exited s = false -> db s = true \/ isConnecting s = true ->
        forall c, connectDB c s
                  = (s, if db s then TheDb else ThePromise))
    /\ (exited s = false -> isConnecting s = true -> promise s = None)
    /\ (promise s = Some true -> getDB s = inr tt /\ exited s = false)
    /\ (promise s = Some false -> exited s = true)
    /\ (existsb is_resolution es = false ->
        getDB s = inl (Error "Base de donnees non connectee")).
Proof.
  intros es s.
  assert (H : shape s) by (apply replay_shape; now left).
  assert (Hs : s = replay es initial) by reflexivity. clearbody s.
  split; [|split; [|split; [|split; [|split]]]].
  - destruct H as [->|[->|[[n [Hn ->]]|[->|[Hx H]]]]]; cbn; try lia.
  - intros Hx Hc c.
    destruct H as [E|[E|[[n [Hn E]]|[E|[Hx' H]]]]];
      try (rewrite E in *; cbn in *; try reflexivity).
    + destruct Hc; discriminate.
    + congruence.
  - intros Hx Hc.
    destruct H as [E|[E|[[n [Hn E]]|[E|[Hx' H]]]]];
      try (rewrite E in *; cbn in *; try reflexivity; try discriminate).
    congruence.
  - intros Hp.
    destruct H as [E|[E|[[n [Hn E]]|[E|[Hx' [H1 H2]]]]]];
      try (rewrite E in *; cbn in *; try discriminate).
    + now split.
    + congruence.
  - intros Hp.
    destruct H as [E|[E|[[n [Hn E]]|[E|[Hx' H]]]]];
      try (rewrite E in *; cbn in *; try discriminate).
    exact Hx'.
  - intros Hes. unfold getDB. rewrite Hs.
    now rewrite (replay_unresolved es initial eq_refl Hes).
Qed.

End DbFacts.

(* ================================================================== *)
(** * The test client against the server *)

Module ClientFacts.
Import Ws Client.

Section Facts.
Variable JSON_parse : string -> option JSON.

(** What the test client makes of the frames the server sends.  It
    knows the welcome, the pong and the three events about one article; the
    two events about several articles, [articles.updated] and
    [articles.deleted], fall to the default of its switch.  An event about
    one article whose [article] is null, as it is when the read after the
    write found nothing, makes the handler throw inside its [try]. *)
Theorem client_reads_server_frames :
  forall (m : Message) (data : string) (properties : list (string * JSON)),
    JSON_parse data = Some (JObject properties) ->
    lookup "type" properties = Some (JString (type_of m)) ->
    match m with
    | SystemWelcome _ =>
        on_message JSON_parse data = Bienvenue (lookup "message" properties)
    | Pong _ => on_message JSON_parse data = ReponsePing
    | ArticleDeleted _ _ =>
        on_message JSON_parse data
        = ArticleSupprime (lookup "articleId" properties)
    | ArticlesUpdated _ _ _ | ArticlesDeleted _ _ _ =>
        on_message JSON_parse data
        = TypeInconnu (Some (JString (type_of m)))
    | ArticleCreated article _ | ArticleUpdated article _ =>
        (lookup "article" properties = Some JNull ->
         on_message JSON_parse data = ErreurDeParsing)
        /\ (forall fields,
              lookup "article" properties = Some (JObject fields) ->
              on_message JSON_parse data
              = match m with
                | ArticleCreated _ _ => NouvelArticle (lookup "title" fields)
                | _ => ArticleMisAJour (lookup "title" fields)
                end)
    end.
Proof.
  intros m data properties Hp Ht. unfold on_message, article_title.
  rewrite Hp. cbn [get]. rewrite Ht.
  destruct m; cbn; try reflexivity;
    (split; [intros H | intros fields H]; now rewrite H).
Qed.

(** A ping of the client is answered and the answer understood: the
    server, reading the object of any ping the client sends, sends one pong
    back on the same socket, and the client reads a frame whose type is
    that of the pong as the answer to its ping. *)
Theorem ping_is_answered :
  forall (JSON_stringify : Message -> string) (server_parse : string -> option JSON)
         (state : ReadyState) (at_ : string) (object : JSON)
         (ws : Socket) (frame : string) (now : Z) (s : Server),
    In object (on_open at_ ++ on_interval state at_) ->
    server_parse frame = Some object ->
    Ws.on_message server_parse JSON_stringify ws frame now s
    = (s, [Stringify (Pong now); Send ws (JSON_stringify (Pong now))])
    /\ (forall properties,
          JSON_parse (JSON_stringify (Pong now)) = Some (JObject properties) ->
          lookup "type" properties = Some (JString (type_of (Pong now))) ->
          on_message JSON_parse (JSON_stringify (Pong now)) = ReponsePing).
Proof.
  intros stringify parse state at_ object ws frame now s Hin Hp. split.
  - unfold Ws.on_message. rewrite Hp. unfold on_open, on_interval in Hin.
    destruct (is_OPEN state); simpl in Hin;
      repeat (destruct Hin as [<-|Hin]; [reflexivity|]); contradiction.
  - intros properties H1 H2. unfold on_message. rewrite H1. cbn [get].
    now rewrite H2.
Qed.

End Facts.

Lemma client_reads_server_frames_witness :
  let parse := fun _ : string =>
                 Some (JObject [("type", JString "articles.deleted");
                                ("count", JNumber "2")]) in
  on_message parse "frame" = TypeInconnu (Some (JString "articles.deleted")).
Proof.
  exact (@client_reads_server_frames
           (fun _ => Some (JObject [("type", JString "articles.deleted");
                                    ("count", JNumber "2")]))
           (ArticlesDeleted 2 (ByAuthor "alice") 0) "frame"
           [("type", JString "articles.deleted"); ("count", JNumber "2")]
           eq_refl eq_refl).
Defined.

Lemma ping_is_answered_witness :
  let parse := fun _ : string => Some (ping None "2026-01-01T00:00:00.000Z") in
  Ws.on_message parse (fun _ => "pong") 7 "frame" 5 Terms.two_open
  = (Terms.two_open, [Stringify (Pong 5); Send 7 "pong"]).
Proof.
  exact (proj1 (@ping_is_answered (fun _ => None) (fun _ => "pong")
                  (fun _ => Some (ping None "2026-01-01T00:00:00.000Z"))
                  OPEN "2026-01-01T00:00:00.000Z"
                  (ping None "2026-01-01T00:00:00.000Z") 7 "frame" 5
                  Terms.two_open
                  (or_intror (or_introl eq_refl)) eq_refl)).
Defined.

End ClientFacts.

(* ================================================================== *)
(** * From the handlers to the sockets *)

Module WiredFacts.
Import Ws Words.

Section Facts.
Variable S : Type.
Variable answer : forall X, Eff X -> S -> X * S.
Variable JSON_parse : string -> option JSON.
Variable JSON_stringify : Message -> string.

Abbreviation wired := (Wired.wired answer JSON_stringify).

(** A run in the wired world leaves the server as it was and adds to its
    calls those of one [broadcast] per event handed to the hook. *)
Lemma run_wired {R} (p : Prog.t R) (w : Wired.World S) :
  let out := Prog.run wired p w in
  Wired.wss (snd (fst out)) = Wired.wss w
  /\ Wired.calls (snd (fst out))
     = Wired.calls w
       ++ flat_map (fun m => snd (broadcast JSON_stringify m (Wired.wss w)))
            (events (snd out)).
Proof.
  revert w. induction p as [a|e|X e k IH]; intros w; simpl.
  - split; [reflexivity | now rewrite app_nil_r].
  - split; [reflexivity | now rewrite app_nil_r].
  - destruct (wired e w) as [x w1] eqn:E.
    specialize (IH x w1). cbv zeta in IH.
    destruct (Prog.run wired (k x) w1) as [[r w2] tr]. simpl in *.
    destruct IH as [IH1 IH2]. rewrite IH1, IH2.
    destruct e; cbn in E; injection E as <- <-; cbn;
      try (split; reflexivity).
    split; [reflexivity|]. now rewrite <- app_assoc.
Qed.

Lemma sent_data_flat_map (c : Socket) (s : Server) (ms : list Message) :
  NoDup (clients s) ->
  sent_data c (flat_map (fun m => snd (broadcast JSON_stringify m s)) ms)
  = if registered c s && is_OPEN (readyState s c)
    then map JSON_stringify ms else [].
Proof.
  intros Hnd. induction ms as [|m ms IH]; cbn [flat_map map].
  - now destruct (registered c s && is_OPEN (readyState s c)).
  - rewrite WsRunFacts.sent_data_app, IH. unfold broadcast at 1. cbn [snd].
    change (sent_data c (Stringify m
                           :: flat_map (deliver s (JSON_stringify m)) (clients s)))
      with (sent_data c (flat_map (deliver s (JSON_stringify m)) (clients s))).
    rewrite WsFacts.forEach_sent.
    destruct (registered c s) eqn:R; simpl.
    + apply WsFacts.registered_In in R.
      destruct (is_OPEN (readyState s c)); [|reflexivity].
      assert (count_occ Nat.eq_dec (clients s) c = 1) as ->; [|reflexivity].
      now apply NoDup_count_occ'.
    + apply WsFacts.registered_false in R.
      destruct (is_OPEN (readyState s c)); [|reflexivity].
      apply (count_occ_not_In Nat.eq_dec) in R. now rewrite R.
Qed.

(** With the broadcast of realtime/ws.js installed as the hook, as the
    entry point installs it, every event a handler hands to the hook
    reaches every socket that is connected and open exactly once, in the
    order the events were handed over; a socket that is not connected or
    not open is sent none of them; the set of sockets is not changed by the
    request. *)
Theorem hook_reaches_every_open_socket :
  forall (R : Type) (p : Prog.t R) (s : S)
         (es : list WsRun.Event) (rs : Socket -> ReadyState),
    let server := fst (WsRun.replay JSON_parse JSON_stringify es
                         (WsRun.initial rs)) in
    let out := Prog.run wired p (Wired.mkWorld s server []) in
    Wired.wss (snd (fst out)) = server
    /\ forall c,
         sent_data c (Wired.calls (snd (fst out)))
         = if WsRun.connected c es false && is_OPEN (readyState server c)
           then map JSON_stringify (events (snd out)) else [].
Proof.
  intros R p s es rs server out.
  destruct (run_wired p (Wired.mkWorld s server [])) as [H1 H2].
  fold out in H1, H2. split; [exact H1|].
  intros c. rewrite H2. cbn [Wired.calls Wired.wss app].
  destruct (@WsRunFacts.replay_invariant JSON_parse JSON_stringify es
              (WsRun.initial rs)) as [Hnd Hreg]; [constructor|].
  fold server in Hnd, Hreg.
  rewrite (@sent_data_flat_map c server (events (snd out)) Hnd), (Hreg c).
  reflexivity.
Qed.

End Facts.
End WiredFacts.

(* ================================================================== *)
(** * The newsroom again *)

Module NewsroomMore.
Import Mongo Newsroom Terms Words.

(** An id of three letters. *)
Lemma invalid_id_never_reaches_store_witness :
  ObjectId_parse (Runtime := runtime) "xyz" = None
  /\ Mongo.run (ArticleController.deleteArticle (rt := runtime)
                  (request root_header "xyz" ArticleDoc.empty)) world
     = (Returned (res_status 400
                    (MessageError "Erreur lors de la suppression" "ID invalide")),
        world, []).
Proof.
  split; [reflexivity|].
  exact (proj1 (proj2 (@ArticleAnswerFacts.invalid_id_never_reaches_store
                         runtime World answer
                         (request root_header "xyz" ArticleDoc.empty) world
                         eq_refl))).
Defined.

(** The administrator sets alice's password through her id. *)
Lemma password_update_by_id_never_writes_witness :
  let req := mkReq root_header None "" "" "" "000000000000000000000001"
               "" "" None None None ArticleDoc.empty (new_password "hunter2")
               None true in
  Js.truthy_opt (UserDoc.password (body_user req)) = true
  /\ Prog.db_calls
       (snd (Prog.run answer (AuthRoutes.put_user_by_id (rt := runtime) req)
               world)) = 0.
Proof.
  intros req. split; [reflexivity|].
  refine (proj1 (@AccountFacts.password_update_by_id_never_writes
                   runtime World answer req world eq_refl _)).
  intros h s1 H. injection H as <- _. reflexivity.
Defined.

(** Alice's record as [GET /users/email/:email] answers it. *)
Lemma reads_strip_password_witness :
  UserDoc.password alice = Some (hash "wonderland")
  /\ Prog.result answer
       (AuthRoutes.get_user_by_email
          (user_request None "alice@news.example" no_user)) world
     = Returned (mkResponse 200 (UserJson (UserDoc.withoutPassword alice)))
  /\ UserDoc.password (UserDoc.withoutPassword alice) = None.
Proof.
  split; [reflexivity|]. split; [reflexivity|].
  exact (@PasswordFacts.reads_strip_password runtime World answer
           (user_request None "alice@news.example" no_user) world
           (UserDoc.withoutPassword alice) 200
           (or_intror (or_introl eq_refl))).
Defined.

(** A visitor registers with the role admin, logs in, and deletes an
    article. *)
Example visitor_registers_as_admin :
  let mallory := UserDoc.mk None (Some "mallory") (Some "mallory@news.example")
                   (Some "pw") (Some "admin") None None in
  let register := AuthRoutes.dispatch (rt := runtime) AuthRoutes.PostRegister
                    (user_request None "" mallory) in
  let after := Prog.final answer register world in
  let header := bearer_header (login "mallory@news.example" "pw" after) in
  Prog.result answer register world
  = Returned (res_status 201 (UserId "Utilisateur cree" 11%N))
  /\ Prog.result answer
       (ArticleRoutes.dispatch (rt := runtime) ArticleRoutes.DeleteById
          (request header technologie_id ArticleDoc.empty)) after
     = Returned (res_json (MessageCount "Article supprime avec succes" 1)).
Proof. vm_compute. repeat split. Qed.

(** The same wrong password and an unknown e-mail, and the right
    password. *)
Example logins :
  let refused :=
    LoginOther (res_status 401 (Message_ "Email ou mot de passe incorrect")) in
  Prog.result answer
    (LoginRoute.login (rt := runtime) "alice@news.example" (Some "rabbit")) world
  = Returned refused
  /\ Prog.result answer
       (LoginRoute.login (rt := runtime) "nobody@news.example" (Some "rabbit"))
       world
     = Returned refused
  /\ exists tok,
       Prog.result answer
         (LoginRoute.login (rt := runtime) "alice@news.example"
            (Some "wonderland")) world
       = Returned (LoggedIn (AuthService.mkLogin tok (Some 1%N) (Some "alice")
                               (Some "author")) None).
Proof.
  split; [reflexivity|]. split; [reflexivity|]. eexists. vm_compute. reflexivity.
Qed.

(** An author whose request names an article by an id that is no
    ObjectId is left without an answer by the ownership check. *)
Example owner_gate_rejects :
  exists e,
    Prog.result answer
      (AuthRoutes.isAuthorOrAdmin (rt := runtime)
         (with_user (request None "xyz" retitled) alice_context)) world
    = Rejected e.
Proof. eexists. reflexivity. Qed.

(** The administrator deletes the article while socket 1 is connected
    and socket 2 has left: socket 1 is sent the event, socket 2 nothing. *)
Example deletion_reaches_the_sockets :
  let server :=
    fst (WsRun.replay (fun _ => None) Client.type_of
           [WsRun.Connection 1 0; WsRun.Connection 2 0; WsRun.Close 2]
           (WsRun.initial (fun _ => Ws.OPEN))) in
  let out :=
    Prog.run (Wired.wired answer Client.type_of)
      (ArticleRoutes.dispatch (rt := runtime) ArticleRoutes.DeleteById
         (request root_header technologie_id ArticleDoc.empty))
      (Wired.mkWorld world server []) in
  fst (fst out)
  = Returned (res_json (MessageCount "Article supprime avec succes" 1))
  /\ Ws.sent_data 1 (Wired.calls (snd (fst out))) = ["article.deleted"]
  /\ Ws.sent_data 2 (Wired.calls (snd (fst out))) = [].
Proof. vm_compute. repeat split. Qed.

End NewsroomMore.

(* ================================================================== *)
(** * Running programs over both interfaces *)

Module FullFacts.
Section Facts.
Variable S : Type.
Variable answer : forall X, Full.Call X -> S -> X * S.

Lemma run_full_bind {A B} (p : Full.t A) (f : A -> Full.t B) (s : S) :
  Full.run answer (Full.bind p f) s
  = match Full.run answer p s with
    | (Returned a, s1, tr1) =>
        let '(r, s2, tr2) := Full.run answer (f a) s1 in (r, s2, tr1 ++ tr2)
    | (Rejected e, s1, tr1) => (Rejected e, s1, tr1)
    end.
Proof.
  revert s. induction p as [a|e|X c k IH]; intros s; simpl.
  - now destruct (Full.run answer (f a) s) as [[r s2] tr2].
  - reflexivity.
  - destruct (answer c s) as [x s1]. rewrite IH.
    destruct (Full.run answer (k x) s1) as [[[a|err] s2] tr1]; [|reflexivity].
    now destruct (Full.run answer (f a) s2) as [[r s3] tr2].
Qed.

(** A program of the first interface runs as it did, its calls
    answered by the world's answers to them. *)
Lemma run_lift {R} (p : Prog.t R) (s : S) :
  Full.run answer (Full.lift p) s
  = let '(r, s1, tr) := Prog.run (fun X e => answer (Full.Old e)) p s in
    (r, s1, map Full.old tr).
Proof.
  revert s. induction p as [a|e|X e k IH]; intros s; simpl; try reflexivity.
  destruct (answer (Full.Old e) s) as [x s1]. rewrite IH.
  now destruct (Prog.run (fun X0 e0 => answer (Full.Old e0)) (k x) s1)
    as [[r s2] tr].
Qed.

End Facts.
End FullFacts.

(* ================================================================== *)
(** * The deletion of a user *)

Module DeleteFacts.
Import Terms.
Section Facts.
Context {rt : Runtime}.
Variable S : Type.
Variable answer : forall X, Full.Call X -> S -> X * S.

Abbreviation run := (Full.run answer).

(** What the handlers of [DELETE /users/...] answer, against what the
    store reported.  Each always answers and makes at most one driver
    call, a [deleteOne] with the filter its path names.  It answers 200
    exactly when the deletion reported a user removed, 404 exactly when it
    reported none, and 500 otherwise: when the store rejected the call or,
    by id, when the id is no ObjectId, in which case no call is made. *)
Theorem user_deletion_answers :
  forall (r : Deletes.Routes.Route) (req : Req) (s : S),
    let out := run (Deletes.Routes.handler r req) s in
    (exists res,
       fst (fst out) = Returned res
       /\ (status res = 200 <-> existsb Full.deleted_one (snd out) = true)
       /\ (status res = 404 <-> existsb Full.deleted_none (snd out) = true)
       /\ (status res = 200 \/ status res = 404 \/ status res = 500))
    /\ Full.db_calls (snd out) <= 1
    /\ (forall c f,
          In c (snd out) -> Full.deletion c = Some f ->
          match r with
          | Deletes.Routes.DeleteUserById =>
              exists o, ObjectId_parse (p_userId req) = Some o /\ f = UId o
          | Deletes.Routes.DeleteUserByEmail => f = UEmail (p_email req)
          | Deletes.Routes.DeleteUserByUsername => f = UUsername (p_username req)
          end)
    /\ (ObjectId_parse (p_userId req) = None ->
        exists message,
          run (Deletes.Routes.delete_user_by_id req) s
          = (Returned (res_status 500
                         (MessageError "Erreur de suppression" message)),
             s, [])).
Proof.
  intros r req s out. subst out. split; [|split; [|split]].
  - destruct r; unfold_deletes; cbn; repeat (split_match; cbn in * );
      (eexists; split; [reflexivity|]); cbn;
      repeat split; intros; try discriminate; try reflexivity; try lia;
      intuition (try discriminate; try lia).
  - destruct r; unfold_deletes; cbn; repeat (split_match; cbn in * ); lia.
  - destruct r; unfold_deletes; cbn; repeat (split_match; cbn in * );
      intros c f Hin Hf;
      repeat (destruct Hin as [<-|Hin]; [try discriminate|]);
      try contradiction;
      injection Hf as <-; try reflexivity; eexists; split; reflexivity.
  - intros H. unfold_deletes. rewrite H. eexists. reflexivity.
Qed.

(** The controllers that delete a user test [result.deletedCount] on what
    the model resolved to, which is the count itself: the test never
    holds, so they answer 200 also when no user was removed, where the
    route of the same path answers 404. *)
Theorem delete_controllers_never_answer_404 :
  forall (req : Req) (s : S),
    (forall h,
       In h [Deletes.Controller.deleteUserById;
             Deletes.Controller.deleteUserByEmail;
             Deletes.Controller.deleteUserByUsername] ->
       exists res, fst (fst (run (h req) s)) = Returned res
                   /\ (status res = 200 \/ status res = 500))
    /\ (forall s1,
          answer (Full.More (users_deleteOne (UEmail (p_email req)))) s
          = (inr 0, s1) ->
          fst (fst (run (Deletes.Controller.deleteUserByEmail req) s))
          = Returned (res_json (Message_ "Utilisateur supprime"))
          /\ fst (fst (run (Deletes.Routes.delete_user_by_email req) s))
             = Returned (res_status 404 (Message_ "Utilisateur non trouve"))).
Proof.
  intros req s. split.
  - intros h [<-|[<-|[<-|[]]]]; unfold_deletes; cbn;
      repeat (split_match; cbn in * );
      eexists; (split; [reflexivity|]); cbn; tauto.
  - intros s1 H. unfold_deletes. cbn. rewrite H. cbn. split; reflexivity.
Qed.

(** The stack of [DELETE /users/...], run. *)
Lemma run_delete_stack (r : Deletes.Routes.Route) (req : Req) (s : S) :
  run (Deletes.Routes.dispatch r req) s
  = match AuthRoutes.bearer (authorization req) with
    | Some (String c tok) =>
        let now := fst (answer (Full.Old NewDate) s) in
        let s1 := snd (answer (Full.Old NewDate) s) in
        match jwt_verify (String c tok) JWT_SECRET (seconds now) with
        | inl e =>
            (Returned (res_status 401
                         (MessageError "Token invalide" (exn_message e))),
             s1, [Full.Called (Full.Old NewDate) now])
        | inr u =>
            if Js.strict_eq (role u) (Some "admin")
            then
              let '(a, s2, tr) :=
                run (Deletes.Routes.handler r (with_user req u)) s1 in
              (a, s2, Full.Called (Full.Old NewDate) now :: tr)
            else
              (Returned (res_status 403 (Message_ "Acces refuse - Admin requis")),
               s1, [Full.Called (Full.Old NewDate) now])
        end
    | _ => (Returned (res_status 401 (Message_ "Token manquant")), s, [])
    end.
Proof.
  unfold Deletes.Routes.dispatch. cbn [Full.chain].
  rewrite FullFacts.run_full_bind, FullFacts.run_lift, GateFacts.run_authenticate.
  destruct (AuthRoutes.bearer (authorization req)) as [[|c tok]|];
    try reflexivity.
  destruct (answer (Full.Old NewDate) s) as [now s1]. cbn [fst snd].
  destruct (jwt_verify (String c tok) JWT_SECRET (seconds now)) as [e|u];
    [reflexivity|].
  cbn [map Full.old].
  rewrite FullFacts.run_full_bind, FullFacts.run_lift, GateFacts.run_isAdmin.
  cbn [user with_user AuthRoutes.role_of].
  destruct (Js.strict_eq (role u) (Some "admin")); [|reflexivity].
  cbn [map app].
  now destruct (run (Deletes.Routes.handler r (with_user req u)) s1)
    as [[a s2] tr].
Qed.

Lemma is_admin_role (u : ReqUser) :
  Js.strict_eq (role u) (Some "admin") = true <-> role u = Some "admin".
Proof.
  destruct (role u) as [x|]; simpl.
  - rewrite String.eqb_eq. split; [now intros -> | now intros [= ->]].
  - split; discriminate.
Qed.

(** A user is deleted only on behalf of an administrator.  Whenever a
    request to [DELETE /users/...] reaches the store, its Authorization
    header carried, as its second word, a token that verified, at the time
    of the request, to a payload whose role is admin.  A request without a
    token is answered 401, one whose token does not verify 401, one whose
    token verifies to a payload of another role 403: none of them makes a
    driver call or runs the handler.  With a verified token of an
    administrator the handler runs, on the request with [req.user] set. *)
Theorem deletion_needs_verified_admin :
  forall (r : Deletes.Routes.Route) (req : Req) (s : S),
    let out := run (Deletes.Routes.dispatch r req) s in
    let now := fst (answer (Full.Old NewDate) s) in
    let s1 := snd (answer (Full.Old NewDate) s) in
    let header := authorization req in
    let clock := Full.Called (Full.Old NewDate) now in
    (0 < Full.db_calls (snd out) ->
     exists scheme token u,
       nospace scheme = true /\ nospace token = true
       /\ (header = Some (scheme ++ " " ++ token)%string
           \/ exists tail,
                header = Some (scheme ++ " " ++ token ++ " " ++ tail)%string)
       /\ jwt_verify token JWT_SECRET (seconds now) = inr u
       /\ role u = Some "admin")
    /\ (forall scheme tail,
          nospace scheme = true ->
          header = None \/ header = Some scheme
          \/ header = Some (scheme ++ " ")%string
          \/ header = Some (scheme ++ "  " ++ tail)%string ->
          out = (Returned (res_status 401 (Message_ "Token manquant")), s, []))
    /\ (forall scheme token tail,
          nospace scheme = true -> nospace token = true -> token <> "" ->
          header = Some (scheme ++ " " ++ token)%string
          \/ header = Some (scheme ++ " " ++ token ++ " " ++ tail)%string ->
          (forall e,
             jwt_verify token JWT_SECRET (seconds now) = inl e ->
             out = (Returned (res_status 401
                                (MessageError "Token invalide" (exn_message e))),
                    s1, [clock]))
          /\ (forall u,
                jwt_verify token JWT_SECRET (seconds now) = inr u ->
                role u <> Some "admin" ->
                out = (Returned (res_status 403
                                   (Message_ "Acces refuse - Admin requis")),
                       s1, [clock]))
          /\ (forall u,
                jwt_verify token JWT_SECRET (seconds now) = inr u ->
                role u = Some "admin" ->
                exists req1,
                  user req1 = Some u /\ same_but_user req req1
                  /\ out = let '(a, s2, tr) :=
                             run (Deletes.Routes.handler r req1) s1 in
                           (a, s2, clock :: tr))).
Proof.
  intros r req s out now s1 header clock.
  subst out now s1 header clock. rewrite run_delete_stack.
  split; [|split].
  - destruct (authorization req) as [header|] eqn:Hh; [|cbn; lia].
    destruct (AuthRoutes.bearer (Some header)) as [[|c tok]|] eqn:Hb;
      [cbn; lia| |cbn; lia].
    cbv zeta.
    destruct (jwt_verify (String c tok) JWT_SECRET
                (seconds (fst (answer (Full.Old NewDate) s)))) as [e|u] eqn:V;
      [cbn; lia|].
    destruct (Js.strict_eq (role u) (Some "admin")) eqn:A; [|cbn; lia].
    intros _. apply is_admin_role in A.
    destruct (@HeaderFacts.bearer_is_second_word header (String c tok) Hb)
      as [scheme [Hs [Ht Hd]]]; [discriminate|].
    exists scheme, (String c tok), u.
    split; [exact Hs|]. split; [exact Ht|]. split; [|now split].
    destruct Hd as [->|[tail ->]]; [now left | right; now exists tail].
  - intros scheme tail Hs H.
    assert (F : Js.truthy_opt (AuthRoutes.bearer (authorization req)) = false).
    { destruct H as [H|[H|[H|H]]]; rewrite H.
      - reflexivity.
      - now apply HeaderFacts.bearer_one_word.
      - change (scheme ++ " ")%string with (scheme ++ " " ++ "")%string.
        now rewrite HeaderFacts.bearer_second_word.
      - change (scheme ++ "  " ++ tail)%string
          with (scheme ++ " " ++ "" ++ " " ++ tail)%string.
        now rewrite HeaderFacts.bearer_second_of_more. }
    destruct (AuthRoutes.bearer (authorization req)) as [[|c tok]|];
      try reflexivity. discriminate.
  - intros scheme token tail Hs Ht Hne Hh.
    assert (Hb : AuthRoutes.bearer (authorization req) = Some token).
    { destruct Hh as [H|H]; rewrite H.
      - now apply HeaderFacts.bearer_second_word.
      - now apply HeaderFacts.bearer_second_of_more. }
    rewrite Hb. destruct token as [|c tok]; [now contradiction Hne|].
    cbv zeta. split; [|split].
    + intros e V. now rewrite V.
    + intros u V Hr. rewrite V.
      destruct (Js.strict_eq (role u) (Some "admin")) eqn:A; [|reflexivity].
      apply is_admin_role in A. now contradiction Hr.
    + intros u V Hr. rewrite V.
      apply is_admin_role in Hr. rewrite Hr.
      exists (with_user req u).
      destruct (GateFacts.same_but_user_with_user req u) as [H1 H2].
      split; [exact H1|]. split; [exact H2|]. reflexivity.
Qed.

End Facts.
End DeleteFacts.

(* ================================================================== *)
(** * Where the arithmetic is exact *)

Module NumFacts.

Lemma round_safe (z : Z) : Num.isSafeInteger z = true -> Num.round z = z.
Proof.
  unfold Num.isSafeInteger, Num.MAX_SAFE_INTEGER, Num.round. intros H.
  apply Z.leb_le in H.
  assert (L : (Z.log2 (Z.abs z) < 53)%Z).
  { destruct (Z.eq_dec (Z.abs z) 0) as [E|E]; [rewrite E; reflexivity|].
    apply Z.log2_lt_pow2; lia. }
  cbv zeta. destruct (Z.leb_spec (Z.log2 (Z.abs z) - 52) 0); [reflexivity|lia].
Qed.

(** Within the window the code's skip is the exact product. *)
Lemma exact_skip (page limit : Z) :
  Num.exact_window page limit = true ->
  Num.times (Num.minus page 1) limit = ((page - 1) * limit)%Z.
Proof.
  unfold Num.exact_window, Num.times, Num.minus. intros H.
  apply andb_true_iff in H. destruct H as [H1 H2].
  now rewrite (round_safe _ H1), (round_safe _ H2).
Qed.

(** Outside it the product is rounded: the code asks the store to skip
    10000000200000000 articles for page 100000002 with limit 100000001,
    one less than the exact product. *)
Example rounded_skip :
  Num.exact_window 100000002 100000001 = false
  /\ Num.times (Num.minus 100000002 1) 100000001 = 10000000200000000%Z
  /\ ((100000002 - 1) * 100000001 = 10000000200000001)%Z
  /\ Num.round 9007199254740993 = 9007199254740992%Z
  /\ Num.round 9007199254740995 = 9007199254740996%Z
  /\ Num.round (-9007199254740993) = (-9007199254740992)%Z
  /\ Num.round 9007199254740992 = 9007199254740992%Z.
Proof. repeat split. Qed.

End NumFacts.

(* ================================================================== *)
(** * The reads of several articles *)

Module ReadFacts.
Import Words.
Section Facts.
Context {rt : Runtime}.
Variable S : Type.
Variable answer : forall X, Full.Call X -> S -> X * S.

Abbreviation run := (Full.run answer).

(** [GET /title/:title] and [GET /author/:author].  A parameter that does
    not decode, an empty one, and a title that is no pattern are answered
    500 before any call.  Otherwise the handler makes one driver call and
    no other call, a [find] with the title as a pattern or the author as
    the exact value, and answers the articles found, or 404 when there are
    none, or 500 when the store rejects the call. *)
Theorem reads_by_title_and_author :
  forall (req : Req) (s : S),
    let by_title := run (Reads.Controller.getArticlesByTitle req) s in
    let by_author := run (Reads.Controller.getArticlesByAuthor req) s in
    (forall title,
       decodeURIComponent (p_title req) = Some title ->
       Js.truthy title = true -> RegExp_valid title = true ->
       let find := Full.More (articles_find (FTitleRegex title)) in
       by_title
       = (Returned match fst (answer find s) with
                   | inr [] =>
                       Reads.Other
                         (res_status 404
                            (Message_ ("Aucun article trouve avec le titre: "
                                       ++ title)))
                   | inr (a :: l) => Reads.ArticlesJson (a :: l)
                   | inl e =>
                       Reads.Other
                         (res_status 500
                            (MessageError "Erreur serveur" (exn_message e)))
                   end,
          snd (answer find s), [Full.Called find (fst (answer find s))]))
    /\ (forall author,
          decodeURIComponent (p_author req) = Some author ->
          Js.truthy author = true ->
          let find := Full.More (articles_find (FAuthor author)) in
          by_author
          = (Returned match fst (answer find s) with
                      | inr [] =>
                          Reads.Other
                            (res_status 404
                               (Message_ ("Aucun article trouve pour l'auteur: "
                                          ++ author)))
                      | inr (a :: l) => Reads.ArticlesJson (a :: l)
                      | inl e =>
                          Reads.Other
                            (res_status 500
                               (MessageError "Erreur serveur" (exn_message e)))
                      end,
             snd (answer find s), [Full.Called find (fst (answer find s))]))
    /\ ((decodeURIComponent (p_title req) = None
         \/ decodeURIComponent (p_title req) = Some ""
         \/ (exists title, decodeURIComponent (p_title req) = Some title
                           /\ RegExp_valid title = false)) ->
        exists message,
          by_title
          = (Returned (Reads.Other
                         (res_status 500
                            (MessageError "Erreur serveur" message))), s, []))
    /\ ((decodeURIComponent (p_author req) = None
         \/ decodeURIComponent (p_author req) = Some "") ->
        exists message,
          by_author
          = (Returned (Reads.Other
                         (res_status 500
                            (MessageError "Erreur serveur" message))), s, [])).
Proof.
  intros req s by_title by_author. subst by_title by_author.
  unfold Reads.Controller.getArticlesByTitle,
    Reads.Controller.getArticlesByAuthor, Reads.Controller.found,
    Reads.Controller.server_error,
    Reads.Service.getArticlesByTitleService,
    Reads.Service.getArticlesByAuthorService,
    Reads.Model.getArticlesByTitle, Reads.Model.getArticlesByAuthor,
    ArticleController.decode, ArticleService.not_a_string, new_RegExp.
  split; [|split; [|split]].
  - intros title Hd Ht Hv. cbv zeta. rewrite Hd. cbn. rewrite Ht. cbn.
    rewrite Hv. cbn.
    destruct (answer (Full.More (articles_find (FTitleRegex title))) s)
      as [[e|[|a l]] s1]; reflexivity.
  - intros author Hd Ht. cbv zeta. rewrite Hd. cbn. rewrite Ht. cbn.
    destruct (answer (Full.More (articles_find (FAuthor author))) s)
      as [[e|[|a l]] s1]; reflexivity.
  - intros [H|[H|[title [H Hv]]]]; rewrite H; cbn; try (eexists; reflexivity).
    destruct (Js.truthy title); cbn; [rewrite Hv|]; eexists; reflexivity.
  - intros [H|H]; rewrite H; cbn; eexists; reflexivity.
Qed.

(** [GET /] checks nothing.  The page and the limit are the numbers the
    query names, 1 and 5 when it names none, a word or zero, and are never
    zero.  Where the product is computed exactly ([Num.exact_window]), the
    store is asked for the articles from [(page - 1) * limit] on, [limit]
    of them, and when the count, a safe integer, and the read settle, the
    answer is the page with [Math.ceil(totalArticles / limit)] pages.  The
    request is always answered, with the page or with 500, never with 400
    or 404; a count the store rejects is answered 500 after that one
    call. *)
Theorem article_list_is_not_validated :
  forall (req : Req) (s : S),
    let page := Js.number_or (parseInt (q_page req)) 1 in
    let limit := Js.number_or (parseInt (q_limit req)) 5 in
    let out := run (Reads.Controller.getAllArticles req) s in
    limit <> 0%Z /\ page <> 0%Z
    /\ (Num.exact_window page limit = true ->
        (forall c skip l,
           In c (snd out) -> Full.window c = Some (skip, l) ->
           skip = Num.times (Num.minus page 1) limit
           /\ skip = ((page - 1) * limit)%Z /\ l = limit)
        /\ (forall total s1 found s2,
              Num.isSafeInteger (Z.of_nat total) = true ->
              answer (Full.More articles_countAll) s = (inr total, s1) ->
              answer (Full.More (articles_find_all_sorted
                                   ((page - 1) * limit) limit)) s1
              = (inr found, s2) ->
              out
              = (Returned (Reads.PageJson
                             (Reads.mkPage found total
                                (Reads.Math_ceil_div (Z.of_nat total) limit)
                                page)),
                 s2,
                 [Full.Called (Full.More articles_countAll) (inr total);
                  Full.Called (Full.More (articles_find_all_sorted
                                            ((page - 1) * limit) limit))
                    (inr found)])))
    /\ (forall e s1,
          answer (Full.More articles_countAll) s = (inl e, s1) ->
          out = (Returned (Reads.Other
                             (res_status 500
                                (MessageError "Erreur serveur" (exn_message e)))),
                 s1, [Full.Called (Full.More articles_countAll) (inl e)]))
    /\ exists a,
         fst (fst out) = Returned a
         /\ match a with
            | Reads.PageJson _ => True
            | Reads.ArticlesJson _ => False
            | Reads.Other res => status res = 500
            end.
Proof.
  intros req s page limit out.
  assert (Hnz : forall n d, d <> 0%Z -> Js.number_or n d <> 0%Z).
  { intros [z|] d Hd; simpl; [|exact Hd].
    destruct (Z.eqb_spec z 0); [exact Hd | assumption]. }
  split; [apply Hnz; discriminate|]. split; [apply Hnz; discriminate|].
  assert (Hskip : Num.exact_window page limit = true ->
                  ((page - 1) * limit)%Z
                  = Num.times (Num.minus page 1) limit).
  { intros H. symmetry. now apply NumFacts.exact_skip. }
  subst out. fold page limit.
  unfold Reads.Controller.getAllArticles, Reads.Service.getArticlesService,
    Reads.Model.getAllArticles, Reads.Controller.server_error.
  fold page limit. cbn.
  destruct (answer (Full.More articles_countAll) s) as [[e|total] s1]; cbn.
  - split.
    { intros _. split; [intros c skip l [<-|[]] H; discriminate|].
      intros total s1' found s2 _ H; discriminate. }
    split; [intros e' s1' H; now injection H as <- <-|].
    eexists. split; reflexivity.
  - destruct (answer (Full.More (articles_find_all_sorted
                                   ((page - 1) * limit) limit)) s1)
      as [[e|found] s2] eqn:E; cbn.
    + split.
      { intros Hx. split.
        - intros c skip l [<-|[<-|[]]] H; try discriminate.
          injection H as <- <-. split; [now apply Hskip | now split].
        - intros total' s1' found s2' _ H1 H2. injection H1 as <- <-.
          rewrite E in H2. discriminate. }
      split; [intros e' s1' H; discriminate|].
      eexists. split; reflexivity.
    + split.
      { intros Hx. split.
        - intros c skip l [<-|[<-|[]]] H; try discriminate.
          injection H as <- <-. split; [now apply Hskip | now split].
        - intros total' s1' found' s2' _ H1 H2. injection H1 as <- <-.
          rewrite E in H2. now injection H2 as <- <-. }
      split; [intros e' s1' H; discriminate|].
      eexists. split; [reflexivity | exact I].
Qed.

End Facts.
End ReadFacts.

(* ================================================================== *)
(** * The pages of the list of all articles *)

Module ListFacts.
Import Words.

Lemma Math_ceil_div_positive (a b : Z) :
  (0 < b)%Z -> Reads.Math_ceil_div a b = Some (Js.ceil_div a b).
Proof.
  intros Hb. unfold Reads.Math_ceil_div, Js.ceil_div.
  destruct (Z.eqb_spec b 0); [lia|]. f_equal.
  pose proof (Z.div_mod (- a) b ltac:(lia)) as E.
  pose proof (Z.mod_pos_bound (- a) b Hb) as M.
  apply (Z.div_unique _ _ _ (b - 1 - (- a) mod b)); [lia | nia].
Qed.

Lemma run_list (limit p : Z) (w : Mongo.World) :
  (1 <= limit)%Z -> (1 <= p)%Z -> Mongo.outage w = [] ->
  MongoMore.run (Reads.Service.getArticlesService p limit) w
  = (Returned
       (Reads.mkPage
          (firstn (Z.to_nat limit)
             (skipn (Z.to_nat ((p - 1) * limit))
                (Mongo.sort_desc (Mongo.articles w))))
          (List.length (Mongo.articles w))
          (Some (Js.ceil_div (Z.of_nat (List.length (Mongo.articles w))) limit))
          p),
     w,
     [Full.Called (Full.More articles_countAll)
        (inr (List.length (Mongo.articles w)));
      Full.Called (Full.More (articles_find_all_sorted ((p - 1) * limit) limit))
        (inr (firstn (Z.to_nat limit)
                (skipn (Z.to_nat ((p - 1) * limit))
                   (Mongo.sort_desc (Mongo.articles w)))))]).
Proof.
  intros Hl Hp Hout.
  unfold MongoMore.run, Reads.Service.getArticlesService,
    Reads.Model.getAllArticles.
  cbn. rewrite Hout. cbn. rewrite Hout. unfold MongoMore.page_of_sorted.
  destruct (Z.ltb_spec ((p - 1) * limit) 0); [nia|].
  destruct (Z.eqb_spec limit 0); [lia|].
  cbn. rewrite Z.abs_eq by lia. now rewrite Math_ceil_div_positive by lia.
Qed.

(** Against the in-memory store: for any limit from 1 on, with no upper
    bound, the pages of the list of all articles, read from the first to
    the last page the answer announces, are all the articles, most recent
    first, each once; a page number below 1 asks the store to skip a
    negative number of articles, which it refuses. *)
Theorem article_list_pages_partition :
  forall (limit : Z) (w : Mongo.World),
    (1 <= limit)%Z -> Mongo.outage w = [] ->
    let all := Mongo.sort_desc (Mongo.articles w) in
    let total := Js.ceil_div (Z.of_nat (List.length all)) limit in
    (forall p, (1 <= p)%Z ->
       fst (fst (MongoMore.run (Reads.Service.getArticlesService p limit) w))
       = Returned (Reads.mkPage (MongoMore.list_page limit w p)
                     (List.length all) (Some total) p))
    /\ concat (map (MongoMore.list_page limit w) (pages total)) = all
    /\ (forall p, (1 <= p)%Z ->
          List.length (MongoMore.list_page limit w p) <= Z.to_nat limit)
    /\ (forall p, (p < 1)%Z ->
          fst (fst (MongoMore.run (Reads.Service.getArticlesService p limit) w))
          = Rejected (mkExn "MongoServerError" "skip must be non-negative")).
Proof.
  intros limit w Hl Hout all total.
  assert (Hlen : List.length all = List.length (Mongo.articles w)).
  { apply PagingFacts.sort_desc_length. }
  assert (Hcover : (Z.of_nat (List.length all) <= total * limit)%Z).
  { apply PagingFacts.ceil_div_covers; lia. }
  assert (Htotal : (0 <= total)%Z).
  { apply PagingFacts.ceil_div_nonneg; lia. }
  assert (Hpage : forall p, (1 <= p)%Z ->
            MongoMore.list_page limit w p
            = firstn (Z.to_nat limit) (skipn (Z.to_nat ((p - 1) * limit)) all)).
  { intros p Hp. unfold MongoMore.list_page.
    now rewrite (run_list w Hl Hp Hout). }
  split; [|split; [|split]].
  - intros p Hp. rewrite (Hpage p Hp), (run_list w Hl Hp Hout). cbn.
    subst total. now rewrite Hlen.
  - unfold pages. rewrite map_map.
    etransitivity;
      [|apply (@PagingFacts.slices_concat _ (Z.to_nat limit) all
                 (Z.to_nat total)); lia].
    f_equal. apply map_ext. intros i. rewrite Hpage by lia.
    f_equal. f_equal. lia.
  - intros p Hp. rewrite (Hpage p Hp), length_firstn. lia.
  - intros p Hp.
    unfold MongoMore.run, Reads.Service.getArticlesService,
      Reads.Model.getAllArticles.
    cbn. rewrite Hout. cbn. rewrite Hout. unfold MongoMore.page_of_sorted.
    destruct (Z.ltb_spec ((p - 1) * limit) 0); [reflexivity | nia].
Qed.

End ListFacts.

(* ================================================================== *)
(** * The newsroom: lists and deletions *)

Module NewsroomRest.
Import Mongo Newsroom Terms Words MoreTerms.

(** The administrator deletes alice's account. *)
Lemma deletion_needs_verified_admin_witness :
  let req := user_request root_header "alice@news.example" no_user in
  let out := MongoMore.run delete_alice world in
  0 < Full.db_calls (snd out)
  /\ nospace "Bearer" = true /\ nospace root_token = true /\ root_token <> ""
  /\ authorization req = Some ("Bearer " ++ root_token)%string
  /\ jwt_verify (Runtime := runtime) root_token
       (JWT_SECRET (Runtime := runtime)) (seconds (clock world))
     = inr root_context
  /\ role root_context = Some "admin"
  /\ (exists scheme token u,
        nospace scheme = true /\ nospace token = true
        /\ (authorization req = Some (scheme ++ " " ++ token)%string
            \/ exists tail,
                 authorization req
                 = Some (scheme ++ " " ++ token ++ " " ++ tail)%string)
        /\ jwt_verify (Runtime := runtime) token
             (JWT_SECRET (Runtime := runtime)) (seconds (clock world))
           = inr u
        /\ role u = Some "admin")
  /\ exists req1,
       user req1 = Some root_context /\ same_but_user req req1
       /\ out = let '(a, s2, tr) :=
                  MongoMore.run
                    (Deletes.Routes.handler (rt := runtime)
                       Deletes.Routes.DeleteUserByEmail req1)
                    (snd (MongoMore.answer (Full.Old NewDate) world)) in
                (a, s2, Full.Called (Full.Old NewDate) (clock world) :: tr).
Proof.
  intros req out.
  assert (H : 0 < Full.db_calls (snd out)) by (vm_compute; lia).
  assert (Hne : root_token <> "") by (vm_compute; discriminate).
  pose proof (@DeleteFacts.deletion_needs_verified_admin runtime World
                MongoMore.answer Deletes.Routes.DeleteUserByEmail req world)
    as (Hcall & _ & Htoken).
  split; [exact H|]. split; [reflexivity|]. split; [vm_compute; reflexivity|].
  split; [exact Hne|]. split; [vm_compute; reflexivity|].
  split; [vm_compute; reflexivity|]. split; [reflexivity|].
  split; [exact (Hcall H)|].
  exact (proj2 (proj2 (Htoken "Bearer" root_token "" eq_refl eq_refl Hne
                         (or_introl eq_refl)))
           root_context eq_refl eq_refl).
Defined.

Lemma article_list_pages_partition_witness :
  concat (map (MongoMore.list_page 5 world) (pages 1)) = [technologie].
Proof.
  exact (proj1 (proj2 (@ListFacts.article_list_pages_partition 5 world
                         ltac:(lia) eq_refl))).
Defined.

(** The second page of the list, one article a page: the store is asked
    to skip one article, and two pages are announced. *)
Lemma article_list_is_not_validated_witness :
  let req := mkReq None None "" "" "" "" "" "" None (Some "2") (Some "1")
               ArticleDoc.empty no_user None true in
  let out := MongoMore.run
               (Reads.Controller.getAllArticles (rt := runtime) req)
               two_articles in
  Num.exact_window 2 1 = true
  /\ out = (Returned (Reads.PageJson
                        (Reads.mkPage [economie] 2 (Some 2%Z) 2)),
            two_articles,
            [Full.Called (Full.More articles_countAll) (inr 2);
             Full.Called (Full.More (articles_find_all_sorted 1 1))
               (inr [economie])])
  /\ forall c skip l,
       In c (snd out) -> Full.window c = Some (skip, l) ->
       skip = Num.times (Num.minus 2 1) 1 /\ skip = ((2 - 1) * 1)%Z /\ l = 1%Z.
Proof.
  intros req out.
  pose proof (@ReadFacts.article_list_is_not_validated runtime World
                MongoMore.answer req
                two_articles)
    as (_ & _ & H & _).
  specialize (H eq_refl). destruct H as [Hwindow Hpage].
  split; [reflexivity|]. split; [|exact Hwindow].
  exact (Hpage 2 _ [economie] _ eq_refl eq_refl eq_refl).
Defined.

(** The deletion removes alice and leaves the administrator; alice,
    asking the same of the administrator's account, is refused. *)
Example deletions :
  fst (fst (MongoMore.run delete_alice world))
  = Returned (res_json (MessageCount "Utilisateur supprime" 1))
  /\ users (snd (fst (MongoMore.run delete_alice world))) = [root]
  /\ MongoMore.run
       (Deletes.Routes.dispatch (rt := runtime) Deletes.Routes.DeleteUserByEmail
          (user_request alice_header "root@news.example" no_user)) world
     = (Returned forbidden_admin, world,
        [Full.Called (Full.Old NewDate) (clock world)]).
Proof. vm_compute. repeat split. Qed.

(** The list needs no token, and a limit of a thousand is accepted. *)
Example list_of_all_articles :
  fst (fst (MongoMore.run
              (Reads.Controller.getAllArticles (rt := runtime)
                 (mkReq None None "" "" "" "" "" "" None (Some "1")
                    (Some "1000") ArticleDoc.empty no_user None true))
              world))
  = Returned (Reads.PageJson (Reads.mkPage [technologie] 1 (Some 1%Z) 1)).
Proof. reflexivity. Qed.

End NewsroomRest.
